(** * Envizo enterprise LLM platform: inference core

    A shallow embedding of the four managers under [src/llm/]
    ([semantic_cache.py], [load_balancer.py], [inference.py],
    [fine_tuning.py]) with the helpers of [src/utils.py] and the session
    helpers of [src/database.py] they call and two endpoints of
    [src/api/endpoints/fine_tuning.py], and the properties of the system
    description checked against them.

    Conventions.
    - Python [int] is [Z]; Python [float] is a binary64 [PrimFloat.float].
    - A Python [str] is a [string] holding its UTF-8 bytes, so that
      [text.encode()] is the list of its bytes.
    - [datetime] values are [Z] microseconds (the resolution of
      [datetime.utcnow()]); every call of [utcnow()] in the source is a
      separate argument of the embedded function.
    - A database table is the list of its rows in storage order; a
      committed session is the table passed on.
    - Python dictionaries are [gmap]s.
    - Code that can raise returns [Exc].
    - Opening a session is modelled where the source opens it with
      [async with get_db()], as [semantic_cache.py] and [fine_tuning.py]
      do: [get_db] is a plain generator function, and entering the
      statement raises (see [Session]). [load_balancer.py], [inference.py]
      and [utils.py] work on sessions of [get_async_db_ctx] or on the
      session they are given, which open; there a database call is the
      operation on the tables.
    - Awaiting is not modelled; the points where the source awaits are
      where the steps of the scheduler are cut. *)

From Stdlib Require Import ZArith List String Ascii Bool Lia.
From Stdlib Require Import Strings.Byte.
From Stdlib Require Import PrimFloat Uint63 FloatOps SpecFloat.
From stdpp Require Import gmap strings list pretty.

Local Open Scope Z_scope.

(** ** Python values and exceptions *)

Module Py.

(** An exception: its class name and [str(e)]. *)
Inductive exn : Type := Exn (kind : string) (msg : string).

Definition str_of_exn (e : exn) : string := let '(Exn _ msg) := e in msg.

(** [type(e).__name__] *)
Definition class_of_exn (e : exn) : string := let '(Exn kind _) := e in kind.

(** A computation that returns or raises. *)
Definition Exc (A : Type) : Type := exn + A.

Definition ret {A} (a : A) : Exc A := inr a.
Definition raise {A} (e : exn) : Exc A := inl e.

Definition bind {A B} (m : Exc A) (k : A -> Exc B) : Exc B :=
  match m with
  | inl e => inl e
  | inr a => k a
  end.

(** [try: m except Exception as e: h e] *)
Definition try_except {A} (m : Exc A) (h : exn -> A) : A :=
  match m with
  | inl e => h e
  | inr a => a
  end.

(** Truthiness of [Optional[str]]: [None] and the empty string are false. *)
Definition truthy (s : option string) : bool :=
  match s with
  | Some (String _ _) => true
  | _ => false
  end.

(** [a or b] on strings. *)
Definition str_or (a : option string) (b : string) : string :=
  match a with
  | Some (String c s) => String c s
  | _ => b
  end.

(** A [datetime], in microseconds. *)
Definition datetime : Type := Z.

(** [timedelta(seconds=s)] *)
Definition timedelta_seconds (s : Z) : Z := s * 1000000.

End Py.

Notation "'let*' x := m 'in' k" := (Py.bind m (fun x => k))
  (at level 10, x pattern, m at level 100, k at level 200).

(** ** Database sessions ([src/database.py]) *)

Module Session.

(** What [async with] is given: the generator object that a call of the
    generator function [get_db] returns, or the [AsyncDBSession] that
    [get_async_db_ctx] returns, which has [__aenter__] and [__aexit__]. *)
Inductive context : Type := Generator | AsyncDBSession.

Definition get_db : context := Generator.

Definition get_async_db_ctx : context := AsyncDBSession.

(** What [async with] raises on a generator object, which has no
    [__aenter__]; the class and the text are those of CPython 3.11 and
    later. *)
Definition not_a_context_manager : Py.exn :=
  Py.Exn "TypeError"
    "'generator' object does not support the asynchronous context manager protocol".

(** Entering [async with ctx as db:]. *)
Definition aenter (ctx : context) : Py.Exc unit :=
  match ctx with
  | AsyncDBSession => Py.ret tt
  | Generator => Py.raise not_a_context_manager
  end.

End Session.

(** ** hashlib.md5 (RFC 1321) on 32-bit words held in [Z] *)

Module Hashlib.

Definition mask32 : Z := 0xFFFFFFFF.

Definition add32 (x y : Z) : Z := Z.land (x + y) mask32.

Definition not32 (x : Z) : Z := Z.lxor x mask32.

Definition rotl32 (x : Z) (c : Z) : Z :=
  Z.land (Z.lor (Z.shiftl x c) (Z.shiftr x (32 - c))) mask32.

(** Per-round shift amounts. *)
Definition S_table : list Z :=
  [7; 12; 17; 22; 7; 12; 17; 22; 7; 12; 17; 22; 7; 12; 17; 22;
   5; 9; 14; 20; 5; 9; 14; 20; 5; 9; 14; 20; 5; 9; 14; 20;
   4; 11; 16; 23; 4; 11; 16; 23; 4; 11; 16; 23; 4; 11; 16; 23;
   6; 10; 15; 21; 6; 10; 15; 21; 6; 10; 15; 21; 6; 10; 15; 21].

(** [K_table[i] = floor(2^32 * abs(sin(i + 1)))] *)
Definition K_table : list Z :=
  [0xd76aa478; 0xe8c7b756; 0x242070db; 0xc1bdceee;
   0xf57c0faf; 0x4787c62a; 0xa8304613; 0xfd469501;
   0x698098d8; 0x8b44f7af; 0xffff5bb1; 0x895cd7be;
   0x6b901122; 0xfd987193; 0xa679438e; 0x49b40821;
   0xf61e2562; 0xc040b340; 0x265e5a51; 0xe9b6c7aa;
   0xd62f105d; 0x02441453; 0xd8a1e681; 0xe7d3fbc8;
   0x21e1cde6; 0xc33707d6; 0xf4d50d87; 0x455a14ed;
   0xa9e3e905; 0xfcefa3f8; 0x676f02d9; 0x8d2a4c8a;
   0xfffa3942; 0x8771f681; 0x6d9d6122; 0xfde5380c;
   0xa4beea44; 0x4bdecfa9; 0xf6bb4b60; 0xbebfbc70;
   0x289b7ec6; 0xeaa127fa; 0xd4ef3085; 0x04881d05;
   0xd9d4d039; 0xe6db99e5; 0x1fa27cf8; 0xc4ac5665;
   0xf4292244; 0x432aff97; 0xab9423a7; 0xfc93a039;
   0x655b59c3; 0x8f0ccc92; 0xffeff47d; 0x85845dd1;
   0x6fa87e4f; 0xfe2ce6e0; 0xa3014314; 0x4e0811a1;
   0xf7537e82; 0xbd3af235; 0x2ad7d2bb; 0xeb86d391].

Definition zbyte (b : byte) : Z := Z.of_N (Byte.to_N b).

Definition byte_of_Z (z : Z) : byte :=
  match Byte.of_N (Z.to_N (Z.land z 0xFF)) with
  | Some b => b
  | None => x00
  end.

(** Little-endian 32-bit word from four bytes, and back. *)
Definition word_of_le (b0 b1 b2 b3 : byte) : Z :=
  zbyte b0 + Z.shiftl (zbyte b1) 8 + Z.shiftl (zbyte b2) 16
  + Z.shiftl (zbyte b3) 24.

Definition le_of_word (w : Z) : list byte :=
  [byte_of_Z w; byte_of_Z (Z.shiftr w 8);
   byte_of_Z (Z.shiftr w 16); byte_of_Z (Z.shiftr w 24)].

Fixpoint words_of_bytes (bs : list byte) : list Z :=
  match bs with
  | b0 :: b1 :: b2 :: b3 :: rest => word_of_le b0 b1 b2 b3 :: words_of_bytes rest
  | _ => []
  end.

(** Message padding: one [0x80], zeros up to 56 modulo 64, then the bit
    length as a 64-bit little-endian integer. *)
Definition pad (msg : list byte) : list byte :=
  let len := Z.of_nat (List.length msg) in
  let zeros := Z.to_nat ((55 - len) mod 64) in
  let bits := Z.land (8 * len) 0xFFFFFFFFFFFFFFFF in
  msg ++ x80 :: List.repeat x00 zeros
      ++ le_of_word (Z.land bits mask32) ++ le_of_word (Z.shiftr bits 32).

Record state : Type := State { sa : Z; sb : Z; sc : Z; sd : Z }.

Definition init : state :=
  State 0x67452301 0xefcdab89 0x98badcfe 0x10325476.

(** One of the 64 operations of a block. *)
Definition round (M : list Z) (st : state) (i : nat) : state :=
  let '(State A B C D) := st in
  let zi := Z.of_nat i in
  let '(F, g) :=
    if zi <? 16 then (Z.lor (Z.land B C) (Z.land (not32 B) D), zi)
    else if zi <? 32 then
      (Z.lor (Z.land D B) (Z.land (not32 D) C), (5 * zi + 1) mod 16)
    else if zi <? 48 then (Z.lxor (Z.lxor B C) D, (3 * zi + 5) mod 16)
    else (Z.lxor C (Z.lor B (not32 D)), (7 * zi) mod 16) in
  let F' := add32 (add32 (add32 F A) (nth i K_table 0)) (nth (Z.to_nat g) M 0) in
  State D (add32 B (rotl32 F' (nth i S_table 0))) B C.

Definition process_block (st : state) (M : list Z) : state :=
  let st' := fold_left (round M) (seq 0 64) st in
  State (add32 (sa st) (sa st')) (add32 (sb st) (sb st'))
        (add32 (sc st) (sc st')) (add32 (sd st) (sd st')).

(** The 16-word blocks of a padded message; [fuel] bounds the block count. *)
Fixpoint blocks (fuel : nat) (ws : list Z) : list (list Z) :=
  match fuel, ws with
  | O, _ | _, [] => []
  | S fuel', _ => firstn 16 ws :: blocks fuel' (skipn 16 ws)
  end.

Definition md5_state (msg : list byte) : state :=
  let ws := words_of_bytes (pad msg) in
  fold_left process_block (blocks (List.length ws) ws) init.

(** [hashlib.md5(msg).digest()] *)
Definition md5_digest (msg : list byte) : list byte :=
  let st := md5_state msg in
  le_of_word (sa st) ++ le_of_word (sb st)
  ++ le_of_word (sc st) ++ le_of_word (sd st).

Definition hex_digit (n : Z) : ascii :=
  nth (Z.to_nat n) (list_ascii_of_string "0123456789abcdef") "0"%char.

Definition hex_of_byte (b : byte) : list ascii :=
  [hex_digit (Z.shiftr (zbyte b) 4); hex_digit (Z.land (zbyte b) 0xF)].

(** [hashlib.md5(msg).hexdigest()] *)
Definition md5_hexdigest (msg : list byte) : string :=
  string_of_list_ascii (List.flat_map hex_of_byte (md5_digest msg)).

(** [s.encode()] *)
Definition encode (s : string) : list byte := list_byte_of_string s.

End Hashlib.

(** ** Configuration ([src/config.py]) *)

Record Settings : Type := {
  LLM_DEFAULT_MODEL : string;
  LOAD_BALANCER_STRATEGY : string;
  ENABLE_SEMANTIC_CACHE : bool;
  SEMANTIC_CACHE_EXPIRY_SECONDS : Z;
  SEMANTIC_CACHE_SIMILARITY_THRESHOLD : float
}.

(** The values [Settings] takes when the environment sets none. *)
Definition default_settings : Settings := {|
  LLM_DEFAULT_MODEL := "mistral-7b";
  LOAD_BALANCER_STRATEGY := "round_robin";
  ENABLE_SEMANTIC_CACHE := true;
  SEMANTIC_CACHE_EXPIRY_SECONDS := 3600;
  SEMANTIC_CACHE_SIMILARITY_THRESHOLD := 0x1.e666666666666p-1%float
|}.

(** ** The embedding of a prompt ([SemanticCache.compute_embedding]) *)

Module Embedding.

Import Hashlib.

(** [float(n)] for a small non-negative [int]. *)
Definition float_of_Z (n : Z) : float := PrimFloat.of_uint63 (Uint63.of_Z n).

(** [(hash_bytes[i] * 256 + hash_bytes[i+1]) / 65535.0] *)
Definition pair_value (hi lo : byte) : float :=
  PrimFloat.div (float_of_Z (zbyte hi * 256 + zbyte lo)) 65535%float.

(** The loop [for i in range(0, len(hash_bytes), 2)], which appends a value
    only [if i+1 < len(hash_bytes)]. *)
Fixpoint hash_values (hash_bytes : list byte) : list float :=
  match hash_bytes with
  | hi :: lo :: rest => pair_value hi lo :: hash_values rest
  | _ => []
  end.

(** [while len(embedding) < 16: embedding.append(0.0)] *)
Definition pad_to (n : nat) (embedding : list float) : list float :=
  embedding ++ List.repeat 0%float (n - List.length embedding).

Definition compute_embedding (text : string) : list float :=
  let hash_bytes := md5_digest (encode text) in
  let embedding := hash_values hash_bytes in
  let embedding := firstn 16 embedding in
  pad_to 16 embedding.

(** [0.0 <= v <= 1.0] on floats. *)
Definition in_unit_interval (v : float) : bool :=
  PrimFloat.leb 0%float v && PrimFloat.leb v 1%float.

(** A bounded universal quantifier over consecutive integers. *)
Fixpoint all_from (f : Z -> bool) (n : nat) (z : Z) : bool :=
  match n with
  | O => true
  | S n' => f z && all_from f n' (z + 1)
  end.

End Embedding.


(** ** Figures as the metrics dictionaries carry them

    The figures of a server are what [response.json()] gave: any JSON
    value. [Int] and [Float] are the Python numbers, JSON [true] and
    [false] are Python [bool], which counts as the integers 1 and 0;
    [Null], [Str], [Arr] and [Obj] are not numbers. An object is the list
    of its members, with distinct keys. The operators are Python's [+], [-],
    [<] and [>] on these values: exact on numbers (an [int] is compared
    with a [float] by value, and converted to the nearest [float], ties to
    even, for arithmetic), and [TypeError] where Python has no such
    operation. Python compares the items of two lists by identity before
    it compares them by value; here they are compared by value, which
    differs only for a NaN that is the same object on both sides. *)

Module Num.

#[local] Unset Elimination Schemes.

Inductive num : Type :=
| Int (z : Z)
| Float (f : float)
| Bool (b : bool)
| Null
| Str (s : string)
| Arr (items : list num)
| Obj (members : list (string * num)).

#[local] Set Elimination Schemes.

(** [type(v).__name__] *)
Definition type_name (v : num) : string :=
  match v with
  | Int _ => "int"
  | Float _ => "float"
  | Bool _ => "bool"
  | Null => "NoneType"
  | Str _ => "str"
  | Arr _ => "list"
  | Obj _ => "dict"
  end.

(** The number a value is, when it is one. *)
Definition as_number (v : num) : option (Z + float) :=
  match v with
  | Int z => Some (inl z)
  | Bool b => Some (inl (if b then 1 else 0))
  | Float f => Some (inr f)
  | _ => None
  end.

(** [float(z)]: the nearest float, ties to even; [OverflowError] beyond
    the range of floats. *)
Definition float_of_int (z : Z) : Py.Exc float :=
  match binary_normalize prec emax z 0 false with
  | S754_infinity _ =>
      Py.raise (Py.Exn "OverflowError" "int too large to convert to float")
  | x => Py.ret (SF2Prim x)
  end.

Definition to_float (n : Z + float) : Py.Exc float :=
  match n with
  | inl z => float_of_int z
  | inr f => Py.ret f
  end.

(** The order of an [int] and a [float], by value; [None] for a NaN. *)
Definition compare_int_float (z : Z) (f : float) : option comparison :=
  match Prim2SF f with
  | S754_nan => None
  | S754_infinity s => Some (if s then Gt else Lt)
  | S754_zero _ => Some (z ?= 0)
  | S754_finite s m e =>
      let v := if s then Z.neg m else Z.pos m in
      if 0 <=? e then Some (z ?= v * 2 ^ e) else Some (z * 2 ^ (- e) ?= v)
  end.

Definition number_ltb (a b : Z + float) : bool :=
  match a, b with
  | inl x, inl y => x <? y
  | inl x, inr g =>
      match compare_int_float x g with Some Lt => true | _ => false end
  | inr f, inl y =>
      match compare_int_float y f with Some Gt => true | _ => false end
  | inr f, inr g => PrimFloat.ltb f g
  end.

Definition number_eqb (a b : Z + float) : bool :=
  match a, b with
  | inl x, inl y => x =? y
  | inl x, inr g =>
      match compare_int_float x g with Some Eq => true | _ => false end
  | inr f, inl y =>
      match compare_int_float y f with Some Eq => true | _ => false end
  | inr f, inr g => PrimFloat.eqb f g
  end.

(** [a == b] *)
Fixpoint eqb (a b : num) {struct a} : bool :=
  match a, b with
  | Null, Null => true
  | Str s1, Str s2 => String.eqb s1 s2
  | Arr l1, Arr l2 =>
      (fix all (l1 l2 : list num) {struct l1} : bool :=
         match l1, l2 with
         | [], [] => true
         | x :: xs, y :: ys => eqb x y && all xs ys
         | _, _ => false
         end) l1 l2
  | Obj d1, Obj d2 =>
      Nat.eqb (List.length d1) (List.length d2)
      && (fix all (d : list (string * num)) {struct d} : bool :=
            match d with
            | [] => true
            | (k, v) :: rest =>
                match List.find (fun kv => String.eqb (fst kv) k) d2 with
                | Some (_, v') => eqb v v'
                | None => false
                end
                && all rest
            end) d1
  | _, _ =>
      match as_number a, as_number b with
      | Some x, Some y => number_eqb x y
      | _, _ => false
      end
  end.

Definition not_supported (op : string) (a b : num) : Py.exn :=
  Py.Exn "TypeError"
    ("'" +:+ op +:+ "' not supported between instances of '" +:+ type_name a
     +:+ "' and '" +:+ type_name b +:+ "'").

(** [a < b] when [gt] is [false], [a > b] when it is [true]. *)
Fixpoint compare_with (gt : bool) (a b : num) {struct a} : Py.Exc bool :=
  match a, b with
  | Str s1, Str s2 =>
      Py.ret (match String.compare s1 s2 with
              | Lt => negb gt
              | Gt => gt
              | Eq => false
              end)
  | Arr l1, Arr l2 =>
      (fix go (l1 l2 : list num) {struct l1} : Py.Exc bool :=
         match l1, l2 with
         | [], [] => Py.ret false
         | [], _ :: _ => Py.ret (negb gt)
         | _ :: _, [] => Py.ret gt
         | x :: xs, y :: ys => if eqb x y then go xs ys else compare_with gt x y
         end) l1 l2
  | _, _ =>
      match as_number a, as_number b with
      | Some x, Some y => Py.ret (if gt then number_ltb y x else number_ltb x y)
      | _, _ => Py.raise (not_supported (if gt then ">" else "<") a b)
      end
  end.

(** [a < b] *)
Definition lt (a b : num) : Py.Exc bool := compare_with false a b.

(** [a > b] *)
Definition gt (a b : num) : Py.Exc bool := compare_with true a b.

Definition unsupported_operand (op : string) (a b : num) : Py.exn :=
  Py.Exn "TypeError"
    ("unsupported operand type(s) for " +:+ op +:+ ": '" +:+ type_name a
     +:+ "' and '" +:+ type_name b +:+ "'").

Definition double_quote : string := String (ascii_of_nat 34) EmptyString.

(** The error of [a + b] for a string or list [a] and a [b] of another
    type. *)
Definition cannot_concatenate (a b : num) : Py.exn :=
  Py.Exn "TypeError"
    ("can only concatenate " +:+ type_name a +:+ " (not " +:+ double_quote
     +:+ type_name b +:+ double_quote +:+ ") to " +:+ type_name a).

(** [a + b] *)
Definition add (a b : num) : Py.Exc num :=
  match as_number a, as_number b with
  | Some (inl x), Some (inl y) => Py.ret (Int (x + y))
  | Some x, Some y =>
      let* f := to_float x in
      let* g := to_float y in
      Py.ret (Float (PrimFloat.add f g))
  | _, _ =>
      match a, b with
      | Str s1, Str s2 => Py.ret (Str (s1 +:+ s2))
      | Arr l1, Arr l2 => Py.ret (Arr (l1 ++ l2))
      | Str _, _ | Arr _, _ => Py.raise (cannot_concatenate a b)
      | _, _ => Py.raise (unsupported_operand "+" a b)
      end
  end.

(** [a - b] *)
Definition sub (a b : num) : Py.Exc num :=
  match as_number a, as_number b with
  | Some (inl x), Some (inl y) => Py.ret (Int (x - y))
  | Some x, Some y =>
      let* f := to_float x in
      let* g := to_float y in
      Py.ret (Float (PrimFloat.sub f g))
  | _, _ => Py.raise (unsupported_operand "-" a b)
  end.

(** The errors the operators above raise: a value that is not a number,
    or an integer beyond the range of floats. *)
Definition figure_error (e : Py.exn) : Prop :=
  Py.class_of_exn e = "TypeError"%string
  \/ Py.class_of_exn e = "OverflowError"%string.

End Num.

(** ** Tables ([src/models.py]) *)

Module LLMModel.
Record t : Type := mk {
  id : Z;
  name : string;
  version : string;
  is_fine_tuned : bool;
  base_model : option string
}.
End LLMModel.

Module ServerNode.
Record t : Type := mk {
  id : Z;
  name : string;
  host : string;
  port : Z;
  api_key : option string;
  gpu_count : Z;
  gpu_memory : Z;
  is_active : bool;
  health_status : string
}.
End ServerNode.

(** [id] and [timestamp], which the database fills in, are left out. *)
Module ServerLoadMetrics.
Record t : Type := mk {
  server_id : Z;
  gpu_utilization : Num.num;
  gpu_memory_used : Num.num;
  gpu_memory_total : Num.num;
  cpu_utilization : Num.num;
  active_requests : Num.num;
  queue_depth : Num.num
}.
End ServerLoadMetrics.

Module QueryStatus.
Inductive t : Type := PENDING | PROCESSING | COMPLETED | FAILED | CACHED.
End QueryStatus.

(** [source], [client_ip], [query_metadata] and [created_at] are written once
    by [log_query] and read by no manager; they are left out. *)
Module Query.
Record t : Type := mk {
  id : Z;
  user_id : option Z;
  model_id : Z;
  query_text : string;
  response_text : option string;
  status : QueryStatus.t;
  token_count_prompt : Z;
  token_count_response : Z;
  processing_time_ms : float;
  completed_at : option Py.datetime;
  cached : bool;
  cache_key : option string;
  error_message : option string
}.
End Query.

(** A row of [semantic_cache] as [semantic_cache.py] reads and writes it.
    The attribute [cache_key] is used there, but it is not among the
    [columns] of the class: the code that reads or sets it goes through
    [SemanticCache.getattr] and [SemanticCache.check_kwargs], which raise. *)
Module SemanticCacheEntry.
Record t : Type := mk {
  id : Z;
  query_text : string;
  query_embedding : option string;
  response_text : string;
  model_id : Z;
  created_at : Py.datetime;
  expires_at : Py.datetime;
  hit_count : Z;
  cache_key : option string
}.

(** The columns [class SemanticCacheEntry(Base)] declares in [models.py]. *)
Definition columns : list string :=
  ["id"; "query_text"; "query_embedding"; "response_text"; "model_id";
   "created_at"; "expires_at"; "hit_count"]%string.

(** [entry.hit_count += 1] *)
Definition bump (e : t) : t :=
  mk (id e) (query_text e) (query_embedding e) (response_text e) (model_id e)
     (created_at e) (expires_at e) (hit_count e + 1) (cache_key e).

(** [entry.cache_key = k] *)
Definition set_cache_key (k : option string) (e : t) : t :=
  mk (id e) (query_text e) (query_embedding e) (response_text e) (model_id e)
     (created_at e) (expires_at e) (hit_count e) k.
End SemanticCacheEntry.

Module FineTuningJobStatus.
Inductive t : Type := QUEUED | PREPARING | RUNNING | COMPLETED | FAILED | CANCELLED.

Definition eqb (a b : t) : bool :=
  match a, b with
  | QUEUED, QUEUED | PREPARING, PREPARING | RUNNING, RUNNING
  | COMPLETED, COMPLETED | FAILED, FAILED | CANCELLED, CANCELLED => true
  | _, _ => false
  end.
End FineTuningJobStatus.

(** A value of the [metrics] JSON column of a job. *)
Module Json.
Inductive value : Type := Num (n : Num.num) | Str (s : string).
End Json.

(** [description], the file references and [hyperparameters] are written
    once by [create_job] and only copied afterwards; they are left out. *)
Module FineTuningJob.
Record t : Type := mk {
  id : Z;
  name : string;
  user_id : Z;
  base_model_id : Z;
  status : FineTuningJobStatus.t;
  metrics : option (gmap string Json.value);
  output_model_name : option string;
  created_at : Py.datetime;
  started_at : option Py.datetime;
  completed_at : option Py.datetime
}.

Definition set_status (s : FineTuningJobStatus.t) (j : t) : t :=
  mk (id j) (name j) (user_id j) (base_model_id j) s (metrics j)
     (output_model_name j) (created_at j) (started_at j) (completed_at j).

Definition set_metrics (m : option (gmap string Json.value)) (j : t) : t :=
  mk (id j) (name j) (user_id j) (base_model_id j) (status j) m
     (output_model_name j) (created_at j) (started_at j) (completed_at j).

Definition set_started_at (d : option Py.datetime) (j : t) : t :=
  mk (id j) (name j) (user_id j) (base_model_id j) (status j) (metrics j)
     (output_model_name j) (created_at j) d (completed_at j).

Definition set_completed_at (d : option Py.datetime) (j : t) : t :=
  mk (id j) (name j) (user_id j) (base_model_id j) (status j) (metrics j)
     (output_model_name j) (created_at j) (started_at j) d.

Definition set_output_model_name (n : option string) (j : t) : t :=
  mk (id j) (name j) (user_id j) (base_model_id j) (status j) (metrics j)
     n (created_at j) (started_at j) (completed_at j).
End FineTuningJob.

(** The durable store: one list of rows per table, in storage order. *)
Module Database.
Record t : Type := mk {
  users : list Z;
  llm_models : list LLMModel.t;
  server_nodes : list ServerNode.t;
  server_load_metrics : list ServerLoadMetrics.t;
  queries : list Query.t;
  semantic_cache : list SemanticCacheEntry.t;
  fine_tuning_jobs : list FineTuningJob.t
}.

Definition empty : t := mk [] [] [] [] [] [] [].

Definition set_llm_models (v : list LLMModel.t) (d : t) : t :=
  mk (users d) v (server_nodes d) (server_load_metrics d) (queries d)
     (semantic_cache d) (fine_tuning_jobs d).

Definition set_server_load_metrics (v : list ServerLoadMetrics.t) (d : t) : t :=
  mk (users d) (llm_models d) (server_nodes d) v (queries d)
     (semantic_cache d) (fine_tuning_jobs d).

Definition set_queries (v : list Query.t) (d : t) : t :=
  mk (users d) (llm_models d) (server_nodes d) (server_load_metrics d) v
     (semantic_cache d) (fine_tuning_jobs d).

Definition set_semantic_cache (v : list SemanticCacheEntry.t) (d : t) : t :=
  mk (users d) (llm_models d) (server_nodes d) (server_load_metrics d)
     (queries d) v (fine_tuning_jobs d).

Definition set_fine_tuning_jobs (v : list FineTuningJob.t) (d : t) : t :=
  mk (users d) (llm_models d) (server_nodes d) (server_load_metrics d)
     (queries d) (semantic_cache d) v.

(** The primary key the database gives to a new row. *)
Definition next_id (ids : list Z) : Z := 1 + fold_right Z.max 0 ids.
End Database.

(** ** json and numpy, as [semantic_cache.py] uses them

    [json_dumps] and [json_loads] are [json.dumps] and [json.loads] on a
    list of floats ([None] stands for [JSONDecodeError]); [np_dot] is
    [numpy.dot] on two vectors, which raises when their shapes differ, and
    [np_norm] is [numpy.linalg.norm]. *)
Class PyLibs : Type := {
  json_dumps : list float -> string;
  json_loads : string -> option (list float);
  np_dot : list float -> list float -> Py.Exc float;
  np_norm : list float -> float
}.

(** ** The response cache ([src/llm/semantic_cache.py]) *)

Module SemanticCache.

(** [self] after [__init__]. *)
Record t : Type := mk {
  similarity_threshold : float;
  cache_expiry_seconds : Z
}.

Definition __init__ (settings : Settings) : t :=
  mk (SEMANTIC_CACHE_SIMILARITY_THRESHOLD settings)
     (SEMANTIC_CACHE_EXPIRY_SECONDS settings).

(** The dictionary [get] returns. *)
Record CachedResponse : Type := mkResponse {
  response : string;
  prompt_tokens : Z;
  completion_tokens : Z;
  model_id : Z
}.

Definition hit_of (entry : SemanticCacheEntry.t) : CachedResponse :=
  mkResponse (SemanticCacheEntry.response_text entry) 0 0
             (SemanticCacheEntry.model_id entry).

Definition has_column (name : string) : bool :=
  existsb (String.eqb name) SemanticCacheEntry.columns.

(** [SemanticCacheEntry.<name>] on the mapped class, or [entry.<name>] on
    one of its instances that never had the attribute set. *)
Definition getattr (name : string) : Py.Exc unit :=
  if has_column name then Py.ret tt
  else Py.raise (Py.Exn "AttributeError"
         ("'SemanticCacheEntry' has no attribute '" +:+ name +:+ "'")).

(** [SemanticCacheEntry(...)] with keyword arguments: the declarative
    constructor rejects a keyword that is not an attribute of the mapped
    class. *)
Fixpoint check_kwargs (kwargs : list string) : Py.Exc unit :=
  match kwargs with
  | [] => Py.ret tt
  | k :: rest =>
      if has_column k then check_kwargs rest
      else Py.raise (Py.Exn "TypeError"
             ("'" +:+ k +:+ "' is an invalid keyword argument for SemanticCacheEntry"))
  end.

Definition option_string_eqb (a b : option string) : bool :=
  match a, b with
  | Some x, Some y => String.eqb x y
  | None, None => true
  | _, _ => false
  end.

(** [SemanticCacheEntry.expires_at > now] *)
Definition unexpired (now : Py.datetime) (entry : SemanticCacheEntry.t) : bool :=
  now <? SemanticCacheEntry.expires_at entry.

(** The [where] clause of the look-up by cache key. *)
Definition key_filter (cache_key : string) (model_id : Z) (now : Py.datetime)
    (entry : SemanticCacheEntry.t) : bool :=
  option_string_eqb (SemanticCacheEntry.cache_key entry) (Some cache_key)
  && (SemanticCacheEntry.model_id entry =? model_id)
  && unexpired now entry.

(** The [where] clause of the similarity scan. *)
Definition model_filter (model_id : Z) (now : Py.datetime)
    (entry : SemanticCacheEntry.t) : bool :=
  (SemanticCacheEntry.model_id entry =? model_id) && unexpired now entry.

(** [result.scalars().first()], with the rest of the table around it. *)
Fixpoint select_first {A} (p : A -> bool) (rows : list A)
    : option (list A * A * list A) :=
  match rows with
  | [] => None
  | r :: rest =>
      if p r then Some ([], r, rest)
      else match select_first p rest with
           | Some (before, x, after) => Some (r :: before, x, after)
           | None => None
           end
  end.

Section WithLibs.

Context {libs : PyLibs}.

Definition cosine_similarity (vec1 vec2 : list float) : Py.Exc float :=
  let* dot_product := np_dot vec1 vec2 in
  let norm1 := np_norm vec1 in
  let norm2 := np_norm vec2 in
  if PrimFloat.eqb norm1 0%float || PrimFloat.eqb norm2 0%float
  then Py.ret 0%float
  else Py.ret (PrimFloat.div dot_product (PrimFloat.mul norm1 norm2)).

(** What the body of [for entry in entries] does with one selected entry:
    [None] to continue with the next one, or the updated entry to commit
    and return. *)
Definition try_entry (self : t)
    (prompt_embedding : list float) (cache_key : option string)
    (entry : SemanticCacheEntry.t) : Py.Exc (option SemanticCacheEntry.t) :=
  match SemanticCacheEntry.query_embedding entry with
  | Some (String c s) =>
      match json_loads (String c s) with
      | None => Py.ret None
      | Some entry_embedding =>
          let* similarity := cosine_similarity prompt_embedding entry_embedding in
          if PrimFloat.leb (similarity_threshold self) similarity then
            let entry := SemanticCacheEntry.bump entry in
            if Py.truthy cache_key then
              let* _ := getattr "cache_key" in
              if negb (Py.truthy (SemanticCacheEntry.cache_key entry))
              then Py.ret (Some (SemanticCacheEntry.set_cache_key cache_key entry))
              else Py.ret (Some entry)
            else Py.ret (Some entry)
          else Py.ret None
      end
  | _ => Py.ret None
  end.

(** The similarity scan over the table in storage order; the entries the
    [where] clause does not select are passed over. *)
Fixpoint scan (self : t) (prompt_embedding : list float)
    (model_id : Z) (cache_key : option string) (now : Py.datetime)
    (rows : list SemanticCacheEntry.t)
    : Py.Exc (option (CachedResponse * list SemanticCacheEntry.t)) :=
  match rows with
  | [] => Py.ret None
  | entry :: rest =>
      let* found :=
        (if model_filter model_id now entry
         then try_entry self prompt_embedding cache_key entry
         else Py.ret None) in
      match found with
      | Some entry' => Py.ret (Some (hit_of entry', entry' :: rest))
      | None =>
          let* later := scan self prompt_embedding model_id cache_key now rest in
          Py.ret (option_map (fun '(r, rest') => (r, entry :: rest')) later)
      end
  end.

(** The look-up by cache key inside its session: [None] when no entry is
    selected. *)
Definition get_by_key (cache_key : string) (model_id : Z)
    (now : Py.datetime) (rows : list SemanticCacheEntry.t)
    : Py.Exc (option (CachedResponse * list SemanticCacheEntry.t)) :=
  let* _ := getattr "cache_key" in
  match select_first (key_filter cache_key model_id now) rows with
  | Some (before, entry, after) =>
      let entry := SemanticCacheEntry.bump entry in
      Py.ret (Some (hit_of entry, before ++ entry :: after))
  | None => Py.ret None
  end.

(** The block under [if cache_key:], which opens its session first. *)
Definition key_path (cache_key : option string)
    (model_id : Z) (now : Py.datetime) (rows : list SemanticCacheEntry.t)
    : Py.Exc (option (CachedResponse * list SemanticCacheEntry.t)) :=
  match cache_key with
  | Some (String c s) =>
      let* _ := Session.aenter Session.get_db in
      get_by_key (String c s) model_id now rows
  | _ => Py.ret None
  end.

(** [SemanticCache.get]; [now_key] and [now_scan] are the two readings of
    [datetime.utcnow()]. The table is returned with the result. Each of
    the two queries runs in a session of its own, opened with
    [async with get_db()]. *)
Definition get (settings : Settings) (self : t)
    (now_key now_scan : Py.datetime)
    (prompt : string) (model_id : Z) (cache_key : option string)
    (rows : list SemanticCacheEntry.t)
    : Py.Exc (option CachedResponse * list SemanticCacheEntry.t) :=
  if negb (ENABLE_SEMANTIC_CACHE settings) then Py.ret (None, rows)
  else
    let* by_key := key_path cache_key model_id now_key rows in
    match by_key with
    | Some (r, rows') => Py.ret (Some r, rows')
    | None =>
        let prompt_embedding := Embedding.compute_embedding prompt in
        let* _ := Session.aenter Session.get_db in
        let* found := scan self prompt_embedding model_id cache_key now_scan rows in
        match found with
        | Some (r, rows') => Py.ret (Some r, rows')
        | None => Py.ret (None, rows)
        end
    end.

(** [SemanticCache.add]; [now_created] and [now_expires] are the two
    readings of [datetime.utcnow()]. The entry is built first, then the
    session is opened with [async with get_db()]. *)
Definition add (settings : Settings) (self : t)
    (now_created now_expires : Py.datetime)
    (prompt response : string) (model_id : Z) (cache_key : option string)
    (rows : list SemanticCacheEntry.t) : Py.Exc (list SemanticCacheEntry.t) :=
  if negb (ENABLE_SEMANTIC_CACHE settings) then Py.ret rows
  else
    let prompt_embedding := Embedding.compute_embedding prompt in
    let embedding_json := json_dumps prompt_embedding in
    let* _ := check_kwargs
                ["query_text"; "query_embedding"; "response_text"; "model_id";
                 "created_at"; "expires_at"; "hit_count"; "cache_key"]%string in
    let cache_entry :=
      SemanticCacheEntry.mk
        (Database.next_id (map SemanticCacheEntry.id rows))
        prompt (Some embedding_json) response model_id now_created
        (now_expires + Py.timedelta_seconds (cache_expiry_seconds self))
        0 cache_key in
    let* _ := Session.aenter Session.get_db in
    Py.ret (rows ++ [cache_entry]).

(** [_clean_expired_entries]: in a session opened with
    [async with get_db()], deletes the rows with [expires_at < now]. *)
Definition _clean_expired_entries (now : Py.datetime)
    (rows : list SemanticCacheEntry.t) : Py.Exc (list SemanticCacheEntry.t) :=
  let* _ := Session.aenter Session.get_db in
  Py.ret (List.filter
            (fun entry => negb (SemanticCacheEntry.expires_at entry <? now)) rows).

End WithLibs.

End SemanticCache.

(** ** Outbound HTTP calls *)

Module Http.

(** What [await client.get(...)] or [await client.post(...)] yields: the
    call raises (time-out, refused connection), or a response arrives with
    its status code, its text and the outcome of [response.json()]. *)
Inductive reply (A : Type) : Type :=
| Raises (e : Py.exn)
| Response (status_code : Z) (text : string) (json : Py.Exc A).

Arguments Raises {A} e.
Arguments Response {A} status_code text json.

End Http.

(** ** [get_server_load_metrics] ([src/utils.py]) *)

Module Utils.

(** The dictionary returned when the metrics cannot be fetched. *)
Definition default_load_metrics (server : ServerNode.t) : gmap string Num.num :=
  <["gpu_utilization" := Num.Float 0%float]>
  (<["gpu_memory_used" := Num.Float 0%float]>
  (<["gpu_memory_total" := Num.Int (ServerNode.gpu_memory server)]>
  (<["cpu_utilization" := Num.Float 0%float]>
  (<["active_requests" := Num.Int 0]>
  (<["queue_depth" := Num.Int 0]> ∅))))).

Definition get_server_load_metrics (server : ServerNode.t)
    (reply : Http.reply (gmap string Num.num)) : gmap string Num.num :=
  match reply with
  | Http.Response status_code _ json =>
      if status_code =? 200 then
        match json with
        | inr metrics => metrics
        | inl _ => default_load_metrics server
        end
      else default_load_metrics server
  | Http.Raises _ => default_load_metrics server
  end.

(** The fetch succeeded: status 200 and a body that parses. *)
Definition fetched (reply : Http.reply (gmap string Num.num)) : bool :=
  match reply with
  | Http.Response status_code _ (inr _) => status_code =? 200
  | _ => false
  end.

(** [compute_cache_key] *)
Definition compute_cache_key (prompt model : string) : string :=
  let hash_input := prompt +:+ ":" +:+ model in
  Hashlib.md5_hexdigest (Hashlib.encode hash_input).

Definition upper_ascii (c : ascii) : ascii :=
  let n := nat_of_ascii c in
  if ((97 <=? n) && (n <=? 122))%nat then ascii_of_nat (n - 32) else c.

(** [s.upper()] on ASCII text *)
Fixpoint upper (s : string) : string :=
  match s with
  | EmptyString => EmptyString
  | String c rest => String (upper_ascii c) (upper rest)
  end.

(** [getattr(QueryStatus, status.upper(), QueryStatus.COMPLETED)] *)
Definition query_status (status : string) : QueryStatus.t :=
  let name := upper status in
  if String.eqb name "PENDING" then QueryStatus.PENDING
  else if String.eqb name "PROCESSING" then QueryStatus.PROCESSING
  else if String.eqb name "COMPLETED" then QueryStatus.COMPLETED
  else if String.eqb name "FAILED" then QueryStatus.FAILED
  else if String.eqb name "CACHED" then QueryStatus.CACHED
  else QueryStatus.COMPLETED.

(** [log_query]: adds a pending request and returns its id. *)
Definition log_query (db : Database.t) (user_id : option Z) (model_id : Z)
    (query_text : string) : Z * Database.t :=
  let id := Database.next_id (map Query.id (Database.queries db)) in
  let query :=
    Query.mk id user_id model_id query_text None QueryStatus.PENDING
             0 0 0%float None false None None in
  (id, Database.set_queries (Database.queries db ++ [query]) db).

(** Changes the first row that satisfies [p]. *)
Fixpoint update_first {A} (p : A -> bool) (f : A -> A) (rows : list A) : list A :=
  match rows with
  | [] => []
  | r :: rest => if p r then f r :: rest else r :: update_first p f rest
  end.

(** [update_query_response]; [now] is its reading of [datetime.utcnow()].
    Nothing changes when no request has the id. *)
Definition update_query_response (db : Database.t) (query_id : Z)
    (response_text : string) (token_count_prompt token_count_response : Z)
    (processing_time_ms : float) (status : string) (cached : bool)
    (cache_key error_message : option string) (now : Py.datetime) : Database.t :=
  let write (query : Query.t) : Query.t :=
    Query.mk (Query.id query) (Query.user_id query) (Query.model_id query)
      (Query.query_text query) (Some response_text) (query_status status)
      token_count_prompt token_count_response processing_time_ms (Some now)
      cached
      (if Py.truthy cache_key then cache_key else Query.cache_key query)
      (if Py.truthy error_message then error_message
       else Query.error_message query) in
  Database.set_queries
    (update_first (fun query => Query.id query =? query_id) write
                  (Database.queries db)) db.

(** [update(Query).where(Query.id == query_id).values(status=s)] *)
Definition set_query_status (db : Database.t) (query_id : Z)
    (s : QueryStatus.t) : Database.t :=
  let write (query : Query.t) : Query.t :=
    Query.mk (Query.id query) (Query.user_id query) (Query.model_id query)
      (Query.query_text query) (Query.response_text query) s
      (Query.token_count_prompt query) (Query.token_count_response query)
      (Query.processing_time_ms query) (Query.completed_at query)
      (Query.cached query) (Query.cache_key query) (Query.error_message query) in
  Database.set_queries
    (map (fun query => if Query.id query =? query_id then write query else query)
         (Database.queries db)) db.

End Utils.

(** ** The load balancer ([src/llm/load_balancer.py]) *)

Module LLMLoadBalancer.

Record t : Type := mk {
  servers : list ServerNode.t;
  server_metrics : gmap Z (gmap string Num.num);
  last_server_index : Z;
  initialized : bool;
  load_balancing_strategy : string
}.

Definition __init__ (settings : Settings) : t :=
  mk [] ∅ (-1) false (LOAD_BALANCER_STRATEGY settings).

Definition set_servers (v : list ServerNode.t) (self : t) : t :=
  mk v (server_metrics self) (last_server_index self) (initialized self)
     (load_balancing_strategy self).

Definition set_server_metrics (v : gmap Z (gmap string Num.num)) (self : t) : t :=
  mk (servers self) v (last_server_index self) (initialized self)
     (load_balancing_strategy self).

Definition set_last_server_index (v : Z) (self : t) : t :=
  mk (servers self) (server_metrics self) v (initialized self)
     (load_balancing_strategy self).

Definition healthy (server : ServerNode.t) : bool :=
  String.eqb (ServerNode.health_status server) "healthy".

(** The dictionary a server gets when it is first seen. *)
Definition initial_metrics (server : ServerNode.t) (now : float)
    : gmap string Num.num :=
  <["last_updated" := Num.Float now]> (Utils.default_load_metrics server).

(** [refresh_servers]; [time_time id] is the reading of [time.time()] taken
    for the server [id]. *)
Definition refresh_servers (time_time : Z -> float) (db : Database.t) (self : t) : t :=
  let servers := List.filter ServerNode.is_active (Database.server_nodes db) in
  let metrics :=
    fold_left
      (fun (m : gmap Z (gmap string Num.num)) server =>
         match m !! ServerNode.id server with
         | Some _ => m
         | None => <[ServerNode.id server :=
                       initial_metrics server (time_time (ServerNode.id server))]> m
         end)
      servers (server_metrics self) in
  set_server_metrics metrics (set_servers servers self).

(** The row [_collect_all_server_metrics] stores for one server. *)
Definition load_row (server : ServerNode.t) (metrics : gmap string Num.num)
    : ServerLoadMetrics.t :=
  ServerLoadMetrics.mk
    (ServerNode.id server)
    (default (Num.Float 0%float) (metrics !! "gpu_utilization"))
    (default (Num.Float 0%float) (metrics !! "gpu_memory_used"))
    (default (Num.Int (ServerNode.gpu_memory server)) (metrics !! "gpu_memory_total"))
    (default (Num.Float 0%float) (metrics !! "cpu_utilization"))
    (default (Num.Int 0) (metrics !! "active_requests"))
    (default (Num.Int 0) (metrics !! "queue_depth")).

(** The body of the loop of [_collect_all_server_metrics] for one server:
    the metrics cache and the rows added to the session so far. *)
Definition collect_one (http_get : ServerNode.t -> Http.reply (gmap string Num.num))
    (time_time : Z -> float)
    (acc : gmap Z (gmap string Num.num) * list ServerLoadMetrics.t)
    (server : ServerNode.t)
    : gmap Z (gmap string Num.num) * list ServerLoadMetrics.t :=
  if negb (healthy server) then acc
  else
    let metrics := Utils.get_server_load_metrics server (http_get server) in
    (<[ServerNode.id server :=
         <["last_updated" := Num.Float (time_time (ServerNode.id server))]> metrics]>
       (fst acc),
     snd acc ++ [load_row server metrics]).

Definition _collect_all_server_metrics
    (http_get : ServerNode.t -> Http.reply (gmap string Num.num))
    (time_time : Z -> float) (db : Database.t) (self : t) : t * Database.t :=
  let '(metrics, rows) :=
    fold_left (collect_one http_get time_time) (servers self)
              (server_metrics self, Database.server_load_metrics db) in
  (set_server_metrics metrics self, Database.set_server_load_metrics rows db).

(** [_round_robin_strategy] *)
Definition _round_robin_strategy (servers : list ServerNode.t) (self : t)
    : Py.Exc (ServerNode.t * t) :=
  match servers with
  | [] => Py.raise (Py.Exn "ZeroDivisionError" "integer modulo by zero")
  | _ =>
      let index := (last_server_index self + 1) mod Z.of_nat (List.length servers) in
      let self := set_last_server_index index self in
      match servers !! Z.to_nat index with
      | Some server => Py.ret (server, self)
      | None => Py.raise (Py.Exn "IndexError" "list index out of range")
      end
  end.

(** [self.server_metrics.get(server.id, {})] *)
Definition metrics_of (self : t) (server : ServerNode.t) : gmap string Num.num :=
  default ∅ (server_metrics self !! ServerNode.id server).

(** [_least_load_strategy]; [+] and [<] raise on figures that are not
    numbers. *)
Definition _least_load_strategy (servers : list ServerNode.t) (self : t)
    : Py.Exc ServerNode.t :=
  let* (_, selected_server) :=
    fold_left
      (fun state server =>
         let* (min_load, selected_server) := state in
         let metrics := metrics_of self server in
         let* load := Num.add (default (Num.Int 0) (metrics !! "active_requests"))
                              (default (Num.Int 0) (metrics !! "queue_depth")) in
         let* less := Num.lt load min_load in
         if less then Py.ret (load, Some server)
         else Py.ret (min_load, selected_server))
      servers (Py.ret (Num.Float infinity, None)) in
  match selected_server, servers with
  | Some server, _ => Py.ret server
  | None, server :: _ => Py.ret server
  | None, [] => Py.raise (Py.Exn "IndexError" "list index out of range")
  end.

(** [_gpu_memory_strategy]; [-] and [>] raise on figures that are not
    numbers. *)
Definition _gpu_memory_strategy (servers : list ServerNode.t) (self : t)
    : Py.Exc ServerNode.t :=
  let* (_, selected_server) :=
    fold_left
      (fun state server =>
         let* (max_available_memory, selected_server) := state in
         let metrics := metrics_of self server in
         let total_memory :=
           default (Num.Int (ServerNode.gpu_memory server)) (metrics !! "gpu_memory_total") in
         let used_memory := default (Num.Int 0) (metrics !! "gpu_memory_used") in
         let* available_memory := Num.sub total_memory used_memory in
         let* more := Num.gt available_memory max_available_memory in
         if more then Py.ret (available_memory, Some server)
         else Py.ret (max_available_memory, selected_server))
      servers (Py.ret (Num.Int (-1), None)) in
  match selected_server, servers with
  | Some server, _ => Py.ret server
  | None, server :: _ => Py.ret server
  | None, [] => Py.raise (Py.Exn "IndexError" "list index out of range")
  end.

(** [get_server]: the chosen server, or [None], and [self] afterwards. *)
Definition get_server (time_time : Z -> float) (db : Database.t)
    (model_name : string) (self : t) : Py.Exc (option ServerNode.t * t) :=
  let self := match servers self with
              | [] => refresh_servers time_time db self
              | _ => self
              end in
  let healthy_servers := List.filter healthy (servers self) in
  match healthy_servers with
  | [] => Py.ret (None, self)
  | _ =>
      if String.eqb (load_balancing_strategy self) "round_robin" then
        let* (server, self) := _round_robin_strategy healthy_servers self in
        Py.ret (Some server, self)
      else if String.eqb (load_balancing_strategy self) "least_load" then
        let* server := _least_load_strategy healthy_servers self in
        Py.ret (Some server, self)
      else if String.eqb (load_balancing_strategy self) "gpu_memory" then
        let* server := _gpu_memory_strategy healthy_servers self in
        Py.ret (Some server, self)
      else
        let* (server, self) := _round_robin_strategy healthy_servers self in
        Py.ret (Some server, self)
  end.

(** [healthy_servers] of [get_server] *)
Definition healthy_servers (self : t) : list ServerNode.t :=
  List.filter healthy (servers self).

(** The index [_round_robin_strategy] stores and reads on a list of [n]
    servers. *)
Definition next_index (n : nat) (self : t) : Z :=
  (last_server_index self + 1) mod Z.of_nat n.

(** The rotation of a list that starts at position [r]. *)
Definition rotate_from {A} (r : nat) (l : list A) : list A :=
  drop r l ++ take r l.

(** [n] consecutive calls of [get_server] and the servers they return. *)
Fixpoint get_server_times (n : nat) (time_time : Z -> float) (db : Database.t)
    (model_name : string) (self : t) : Py.Exc (list (option ServerNode.t) * t) :=
  match n with
  | O => Py.ret ([], self)
  | S n' =>
      let* (server, self) := get_server time_time db model_name self in
      let* (others, self) := get_server_times n' time_time db model_name self in
      Py.ret (server :: others, self)
  end.

End LLMLoadBalancer.

(** ** The orchestrator ([src/llm/inference.py]) *)

Module LLMInferenceManager.

(** The cache as the orchestrator sees it: an object with [get] and [add],
    each of which returns or raises and leaves the store in some state. *)
Record CacheObject : Type := {
  cache_get : string -> Z -> option string -> Database.t
              -> Py.Exc (option SemanticCache.CachedResponse) * Database.t;
  cache_add : string -> string -> Z -> Z -> Z -> option string -> Database.t
              -> Py.Exc unit * Database.t
}.

Record t : Type := mk {
  load_balancer : LLMLoadBalancer.t;
  semantic_cache : option CacheObject
}.

(** The arguments of [generate] that reach the model, the cache or the
    request log. *)
Record Request : Type := {
  prompt : string;
  model_name : option string;
  max_tokens : Z;
  temperature : float;
  top_p : float;
  frequency_penalty : float;
  presence_penalty : float;
  stop : option (list string);
  user_id : option Z
}.

(** The JSON body sent to the backend. *)
Record Payload : Type := {
  p_prompt : string;
  p_model : string;
  p_max_tokens : Z;
  p_temperature : float;
  p_top_p : float;
  p_frequency_penalty : float;
  p_presence_penalty : float;
  p_stop : option (list string)
}.

(** The JSON body a backend answers with. *)
Record ResultJson : Type := {
  r_error : option string;
  r_response : option string;
  r_prompt_tokens : option Z;
  r_completion_tokens : option Z
}.

(** The places where [_generate_with_db] reads a clock. *)
Inductive site : Type :=
| AtCacheHit | AtNoServer | AtHttpStatus | AtErrorField | AtSuccess | AtHandler.

(** The surroundings of one call of [generate]. *)
Record Env : Type := {
  time_time : Z -> float;
  post : ServerNode.t -> Payload -> Http.reply ResultJson;
  elapsed_ms : site -> float;
  utcnow : site -> Py.datetime
}.

(** The dictionary [generate] returns. *)
Inductive GenerationResult : Type :=
| Success (response model : string)
          (prompt_tokens completion_tokens total_tokens : Z)
          (processing_time_ms : float) (query_id : Z) (cached : bool)
| Error (error : string).

Definition succeeded (r : GenerationResult) : bool :=
  match r with
  | Success _ _ _ _ _ _ _ _ => true
  | Error _ => false
  end.

(** [self.semantic_cache and settings.ENABLE_SEMANTIC_CACHE] *)
Definition cache_in_use (settings : Settings) (self : t) : option CacheObject :=
  if ENABLE_SEMANTIC_CACHE settings then semantic_cache self else None.

Definition find_model (name : string) (db : Database.t) : option LLMModel.t :=
  List.find (fun m => String.eqb (LLMModel.name m) name) (Database.llm_models db).

(** The model the request is served with: the one named, else the
    configured default, else none. *)
Definition resolve_model (settings : Settings) (req : Request) (db : Database.t)
    : option LLMModel.t :=
  let model_name := Py.str_or (model_name req) (LLM_DEFAULT_MODEL settings) in
  match find_model model_name db with
  | Some model => Some model
  | None => find_model (LLM_DEFAULT_MODEL settings) db
  end.

Definition payload_of (req : Request) (model : LLMModel.t) : Payload :=
  Build_Payload (prompt req) (LLMModel.name model) (max_tokens req)
    (temperature req) (top_p req) (frequency_penalty req)
    (presence_penalty req) (stop req).

(** The update that marks a request failed with an error text. *)
Definition mark_failed (env : Env) (site : site) (query_id : Z)
    (processing_time_ms : float) (message : string) (db : Database.t)
    : Database.t :=
  Utils.update_query_response db query_id "" 0 0 processing_time_ms
    "failed" false None (Some message) (utcnow env site).

(** The update that marks a request completed with the backend answer. *)
Definition mark_completed (env : Env) (query_id : Z) (result : ResultJson)
    (cache_key : option string) (db : Database.t) : Database.t :=
  Utils.update_query_response db query_id (default "" (r_response result))
    (default 0 (r_prompt_tokens result)) (default 0 (r_completion_tokens result))
    (elapsed_ms env AtSuccess) "completed" false cache_key None
    (utcnow env AtSuccess).

(** The [try] block of [_generate_with_db] with its handler. *)
Definition dispatch (settings : Settings) (env : Env) (self : t) (req : Request)
    (model : LLMModel.t) (server : ServerNode.t) (query_id : Z)
    (cache_key : option string) (db : Database.t)
    : GenerationResult * Database.t :=
  let payload := payload_of req model in
  let failed (site : site) (message : string) (db : Database.t) :=
    (Error message,
     mark_failed env site query_id (elapsed_ms env site) message db) in
  let attempt : Py.Exc GenerationResult * Database.t :=
    match post env server payload with
    | Http.Raises e => (Py.raise e, db)
    | Http.Response status_code _ json =>
        if negb (status_code =? 200) then
          let '(r, db) :=
            failed AtHttpStatus ("LLM server error: HTTP " +:+ pretty status_code) db in
          (Py.ret r, db)
        else
          match json with
          | inl e => (Py.raise e, db)
          | inr result =>
              match r_error result with
              | Some message =>
                  let '(r, db) :=
                    failed AtErrorField ("LLM server error: " +:+ message) db in
                  (Py.ret r, db)
              | None =>
                  let response_text := default "" (r_response result) in
                  let prompt_tokens := default 0 (r_prompt_tokens result) in
                  let completion_tokens := default 0 (r_completion_tokens result) in
                  let processing_time := elapsed_ms env AtSuccess in
                  let db := mark_completed env query_id result cache_key db in
                  let '(added, db) :=
                    match cache_in_use settings self with
                    | Some cache =>
                        cache_add cache (prompt req) response_text
                          (LLMModel.id model) prompt_tokens completion_tokens
                          cache_key db
                    | None => (Py.ret tt, db)
                    end in
                  match added with
                  | inl e => (Py.raise e, db)
                  | inr _ =>
                      (Py.ret (Success response_text (LLMModel.name model)
                                 prompt_tokens completion_tokens
                                 (prompt_tokens + completion_tokens)
                                 processing_time query_id false), db)
                  end
              end
          end
    end in
  match attempt with
  | (inr r, db) => (r, db)
  | (inl e, db) => failed AtHandler ("Error: " +:+ Py.str_of_exn e) db
  end.

(** [_generate_with_db]: what the call returns or raises, and the manager
    and the store afterwards. *)
Definition _generate_with_db (settings : Settings) (env : Env) (req : Request)
    (self : t) (db : Database.t)
    : Py.Exc GenerationResult * (t * Database.t) :=
  match resolve_model settings req db with
  | None => (Py.ret (Error "Model not found"), (self, db))
  | Some model =>
      let '(query_id, db) :=
        Utils.log_query db (user_id req) (LLMModel.id model) (prompt req) in
      let cache := cache_in_use settings self in
      let cache_key :=
        match cache with
        | Some _ => Some (Utils.compute_cache_key (prompt req) (LLMModel.name model))
        | None => None
        end in
      let '(cached_response, db) :=
        match cache with
        | Some cache => cache_get cache (prompt req) (LLMModel.id model) cache_key db
        | None => (Py.ret None, db)
        end in
      match cached_response with
      | inl e => (Py.raise e, (self, db))
      | inr (Some cached_response) =>
          let processing_time := elapsed_ms env AtCacheHit in
          let db :=
            Utils.update_query_response db query_id
              (SemanticCache.response cached_response)
              (SemanticCache.prompt_tokens cached_response)
              (SemanticCache.completion_tokens cached_response)
              processing_time "completed" true cache_key None
              (utcnow env AtCacheHit) in
          (Py.ret (Success (SemanticCache.response cached_response)
                     (LLMModel.name model)
                     (SemanticCache.prompt_tokens cached_response)
                     (SemanticCache.completion_tokens cached_response)
                     (SemanticCache.prompt_tokens cached_response
                      + SemanticCache.completion_tokens cached_response)
                     processing_time query_id true),
           (self, db))
      | inr None =>
          match LLMLoadBalancer.get_server (time_time env) db
                  (LLMModel.name model) (load_balancer self) with
          | inl e => (Py.raise e, (self, db))
          | inr (None, lb) =>
              let message := "No suitable server available" in
              (Py.ret (Error message),
               (mk lb (semantic_cache self),
                mark_failed env AtNoServer query_id 0%float message db))
          | inr (Some server, lb) =>
              let self := mk lb (semantic_cache self) in
              let db := Utils.set_query_status db query_id QueryStatus.PROCESSING in
              let '(r, db) :=
                dispatch settings env self req model server query_id cache_key db in
              (Py.ret r, (self, db))
          end
      end
  end.

(** [generate] *)
Definition generate := _generate_with_db.

Section WithLibs.

Context {libs : PyLibs}.

(** The four readings of [datetime.utcnow()] a [SemanticCache] takes during
    one call of [generate]. *)
Record CacheClock : Type := {
  now_key : Py.datetime;
  now_scan : Py.datetime;
  now_created : Py.datetime;
  now_expires : Py.datetime
}.

(** The [SemanticCache] instance as the object held in
    [self.semantic_cache]. *)
Definition semantic_cache_object (settings : Settings)
    (clock : CacheClock) : CacheObject :=
  let self := SemanticCache.__init__ settings in
  {| cache_get prompt model_id cache_key db :=
       match SemanticCache.get settings self (now_key clock) (now_scan clock)
               prompt model_id cache_key (Database.semantic_cache db) with
       | inl e => (Py.raise e, db)
       | inr (r, rows) => (Py.ret r, Database.set_semantic_cache rows db)
       end;
     cache_add prompt response model_id _ _ cache_key db :=
       match SemanticCache.add settings self (now_created clock)
               (now_expires clock) prompt response model_id cache_key
               (Database.semantic_cache db) with
       | inl e => (Py.raise e, db)
       | inr rows => (Py.ret tt, Database.set_semantic_cache rows db)
       end |}.

(** [LLMInferenceManager.__init__] *)
Definition __init__ (settings : Settings)
    (clock : CacheClock) : t :=
  mk (LLMLoadBalancer.__init__ settings)
     (if ENABLE_SEMANTIC_CACHE settings
      then Some (semantic_cache_object settings clock) else None).

End WithLibs.

End LLMInferenceManager.

(** ** The fine-tuning scheduler ([src/llm/fine_tuning.py]) *)

(** [status.value] *)
Definition status_value (s : FineTuningJobStatus.t) : string :=
  match s with
  | FineTuningJobStatus.QUEUED => "queued"
  | FineTuningJobStatus.PREPARING => "preparing"
  | FineTuningJobStatus.RUNNING => "running"
  | FineTuningJobStatus.COMPLETED => "completed"
  | FineTuningJobStatus.FAILED => "failed"
  | FineTuningJobStatus.CANCELLED => "cancelled"
  end.

Module FineTuningManager.

(** An entry of [self.active_jobs]. *)
Record ActiveJob : Type := {
  a_id : Z;
  a_name : string;
  a_base_model : string;
  a_start_time : Py.datetime
}.

Record t : Type := mk {
  active_jobs : gmap Z ActiveJob;
  initialized : bool
}.

Definition __init__ : t := mk ∅ false.

(** A run made by [asyncio.create_task(self._run_fine_tuning_job(job_id))]:
    not yet started, or inside its [try] block with the base model it read. *)
Inductive phase : Type :=
| Scheduled
| Training (base_model : LLMModel.t).

(** A task of the event loop: [job_processing_loop], or a run. *)
Inductive task : Type :=
| Polling
| Run (job_id : Z) (p : phase).

(** The process: the store, the manager and the tasks of the event loop. *)
Record World : Type := {
  db : Database.t;
  self : t;
  tasks : list task
}.

Definition jobs (w : World) : list FineTuningJob.t :=
  Database.fine_tuning_jobs (db w).

Definition with_jobs (v : list FineTuningJob.t) (w : World) : World :=
  {| db := Database.set_fine_tuning_jobs v (db w); self := self w; tasks := tasks w |}.

(** [async with get_db() as db:] followed by its block. The block runs when
    the session opens; when entering raises, nothing of the block has run. *)
Definition with_db {A} (block : World -> Py.Exc A * World) (w : World)
    : Py.Exc A * World :=
  match Session.aenter Session.get_db with
  | inr _ => block w
  | inl e => (Py.raise e, w)
  end.

Definition find_job (job_id : Z) (rows : list FineTuningJob.t) : option FineTuningJob.t :=
  List.find (fun job => FineTuningJob.id job =? job_id) rows.

(** Commits [f job] for the job with the given id. *)
Definition write_job (job_id : Z) (f : FineTuningJob.t -> FineTuningJob.t)
    (rows : list FineTuningJob.t) : list FineTuningJob.t :=
  Utils.update_first (fun job => FineTuningJob.id job =? job_id) f rows.

Definition has_status (s : FineTuningJobStatus.t) (job : FineTuningJob.t) : bool :=
  FineTuningJobStatus.eqb (FineTuningJob.status job) s.

(** [_resume_jobs]: the whole body is the block of [async with get_db()].
    In the block, the loop over the selected jobs sets the running ones back
    to queued. *)
Definition _resume_jobs (w : World) : Py.Exc unit * World :=
  with_db
    (fun w =>
       let selected (job : FineTuningJob.t) :=
         has_status FineTuningJobStatus.QUEUED job
         || has_status FineTuningJobStatus.PREPARING job
         || has_status FineTuningJobStatus.RUNNING job in
       let rows :=
         map (fun job =>
                if selected job then
                  if has_status FineTuningJobStatus.RUNNING job
                  then FineTuningJob.set_status FineTuningJobStatus.QUEUED job
                  else job
                else job)
             (jobs w) in
       (Py.ret tt, with_jobs rows w))
    w.

(** [initialize]: what [_resume_jobs] raises leaves [initialize] before the
    polling loop is started and before [self.initialized] is set. The
    output directory it makes is not part of the world. *)
Definition initialize (w : World) : Py.Exc unit * World :=
  if initialized (self w) then (Py.ret tt, w)
  else
    match _resume_jobs w with
    | (inl e, w) => (Py.raise e, w)
    | (inr _, w) =>
        (Py.ret tt,
         {| db := db w;
            self := mk (active_jobs (self w)) true;
            tasks := tasks w ++ [Polling] |})
    end.

(** [select(...).where(status == QUEUED).order_by(created_at)] and
    [.first()]: the queued job created first, the earlier row on a tie. *)
Definition next_queued (rows : list FineTuningJob.t) : option FineTuningJob.t :=
  fold_left
    (fun best job =>
       if has_status FineTuningJobStatus.QUEUED job then
         match best with
         | None => Some job
         | Some b =>
             if FineTuningJob.created_at job <? FineTuningJob.created_at b
             then Some job else Some b
         end
       else best)
    rows None.

(** [_process_next_job]; [now] is its reading of [datetime.utcnow()]. The
    test of [self.active_jobs] comes before the session is opened. *)
Definition _process_next_job (now : Py.datetime) (w : World) : Py.Exc unit * World :=
  if (1 <=? size (active_jobs (self w)))%nat then (Py.ret tt, w)
  else
    with_db
      (fun w =>
         match next_queued (jobs w) with
         | None => (Py.ret tt, w)
         | Some job =>
             let job_id := FineTuningJob.id job in
             let rows :=
               write_job job_id
                 (fun job => FineTuningJob.set_started_at (Some now)
                               (FineTuningJob.set_status FineTuningJobStatus.PREPARING job))
                 (jobs w) in
             (Py.ret tt,
              {| db := Database.set_fine_tuning_jobs rows (db w);
                 self := self w;
                 tasks := tasks w ++ [Run job_id Scheduled] |})
         end)
      w.

(** One turn of [job_processing_loop]: its handler logs what
    [_process_next_job] raises, and the loop goes on. *)
Definition job_processing_loop (now : Py.datetime) (w : World) : World :=
  snd (_process_next_job now w).

(** The run of [job_id] in the given phase. *)
Definition is_run (job_id : Z) (training : bool) (x : task) : bool :=
  match x with
  | Run i Scheduled => (i =? job_id) && negb training
  | Run i (Training _) => (i =? job_id) && training
  | Polling => false
  end.

(** The event loop without the first task that satisfies [p]. *)
Fixpoint remove_task (p : task -> bool) (ts : list task) : list task :=
  match ts with
  | [] => []
  | x :: rest => if p x then rest else x :: remove_task p rest
  end.

Definition error_metrics (message : string) : gmap string Json.value :=
  {["error" := Json.Str message]}.

(** The block of [_run_fine_tuning_job] from its start to the commit of
    the running status. The task ends, or goes on inside its [try] block. *)
Definition run_begin (job_id : Z) (now : Py.datetime) (w : World) : World :=
  let ts := remove_task (is_run job_id false) (tasks w) in
  match find_job job_id (jobs w) with
  | None => {| db := db w; self := self w; tasks := ts |}
  | Some job =>
      match List.find (fun m => LLMModel.id m =? FineTuningJob.base_model_id job)
                      (Database.llm_models (db w)) with
      | None =>
          let rows :=
            write_job job_id
              (fun job => FineTuningJob.set_metrics
                            (Some (error_metrics "Base model not found"))
                            (FineTuningJob.set_status FineTuningJobStatus.FAILED job))
              (jobs w) in
          {| db := Database.set_fine_tuning_jobs rows (db w);
             self := self w;
             tasks := ts |}
      | Some base_model =>
          let info :=
            {| a_id := job_id; a_name := FineTuningJob.name job;
               a_base_model := LLMModel.name base_model; a_start_time := now |} in
          let rows :=
            write_job job_id
              (FineTuningJob.set_status FineTuningJobStatus.RUNNING) (jobs w) in
          {| db := Database.set_fine_tuning_jobs rows (db w);
             self := mk (<[job_id := info]> (active_jobs (self w)))
                        (initialized (self w));
             tasks := ts ++ [Run job_id (Training base_model)] |}
      end
  end.

(** The start of a scheduled run of [_run_fine_tuning_job]: it opens its
    session and enters the block. When the session does not open, the task
    ends with the error. *)
Definition _run_fine_tuning_job (job_id : Z) (now : Py.datetime) (w : World)
    : Py.Exc unit * World :=
  match with_db (fun w => (Py.ret tt, run_begin job_id now w)) w with
  | (inl e, w) =>
      (Py.raise e,
       {| db := db w; self := self w;
          tasks := remove_task (is_run job_id false) (tasks w) |})
  | (inr _, w) => (Py.ret tt, w)
  end.

Definition steps : Z := 10.

(** [step / steps] and the like: true division of two ints. *)
Definition ratio (a b : Z) : float :=
  PrimFloat.div (Embedding.float_of_Z a) (Embedding.float_of_Z b).

Definition loss_at (step : Z) : float :=
  PrimFloat.sub 1%float (PrimFloat.mul (ratio step steps) 0x1.6666666666666p-1%float).

Definition accuracy_at (step : Z) : float :=
  PrimFloat.add 0x1p-1%float (PrimFloat.mul (ratio step steps) 0x1.999999999999ap-2%float).

(** The progress written after training step [step]. *)
Definition progress_metrics (step : Z) : gmap string Json.value :=
  <["current_step" := Json.Num (Num.Int (step + 1))]>
  (<["total_steps" := Json.Num (Num.Int steps)]>
  (<["loss" := Json.Num (Num.Float (loss_at step))]>
  (<["accuracy" := Json.Num (Num.Float (accuracy_at step))]>
  {["progress" := Json.Num (Num.Float (ratio (step + 1) steps))]}))).

(** One turn of the training loop of a run that is inside its [try]
    block: the progress is committed. *)
Definition run_progress (job_id : Z) (step : Z) (w : World) : World :=
  with_jobs
    (write_job job_id (FineTuningJob.set_metrics (Some (progress_metrics step)))
               (jobs w)) w.

(** The rest of a run that is inside its [try] block: the output model and
    the completed status when [outcome] returns, the failed status when it
    raises, and in both cases the [finally] block. Rows are never deleted,
    so the job the task loaded is still stored. *)
Definition run_end (job_id : Z) (base_model : LLMModel.t) (outcome : Py.Exc unit)
    (now : Py.datetime) (w : World) : World :=
  let released :=
    mk (delete job_id (active_jobs (self w))) (initialized (self w)) in
  let ts := remove_task (is_run job_id true) (tasks w) in
  match find_job job_id (jobs w), outcome with
  | None, _ => {| db := db w; self := released; tasks := ts |}
  | Some stored, inr _ =>
      let output_model_name :=
        Py.str_or (FineTuningJob.output_model_name stored)
                  (LLMModel.name base_model +:+ "-ft-" +:+ pretty job_id) in
      let model_id := Database.next_id (map LLMModel.id (Database.llm_models (db w))) in
      let new_model :=
        LLMModel.mk model_id output_model_name "1.0" true
                    (Some (LLMModel.name base_model)) in
      let finish (job : FineTuningJob.t) : FineTuningJob.t :=
        FineTuningJob.set_metrics
          (Some (<["final_loss" := Json.Num (Num.Float (loss_at (steps - 1)))]>
                 (<["final_accuracy" := Json.Num (Num.Float (accuracy_at (steps - 1)))]>
                 (<["model_id" := Json.Num (Num.Int model_id)]>
                 (default ∅ (FineTuningJob.metrics job))))))
          (FineTuningJob.set_output_model_name (Some output_model_name)
             (FineTuningJob.set_completed_at (Some now)
                (FineTuningJob.set_status FineTuningJobStatus.COMPLETED job))) in
      {| db := Database.set_fine_tuning_jobs (write_job job_id finish (jobs w))
                 (Database.set_llm_models
                    (Database.llm_models (db w) ++ [new_model]) (db w));
         self := released; tasks := ts |}
  | Some _, inl e =>
      let fail (job : FineTuningJob.t) : FineTuningJob.t :=
        FineTuningJob.set_metrics
          (Some (<["error" := Json.Str (Py.str_of_exn e)]>
                 (default ∅ (FineTuningJob.metrics job))))
          (FineTuningJob.set_completed_at (Some now)
             (FineTuningJob.set_status FineTuningJobStatus.FAILED job)) in
      {| db := Database.set_fine_tuning_jobs (write_job job_id fail (jobs w)) (db w);
         self := released; tasks := ts |}
  end.

(** [create_job]: the whole body is the block of [async with get_db()];
    [now] is the creation time the database stamps. *)
Definition create_job (name : string) (base_model_id user_id : Z)
    (output_model_name : option string) (now : Py.datetime) (w : World)
    : Py.Exc Z * World :=
  with_db
    (fun w =>
       if negb (existsb (fun m => LLMModel.id m =? base_model_id)
                        (Database.llm_models (db w)))
       then (Py.raise (Py.Exn "ValueError"
               ("Base model with ID " +:+ pretty base_model_id +:+ " not found")), w)
       else if negb (existsb (Z.eqb user_id) (Database.users (db w)))
       then (Py.raise (Py.Exn "ValueError"
               ("User with ID " +:+ pretty user_id +:+ " not found")), w)
       else
         let job_id := Database.next_id (map FineTuningJob.id (jobs w)) in
         let job :=
           FineTuningJob.mk job_id name user_id base_model_id
             FineTuningJobStatus.QUEUED None output_model_name now None None in
         (Py.ret job_id, with_jobs (jobs w ++ [job]) w))
    w.

(** The dictionary [get_job] returns, with the entries for the columns of
    the job record; dates are kept as they are stored. *)
Record JobDetails : Type := {
  d_id : Z;
  d_name : string;
  d_status : string;
  d_user_id : Z;
  d_base_model : option LLMModel.t;
  d_metrics : option (gmap string Json.value);
  d_output_model_name : option string;
  d_created_at : Py.datetime;
  d_started_at : option Py.datetime;
  d_completed_at : option Py.datetime;
  d_is_active : bool
}.

(** [get_job]: the whole body is the block of [async with get_db()]. *)
Definition get_job (job_id : Z) (w : World) : Py.Exc (option JobDetails) * World :=
  with_db
    (fun w =>
       match find_job job_id (jobs w) with
       | None => (Py.ret None, w)
       | Some job =>
           let base_model :=
             List.find (fun m => LLMModel.id m =? FineTuningJob.base_model_id job)
                       (Database.llm_models (db w)) in
           (Py.ret
              (Some {| d_id := FineTuningJob.id job;
                       d_name := FineTuningJob.name job;
                       d_status := status_value (FineTuningJob.status job);
                       d_user_id := FineTuningJob.user_id job;
                       d_base_model := base_model;
                       d_metrics := FineTuningJob.metrics job;
                       d_output_model_name := FineTuningJob.output_model_name job;
                       d_created_at := FineTuningJob.created_at job;
                       d_started_at := FineTuningJob.started_at job;
                       d_completed_at := FineTuningJob.completed_at job;
                       d_is_active :=
                         bool_decide
                           (is_Some (active_jobs (self w) !! FineTuningJob.id job)) |}),
            w)
       end)
    w.

(** [cancel_job]: the whole body is the block of [async with get_db()];
    [now] is its reading of [datetime.utcnow()]. *)
Definition cancel_job (job_id : Z) (now : Py.datetime) (w : World)
    : Py.Exc bool * World :=
  with_db
    (fun w =>
       match find_job job_id (jobs w) with
       | None => (Py.ret false, w)
       | Some job =>
           if negb (has_status FineTuningJobStatus.QUEUED job
                    || has_status FineTuningJobStatus.PREPARING job
                    || has_status FineTuningJobStatus.RUNNING job)
           then (Py.ret false, w)
           else
             let cancel (job : FineTuningJob.t) : FineTuningJob.t :=
               FineTuningJob.set_completed_at (Some now)
                 (FineTuningJob.set_status FineTuningJobStatus.CANCELLED job) in
             (Py.ret true,
              {| db := Database.set_fine_tuning_jobs
                         (write_job job_id cancel (jobs w)) (db w);
                 self := mk (delete job_id (active_jobs (self w)))
                            (initialized (self w));
                 tasks := tasks w |})
       end)
    w.

(** A process that has just started over the store [db0]: the manager as
    [__init__] leaves it and nothing on the event loop. *)
Definition start (db0 : Database.t) : World :=
  {| db := db0; self := __init__; tasks := [] |}.

(** A restart of the process: the manager and the event loop start anew
    over the store that survived, and the start-up calls [initialize]. *)
Definition restart (w : World) : World :=
  snd (initialize (start (db w))).

(** The job occupies the single slot: it is preparing or running. *)
Definition active (job : FineTuningJob.t) : bool :=
  has_status FineTuningJobStatus.PREPARING job
  || has_status FineTuningJobStatus.RUNNING job.

Definition active_count (w : World) : nat :=
  List.length (List.filter active (jobs w)).

(** The steps of the scheduler: a submission, a turn of the polling loop,
    the start, a training turn and the end of a run, a cancellation, and a
    restart of the process. *)
Inductive step : World -> World -> Prop :=
| step_submit w name base_model_id user_id output_model_name now :
    step w (snd (create_job name base_model_id user_id output_model_name now w))
| step_poll w now :
    In Polling (tasks w) ->
    step w (job_processing_loop now w)
| step_run_begin w job_id now :
    In (Run job_id Scheduled) (tasks w) ->
    step w (snd (_run_fine_tuning_job job_id now w))
| step_run_progress w job_id base_model i :
    In (Run job_id (Training base_model)) (tasks w) -> 0 <= i < steps ->
    step w (run_progress job_id i w)
| step_run_end w job_id base_model outcome now :
    In (Run job_id (Training base_model)) (tasks w) ->
    step w (run_end job_id base_model outcome now w)
| step_cancel w job_id now :
    step w (snd (cancel_job job_id now w))
| step_restart w :
    step w (restart w).

Inductive reachable (w0 : World) : World -> Prop :=
| reachable_start : reachable w0 w0
| reachable_step w w' : reachable w0 w -> step w w' -> reachable w0 w'.

(** No run is inside its [try] block. *)
Definition no_training (w : World) : Prop :=
  forall job_id base_model, ~ In (Run job_id (Training base_model)) (tasks w).

End FineTuningManager.

(** ** Cache statistics ([SemanticCache.get_stats]) *)

Module CacheStats.

(** The dictionary [get_stats] returns. *)
Record t : Type := mk {
  total_entries : Z;
  active_entries : Z;
  expired_entries : Z;
  total_hits : Z;
  entries_by_model : gmap string Z;
  similarity_threshold : float;
  cache_expiry_seconds : Z
}.

(** [select(func.count())] with an optional [where] clause. *)
Definition count (p : SemanticCacheEntry.t -> bool)
    (rows : list SemanticCacheEntry.t) : Z :=
  Z.of_nat (length (List.filter p rows)).

(** [select(func.sum(hit_count))] followed by [or 0]. *)
Definition sum_hits (rows : list SemanticCacheEntry.t) : Z :=
  fold_right (fun entry acc => SemanticCacheEntry.hit_count entry + acc) 0 rows.

(** [group_by(model_id)] with [func.count()], read into a dictionary keyed
    by [str(model_id)]. *)
Definition group_count (model_ids : list Z) : gmap string Z :=
  fold_right
    (fun model_id (m : gmap string Z) =>
       <[pretty model_id := default 0 (m !! pretty model_id) + 1]> m)
    ∅ model_ids.

(** [get_stats]: the whole body is the block of [async with get_db()];
    [now] is its reading of [datetime.utcnow()]. *)
Definition get_stats (self : SemanticCache.t) (now : Py.datetime)
    (rows : list SemanticCacheEntry.t) : Py.Exc t :=
  let* _ := Session.aenter Session.get_db in
  let total_entries := count (fun _ => true) rows in
  let active_entries := count (SemanticCache.unexpired now) rows in
  Py.ret
    (mk total_entries active_entries (total_entries - active_entries)
        (sum_hits rows)
        (group_count (map SemanticCacheEntry.model_id rows))
        (SemanticCache.similarity_threshold self)
        (SemanticCache.cache_expiry_seconds self)).

End CacheStats.

(** ** Predicates used to state what [generate] leaves in the request log *)

Module RequestLog.

(** The cache object never touches the table of requests. *)
Definition keeps_requests (cache : LLMInferenceManager.CacheObject) : Prop :=
  (forall prompt model_id cache_key db,
      Database.queries
        (snd (LLMInferenceManager.cache_get cache prompt model_id cache_key db))
      = Database.queries db)
  /\ (forall prompt response model_id prompt_tokens completion_tokens cache_key db,
        Database.queries
          (snd (LLMInferenceManager.cache_add cache prompt response model_id
                  prompt_tokens completion_tokens cache_key db))
        = Database.queries db).

(** [record] is the request [log_query] entered under the id [query_id]
    for [req] served with [model]. *)
Definition entered (req : LLMInferenceManager.Request) (model : LLMModel.t)
    (query_id : Z) (record : Query.t) : Prop :=
  Query.id record = query_id
  /\ Query.user_id record = LLMInferenceManager.user_id req
  /\ Query.model_id record = LLMModel.id model
  /\ Query.query_text record = LLMInferenceManager.prompt req.

(** [record] says what the result [r] says. *)
Definition agrees (r : LLMInferenceManager.GenerationResult) (record : Query.t)
    : Prop :=
  match r with
  | LLMInferenceManager.Success response _ prompt_tokens completion_tokens _
      processing_time_ms query_id cached =>
      query_id = Query.id record
      /\ Query.status record = QueryStatus.COMPLETED
      /\ Query.response_text record = Some response
      /\ Query.token_count_prompt record = prompt_tokens
      /\ Query.token_count_response record = completion_tokens
      /\ Query.processing_time_ms record = processing_time_ms
      /\ Query.cached record = cached
      /\ Query.error_message record = None
  | LLMInferenceManager.Error message =>
      Query.status record = QueryStatus.FAILED
      /\ Query.response_text record = Some ""%string
      /\ Query.error_message record = Some message
      /\ Query.cached record = false
  end.

End RequestLog.

(** ** Predicates on cache keys *)

Module CacheKey.

Definition is_hex_digit (c : ascii) : bool :=
  existsb (Ascii.eqb c) (list_ascii_of_string "0123456789abcdef").

End CacheKey.

(** ** Users, API keys and roles ([src/models.py], [src/auth/permissions.py]) *)

Module UserRole.
Inductive t : Type := ADMIN | MANAGER | ANALYST | USER.
End UserRole.

(** [email], [full_name], [password_hash] and the timestamps are read by
    none of the functions below; they are left out. A stored [role] can be
    [NULL]. *)
Module User.
Record t : Type := mk {
  id : Z;
  username : string;
  role : option UserRole.t;
  is_active : bool
}.
End User.

(** [name] and [created_at] are left out. *)
Module ApiKey.
Record t : Type := mk {
  id : Z;
  key : string;
  user_id : option Z;
  is_active : bool;
  expires_at : option Py.datetime
}.
End ApiKey.

Module PermissionManager.

Definition PERMISSION_USER_MANAGEMENT : string := "user_management".
Definition PERMISSION_SERVER_MANAGEMENT : string := "server_management".
Definition PERMISSION_MODEL_MANAGEMENT : string := "model_management".
Definition PERMISSION_FINE_TUNING : string := "fine_tuning".
Definition PERMISSION_ANALYTICS : string := "analytics".
Definition PERMISSION_SYSTEM_CONFIG : string := "system_config".
Definition PERMISSION_API_ACCESS : string := "api_access".

(** [self.role_permissions] *)
Definition role_permissions (role : UserRole.t) : list string :=
  match role with
  | UserRole.ADMIN =>
      [PERMISSION_USER_MANAGEMENT; PERMISSION_SERVER_MANAGEMENT;
       PERMISSION_MODEL_MANAGEMENT; PERMISSION_FINE_TUNING;
       PERMISSION_ANALYTICS; PERMISSION_SYSTEM_CONFIG; PERMISSION_API_ACCESS]
  | UserRole.MANAGER =>
      [PERMISSION_MODEL_MANAGEMENT; PERMISSION_FINE_TUNING;
       PERMISSION_ANALYTICS; PERMISSION_API_ACCESS]
  | UserRole.ANALYST => [PERMISSION_ANALYTICS; PERMISSION_API_ACCESS]
  | UserRole.USER => [PERMISSION_API_ACCESS]
  end.

(** [self.role_permissions.get(user.role, [])] *)
Definition get_user_permissions (user : User.t) : list string :=
  match User.role user with
  | Some role => role_permissions role
  | None => []
  end.

(** [permission in user_permissions] *)
Definition has_permission (user : User.t) (permission : string) : bool :=
  existsb (String.eqb permission) (get_user_permissions user).

End PermissionManager.

(** ** [verify_api_key] ([src/utils.py]) *)

Module Auth.

(** [verify_api_key]; [now] is its reading of [datetime.utcnow()], taken
    only when the key has an expiry. *)
Definition verify_api_key (api_keys : list ApiKey.t) (users : list User.t)
    (now : Py.datetime) (api_key : string) : option User.t :=
  match List.find (fun row => String.eqb (ApiKey.key row) api_key
                              && ApiKey.is_active row) api_keys with
  | None => None
  | Some api_key_obj =>
      if match ApiKey.expires_at api_key_obj with
         | Some expires_at => expires_at <? now
         | None => false
         end
      then None
      else
        List.find (fun user =>
                     match ApiKey.user_id api_key_obj with
                     | Some user_id => User.id user =? user_id
                     | None => false
                     end && User.is_active user)
                  users
  end.

End Auth.

(** ** The fine-tuning endpoints ([src/api/endpoints/fine_tuning.py]) *)

Module FineTuningApi.

(** What an endpoint answers: a body, or [HTTPException]. *)
Inductive response (A : Type) : Type :=
| Ok (body : A)
| HTTPException (status_code : Z) (detail : string).

Arguments Ok {A} body.
Arguments HTTPException {A} status_code detail.

(** [cancel_fine_tuning_job]; the body is the [message] of the answer.
    [attempt] is the [try] block: an [HTTPException] raised in it passes
    the first handler unchanged, any other exception is turned into the
    answer 500 by the second. The two manager calls are taken one after
    the other, with no other work of the event loop in between. *)
Definition cancel_fine_tuning_job (job_id : Z) (current_user : User.t)
    (now : Py.datetime) (w : FineTuningManager.World)
    : response string * FineTuningManager.World :=
  let attempt : Py.Exc (response string) * FineTuningManager.World :=
    if negb (PermissionManager.has_permission current_user
               PermissionManager.PERMISSION_FINE_TUNING)
    then (Py.ret (HTTPException 403
            "You don't have permission to access fine-tuning features"), w)
    else
      match FineTuningManager.get_job job_id w with
      | (inl e, w) => (Py.raise e, w)
      | (inr None, w) =>
          (Py.ret (HTTPException 404
             ("Fine-tuning job with ID " +:+ pretty job_id +:+ " not found")), w)
      | (inr (Some job), w) =>
          if negb (FineTuningManager.d_user_id job =? User.id current_user)
             && negb (PermissionManager.has_permission current_user
                        PermissionManager.PERMISSION_USER_MANAGEMENT)
          then (Py.ret (HTTPException 403
                  "You don't have permission to cancel this job"), w)
          else if negb (existsb (String.eqb (FineTuningManager.d_status job))
                          ["queued"; "preparing"; "running"]%string)
          then (Py.ret (HTTPException 400
                  ("Job with status '" +:+ FineTuningManager.d_status job
                   +:+ "' cannot be cancelled")), w)
          else
            match FineTuningManager.cancel_job job_id now w with
            | (inl e, w) => (Py.raise e, w)
            | (inr success, w) =>
                if negb success
                then (Py.ret (HTTPException 500 "Failed to cancel job"), w)
                else (Py.ret (Ok "Job cancelled successfully"%string), w)
            end
      end in
  match attempt with
  | (inr answer, w) => (answer, w)
  | (inl e, w) =>
      (HTTPException 500
         ("Error cancelling fine-tuning job: " +:+ Py.str_of_exn e), w)
  end.

(** [get_fine_tuning_job], with the same two handlers. *)
Definition get_fine_tuning_job (job_id : Z) (current_user : User.t)
    (w : FineTuningManager.World)
    : response FineTuningManager.JobDetails * FineTuningManager.World :=
  let attempt
      : Py.Exc (response FineTuningManager.JobDetails) * FineTuningManager.World :=
    if negb (PermissionManager.has_permission current_user
               PermissionManager.PERMISSION_FINE_TUNING)
    then (Py.ret (HTTPException 403
            "You don't have permission to access fine-tuning features"), w)
    else
      match FineTuningManager.get_job job_id w with
      | (inl e, w) => (Py.raise e, w)
      | (inr None, w) =>
          (Py.ret (HTTPException 404
             ("Fine-tuning job with ID " +:+ pretty job_id +:+ " not found")), w)
      | (inr (Some job), w) =>
          if negb (FineTuningManager.d_user_id job =? User.id current_user)
             && negb (PermissionManager.has_permission current_user
                        PermissionManager.PERMISSION_USER_MANAGEMENT)
          then (Py.ret (HTTPException 403
                  "You don't have permission to view this job"), w)
          else (Py.ret (Ok job), w)
      end in
  match attempt with
  | (inr answer, w) => (answer, w)
  | (inl e, w) =>
      (HTTPException 500
         ("Error getting fine-tuning job: " +:+ Py.str_of_exn e), w)
  end.

End FineTuningApi.

(** ** Health checks ([src/utils.py], [src/llm/load_balancer.py]) *)

Module Health.

(** [check_server_health]: the answer of [GET /health] decides. *)
Definition check_server_health {A} (reply : Http.reply A) : bool * string :=
  match reply with
  | Http.Raises e => (false, "Error: " +:+ Py.str_of_exn e)
  | Http.Response status_code _ _ =>
      if status_code =? 200 then (true, "healthy"%string)
      else (false, "Unhealthy: HTTP " +:+ pretty status_code)
  end.

Definition with_health_status (status : string) (server : ServerNode.t)
    : ServerNode.t :=
  ServerNode.mk (ServerNode.id server) (ServerNode.name server)
    (ServerNode.host server) (ServerNode.port server) (ServerNode.api_key server)
    (ServerNode.gpu_count server) (ServerNode.gpu_memory server)
    (ServerNode.is_active server) status.

Definition set_server_nodes (v : list ServerNode.t) (d : Database.t) : Database.t :=
  Database.mk (Database.users d) (Database.llm_models d) v
    (Database.server_load_metrics d) (Database.queries d)
    (Database.semantic_cache d) (Database.fine_tuning_jobs d).

(** [update_server_health]: the first row with the id gets the status;
    nothing changes when no row has it. The column [last_health_check],
    written here as well, is not part of the server record. *)
Definition update_server_health (db : Database.t) (server_id : Z)
    (status : string) : Database.t :=
  set_server_nodes
    (Utils.update_first (fun server => ServerNode.id server =? server_id)
       (with_health_status status) (Database.server_nodes db))
    db.

(** [_check_all_servers_health]: every server of the list is probed and
    its row updated, then the list is reloaded. *)
Definition _check_all_servers_health {A}
    (http_get : ServerNode.t -> Http.reply A) (time_time : Z -> float)
    (db : Database.t) (self : LLMLoadBalancer.t)
    : LLMLoadBalancer.t * Database.t :=
  let db :=
    fold_left
      (fun db server =>
         let '(_, status) := check_server_health (http_get server) in
         update_server_health db (ServerNode.id server) status)
      (LLMLoadBalancer.servers self) db in
  (LLMLoadBalancer.refresh_servers time_time db self, db).

(** The status the probe of the listed server with the id of [row] gives
    to [row]; [None] when no listed server has that id. *)
Definition probed {A} (http_get : ServerNode.t -> Http.reply A)
    (servers : list ServerNode.t) (row : ServerNode.t) : option string :=
  option_map (fun server => snd (check_server_health (http_get server)))
    (List.find (fun server => ServerNode.id server =? ServerNode.id row) servers).

End Health.

(** ** A codec for JSON lists of plain decimals, and a reference numpy

    An instance of [PyLibs] for the worked examples. [json_loads] reads a
    list of non-negative decimals written without exponent and rounds each
    to the nearest float, ties to even; [json_dumps] writes each float by
    its exact decimal expansion. [np_dot] sums the products from left to
    right. *)

Module PlainLibs.

Definition digit (c : ascii) : option Z :=
  let n := Z.of_nat (nat_of_ascii c) in
  if (48 <=? n) && (n <=? 57) then Some (n - 48) else None.

Fixpoint read_digits (s : string) (acc : Z) (count : nat) : Z * nat * string :=
  match s with
  | String c rest =>
      match digit c with
      | Some d => read_digits rest (10 * acc + d) (S count)
      | None => (acc, count, s)
      end
  | EmptyString => (acc, count, s)
  end.

(** The float nearest to [num / 10^k]. *)
Definition round_decimal (num : Z) (k : nat) : float :=
  if num =? 0 then 0%float
  else
    let den := 10 ^ Z.of_nat k in
    let scaled (e : Z) : Z * Z :=
      if e <? 0 then (num * 2 ^ (- e), den) else (num, den * 2 ^ e) in
    let e0 := Z.log2 num - Z.log2 den - 52 in
    let e := if fst (scaled e0) / snd (scaled e0) <? 2 ^ 52 then e0 - 1 else e0 in
    let '(a, b) := scaled e in
    let m := a / b in
    let r := a mod b in
    let m := if (b <? 2 * r) || ((b =? 2 * r) && Z.odd m) then m + 1 else m in
    Z.ldexp (PrimFloat.of_uint63 (Uint63.of_Z m)) e.

Definition read_number (s : string) : option (float * string) :=
  let '(whole, n1, rest) := read_digits s 0 0 in
  match n1, rest with
  | O, _ => None
  | _, String "."%char rest' =>
      let '(num, n2, rest'') := read_digits rest' whole 0 in
      match n2 with
      | O => None
      | _ => Some (round_decimal num n2, rest'')
      end
  | _, _ => Some (round_decimal whole 0, rest)
  end.

Fixpoint skip_spaces (s : string) : string :=
  match s with
  | String " "%char rest => skip_spaces rest
  | _ => s
  end.

Fixpoint read_items (fuel : nat) (s : string) : option (list float) :=
  match fuel with
  | O => None
  | S fuel' =>
      match read_number (skip_spaces s) with
      | None => None
      | Some (x, rest) =>
          match skip_spaces rest with
          | String ","%char rest' => option_map (cons x) (read_items fuel' rest')
          | String "]"%char EmptyString => Some [x]
          | _ => None
          end
      end
  end.

Definition loads (s : string) : option (list float) :=
  match s with
  | String "["%char rest =>
      match skip_spaces rest with
      | String "]"%char EmptyString => Some []
      | _ => read_items (String.length s) rest
      end
  | _ => None
  end.

Definition zeros (n : nat) : string := string_of_list_ascii (List.repeat "0"%char n).

Definition print_float (f : float) : string :=
  match Prim2SF f with
  | S754_zero _ => "0.0"
  | S754_infinity _ => "Infinity"
  | S754_nan => "NaN"
  | S754_finite sign m e =>
      (if sign then "-" else "") +:+
      (if 0 <=? e then pretty (Z.pos m * 2 ^ e) +:+ ".0"
       else
         let k := Z.to_nat (- e) in
         let digits := pretty (Z.pos m * 5 ^ (- e)) in
         let padded := zeros (S k - String.length digits) +:+ digits in
         let whole := (String.length padded - k)%nat in
         String.substring 0 whole padded +:+ "." +:+ String.substring whole k padded)
  end.

Definition dumps (v : list float) : string :=
  "[" +:+ String.concat ", " (map print_float v) +:+ "]".

Definition dot (vec1 vec2 : list float) : Py.Exc float :=
  if Nat.eqb (length vec1) (length vec2) then
    Py.ret (fold_left (fun acc xy => PrimFloat.add acc (PrimFloat.mul (fst xy) (snd xy)))
                      (combine vec1 vec2) 0%float)
  else Py.raise (Py.Exn "ValueError" "shapes not aligned").

Definition norm (vec : list float) : float :=
  PrimFloat.sqrt
    (fold_left (fun acc x => PrimFloat.add acc (PrimFloat.mul x x)) vec 0%float).

Definition libs : PyLibs :=
  {| json_dumps := dumps; json_loads := loads; np_dot := dot; np_norm := norm |}.

End PlainLibs.

(** ** Sample data for the worked examples *)

Module Sample.

(** A job as [create_job] stores it, moved to status [s]. *)
Definition job_in (s : FineTuningJobStatus.t) (job_id : Z) (created : Z)
    : FineTuningJob.t :=
  FineTuningJob.mk job_id "job" 1 1 s None None created None None.

Definition mistral : LLMModel.t := LLMModel.mk 1 "mistral-7b" "1.0" false None.

(** A store with one user and one base model. *)
Definition store : Database.t :=
  Database.mk [1] [mistral] [] [] [] [] [].

(** The same store with three jobs as an earlier process or the seeding
    script left them: one preparing, one running, one queued. *)
Definition seeded : Database.t :=
  Database.set_fine_tuning_jobs
    [job_in FineTuningJobStatus.PREPARING 1 10;
     job_in FineTuningJobStatus.RUNNING 2 20;
     job_in FineTuningJobStatus.QUEUED 3 30]
    store.

(** The same store with a running and a queued job. *)
Definition busy : Database.t :=
  Database.set_fine_tuning_jobs
    [job_in FineTuningJobStatus.RUNNING 1 10;
     job_in FineTuningJobStatus.QUEUED 2 20]
    store.

Definition job_statuses (w : FineTuningManager.World) : list FineTuningJobStatus.t :=
  map FineTuningJob.status (FineTuningManager.jobs w).

(** A store with one queued job, and a process over it in which the
    polling loop and a scheduled run of the job are on the event loop. *)
Definition one_queued : Database.t :=
  Database.set_fine_tuning_jobs [job_in FineTuningJobStatus.QUEUED 1 10] store.

Definition polling : FineTuningManager.World :=
  {| FineTuningManager.db := one_queued;
     FineTuningManager.self := FineTuningManager.mk ∅ true;
     FineTuningManager.tasks :=
       [FineTuningManager.Polling;
        FineTuningManager.Run 1 FineTuningManager.Scheduled] |}.

Definition node (id : Z) (name health : string) : ServerNode.t :=
  ServerNode.mk id name "10.0.0.1" 8080 None 1 24 true health.

(** A balancer that knows three servers, the second of them offline. *)
Definition balancer : LLMLoadBalancer.t :=
  LLMLoadBalancer.mk
    [node 1 "a" "healthy"; node 2 "b" "offline"; node 3 "c" "healthy";
     node 4 "d" "healthy"]
    ∅ 1 true "round_robin".

Definition clock0 (_ : Z) : float := 0%float.

(** The snapshot cached for server 1 by an earlier successful fetch. *)
Definition busy_snapshot : gmap string Num.num :=
  <["last_updated" := Num.Float 1000%float]>
  (<["active_requests" := Num.Int 5]>
  (<["queue_depth" := Num.Int 2]>
  (Utils.default_load_metrics (node 1 "a" "healthy")))).

(** A balancer with one healthy and one offline server, both with a cached
    snapshot. *)
Definition monitored : LLMLoadBalancer.t :=
  LLMLoadBalancer.mk
    [node 1 "a" "healthy"; node 2 "b" "offline"]
    (<[1 := busy_snapshot]> (<[2 := busy_snapshot]> ∅)) (-1) true "least_load".

(** The same balancer after server 1 reported its queue depth as a
    string, as null, and as an integer beyond the range of floats next to
    a fractional count of requests. *)
Definition with_queue_depth (figure : Num.num) : LLMLoadBalancer.t :=
  LLMLoadBalancer.set_server_metrics
    (<[1 := <["queue_depth" := figure]> busy_snapshot]>
       (LLMLoadBalancer.server_metrics monitored))
    monitored.

Definition with_figures (active_requests queue_depth : Num.num)
    : LLMLoadBalancer.t :=
  LLMLoadBalancer.set_server_metrics
    (<[1 := <["active_requests" := active_requests]>
              (<["queue_depth" := queue_depth]> busy_snapshot)]>
       (LLMLoadBalancer.server_metrics monitored))
    monitored.

(** Every metrics request times out. *)
Definition unreachable (_ : ServerNode.t) : Http.reply (gmap string Num.num) :=
  Http.Raises (Py.Exn "ConnectTimeout" "timed out").

Definition clock2000 (_ : Z) : float := 2000%float.

(** One figure of the snapshot cached for a server. *)
Definition cached_figure (self : LLMLoadBalancer.t) (id : Z) (key : string)
    : option Num.num :=
  match LLMLoadBalancer.server_metrics self !! id with
  | Some snapshot => snapshot !! key
  | None => None
  end.

(** The balancer after one metrics collection in which every fetch fails. *)
Definition after_failed_collection : LLMLoadBalancer.t * Database.t :=
  LLMLoadBalancer._collect_all_server_metrics unreachable clock2000
    Database.empty monitored.

(** The cache with the default threshold and time to live. *)
Definition cache : SemanticCache.t := SemanticCache.__init__ default_settings.

Definition cache_entry (id : Z) (embedding : option string) (response : string)
    (model expires hits : Z) : SemanticCacheEntry.t :=
  SemanticCacheEntry.mk id "stored prompt" embedding response model 0 expires
    hits None.

(** Two entries of model 1 that are both close to the embedding of the
    prompt ["abc"], the second closer than the first. *)
Definition close_entry : SemanticCacheEntry.t :=
  cache_entry 1
    (Some "[1.0, 0.5, 0.5, 0.5, 1.0, 0.5, 0.5, 1.0, 0.0, 0.0, 0.0, 0.0, 0.0, 0.0, 0.0, 0.0]")
    "first answer" 1 5000000000 0.

Definition closer_entry : SemanticCacheEntry.t :=
  cache_entry 2
    (Some "[1.0, 0.5, 0.5, 0.5, 1.5, 0.5, 0.25, 1.0, 0.0, 0.0, 0.0, 0.0, 0.0, 0.0, 0.0, 0.0]")
    "second answer" 1 5000000000 0.

Definition similar_rows : list SemanticCacheEntry.t := [close_entry; closer_entry].

(** A request for the model ["m1"], a store that has the model and one
    healthy server, and a backend that answers every call. *)
Definition request : LLMInferenceManager.Request :=
  {| LLMInferenceManager.prompt := "Explain X";
     LLMInferenceManager.model_name := Some "m1"%string;
     LLMInferenceManager.max_tokens := 1024;
     LLMInferenceManager.temperature := 0x1.6666666666666p-1%float;
     LLMInferenceManager.top_p := 1%float;
     LLMInferenceManager.frequency_penalty := 0%float;
     LLMInferenceManager.presence_penalty := 0%float;
     LLMInferenceManager.stop := None;
     LLMInferenceManager.user_id := None |}.

Definition answer : LLMInferenceManager.ResultJson :=
  {| LLMInferenceManager.r_error := None;
     LLMInferenceManager.r_response := Some "X is a letter"%string;
     LLMInferenceManager.r_prompt_tokens := Some 3;
     LLMInferenceManager.r_completion_tokens := Some 5 |}.

Definition env : LLMInferenceManager.Env :=
  {| LLMInferenceManager.time_time := clock0;
     LLMInferenceManager.post := fun _ _ => Http.Response 200 "" (Py.ret answer);
     LLMInferenceManager.elapsed_ms := fun _ => 12%float;
     LLMInferenceManager.utcnow := fun _ => 3000 |}.

Definition m1 : LLMModel.t := LLMModel.mk 1 "m1" "1.0" false None.

Definition serving_store : Database.t :=
  Database.mk [] [m1] [node 1 "a" "healthy"] [] [] [] [].

Definition cache_clock : LLMInferenceManager.CacheClock :=
  {| LLMInferenceManager.now_key := 1000;
     LLMInferenceManager.now_scan := 1000;
     LLMInferenceManager.now_created := 1000;
     LLMInferenceManager.now_expires := 1000 |}.

(** The manager as the application builds it with the default settings. *)
Definition manager : LLMInferenceManager.t :=
  LLMInferenceManager.__init__ (libs := PlainLibs.libs) default_settings
    cache_clock.

(** The settings with [ENABLE_SEMANTIC_CACHE=false] in the environment, and
    the manager the application builds with them. *)
Definition settings_without_cache : Settings := {|
  LLM_DEFAULT_MODEL := LLM_DEFAULT_MODEL default_settings;
  LOAD_BALANCER_STRATEGY := LOAD_BALANCER_STRATEGY default_settings;
  ENABLE_SEMANTIC_CACHE := false;
  SEMANTIC_CACHE_EXPIRY_SECONDS := SEMANTIC_CACHE_EXPIRY_SECONDS default_settings;
  SEMANTIC_CACHE_SIMILARITY_THRESHOLD :=
    SEMANTIC_CACHE_SIMILARITY_THRESHOLD default_settings
|}.

Definition manager_without_cache : LLMInferenceManager.t :=
  LLMInferenceManager.__init__ (libs := PlainLibs.libs) settings_without_cache
    cache_clock.

Definition manager_with (cache : LLMInferenceManager.CacheObject)
    : LLMInferenceManager.t :=
  LLMInferenceManager.mk (LLMLoadBalancer.__init__ default_settings) (Some cache).

(** A cache that never has the prompt and stores nothing. *)
Definition always_misses : LLMInferenceManager.CacheObject :=
  {| LLMInferenceManager.cache_get := fun _ _ _ db => (Py.ret None, db);
     LLMInferenceManager.cache_add := fun _ _ _ _ _ _ db => (Py.ret tt, db) |}.

(** A cache whose storage fails on every read. *)
Definition read_fails : LLMInferenceManager.CacheObject :=
  {| LLMInferenceManager.cache_get := fun _ _ _ db =>
       (Py.raise (Py.Exn "OperationalError" "connection lost"), db);
     LLMInferenceManager.cache_add := fun _ _ _ _ _ _ db => (Py.ret tt, db) |}.

(** A cache that never has the prompt and whose storage fails on every
    write. *)
Definition write_fails : LLMInferenceManager.CacheObject :=
  {| LLMInferenceManager.cache_get := fun _ _ _ db => (Py.ret None, db);
     LLMInferenceManager.cache_add := fun _ _ _ _ _ _ db =>
       (Py.raise (Py.Exn "OperationalError" "database is locked"), db) |}.

(** The outcome of a call of [generate] with a cache that misses. *)
Definition after_first_call
    : Py.Exc LLMInferenceManager.GenerationResult
      * (LLMInferenceManager.t * Database.t) :=
  LLMInferenceManager.generate default_settings env request
    (manager_with always_misses) serving_store.

Definition statuses (db : Database.t) : list QueryStatus.t :=
  map Query.status (Database.queries db).

Definition error_messages (db : Database.t) : list (option string) :=
  map Query.error_message (Database.queries db).

(** A table of model 1 with an entry that expired at 500 before an entry
    that is still valid; both carry the embedding of [close_entry]. *)
Definition stale_entry : SemanticCacheEntry.t :=
  cache_entry 7 (SemanticCacheEntry.query_embedding close_entry)
    "stale answer" 1 500 0.

Definition stale_rows : list SemanticCacheEntry.t := [stale_entry; close_entry].

(** A manager and two keys with the same text, the first one revoked. *)
Definition alice : User.t := User.mk 5 "alice" (Some UserRole.MANAGER) true.

Definition revoked_key : ApiKey.t := ApiKey.mk 1 "s3" (Some 5) false None.

Definition alice_key : ApiKey.t := ApiKey.mk 2 "s3" (Some 5) true (Some 100).

(** The server table behind [monitored]. *)
Definition monitored_store : Database.t :=
  Database.mk [] [] [node 1 "a" "healthy"; node 2 "b" "offline"] [] [] [] [].

End Sample.
(** * Properties *)

(** ** Test vectors *)

Example md5_empty :
  Hashlib.md5_hexdigest (Hashlib.encode "") = "d41d8cd98f00b204e9800998ecf8427e"%string.
Proof. vm_compute. reflexivity. Qed.

Example md5_abc :
  Hashlib.md5_hexdigest (Hashlib.encode "abc") = "900150983cd24fb0d6963f7d28e17f72"%string.
Proof. vm_compute. reflexivity. Qed.

Example md5_fox :
  Hashlib.md5_hexdigest (Hashlib.encode "The quick brown fox jumps over the lazy dog")
  = "9e107d9d372bb6826bd81d3542a419d6"%string.
Proof. vm_compute. reflexivity. Qed.

Example md5_two_blocks :
  Hashlib.md5_hexdigest (List.repeat "a"%byte 64) = "014842d480b571495a4a0363793f7367"%string.
Proof. vm_compute. reflexivity. Qed.

Example embedding_abc :
  Embedding.compute_embedding "abc"
  = [0x1.2003200320032p-1; 0x1.4261426142614p-2; 0x1.e691e691e691ep-3;
     0x1.3ec13ec13ec14p-2; 0x1.ad2dad2dad2dbp-1; 0x1.fbe9fbe9fbea0p-3;
     0x1.4709470947094p-3; 0x1.fdc9fdc9fdca0p-2;
     0; 0; 0; 0; 0; 0; 0; 0]%float.
Proof. vm_compute. reflexivity. Qed.

Section EmbeddingFacts.

Import Hashlib Embedding.

Lemma all_from_spec (f : Z -> bool) (n : nat) (z0 z : Z) :
  all_from f n z0 = true -> z0 <= z < z0 + Z.of_nat n -> f z = true.
Proof.
  revert z0. induction n as [|n IH]; intros z0 Hall Hz; [lia|].
  simpl in Hall. apply andb_true_iff in Hall as [Hz0 Hrest].
  destruct (Z.eq_dec z z0) as [->|Hne]; [exact Hz0|].
  apply (IH (z0 + 1)); [exact Hrest | lia].
Qed.

Lemma quotient_in_unit_interval (n : Z) :
  0 <= n <= 65535 ->
  in_unit_interval (PrimFloat.div (float_of_Z n) 65535%float) = true.
Proof.
  intros Hn.
  apply (all_from_spec
           (fun n => in_unit_interval (PrimFloat.div (float_of_Z n) 65535%float))
           (Z.to_nat 65536) 0 n); [vm_compute; reflexivity | lia].
Qed.

Lemma zbyte_range (b : byte) : 0 <= zbyte b <= 255.
Proof.
  unfold zbyte. pose proof (Byte.to_N_bounded b). lia.
Qed.

Lemma pair_value_in_unit_interval (hi lo : byte) :
  in_unit_interval (pair_value hi lo) = true.
Proof.
  unfold pair_value. apply quotient_in_unit_interval.
  pose proof (zbyte_range hi). pose proof (zbyte_range lo). lia.
Qed.

Lemma md5_digest_length (msg : list byte) : List.length (md5_digest msg) = 16%nat.
Proof. reflexivity. Qed.

Lemma compute_embedding_unfold (text : string) :
  exists b0 b1 b2 b3 b4 b5 b6 b7 b8 b9 b10 b11 b12 b13 b14 b15,
    md5_digest (encode text)
    = [b0; b1; b2; b3; b4; b5; b6; b7; b8; b9; b10; b11; b12; b13; b14; b15]
    /\ compute_embedding text
       = [pair_value b0 b1; pair_value b2 b3; pair_value b4 b5;
          pair_value b6 b7; pair_value b8 b9; pair_value b10 b11;
          pair_value b12 b13; pair_value b14 b15]
         ++ List.repeat 0%float 8.
Proof.
  unfold compute_embedding, md5_digest.
  set (st := md5_state (encode text)).
  repeat eexists.
Qed.

End EmbeddingFacts.

(** C10. For every input string, [compute_embedding] returns a vector of
    exactly 16 elements, a function of the MD5 digest of the input alone:
    the elements at positions 0 to 7 are the eight quotients
    [(d[2i] * 256 + d[2i+1]) / 65535.0] of the digest bytes and each lies in
    [[0, 1]]; the elements at positions 8 to 15 are [0.0]. *)
Theorem compute_embedding_shape (text : string) :
  List.length (Embedding.compute_embedding text) = 16%nat
  /\ firstn 8 (Embedding.compute_embedding text)
     = Embedding.hash_values (Hashlib.md5_digest (Hashlib.encode text))
  /\ (forall i v, (i < 8)%nat ->
        nth_error (Embedding.compute_embedding text) i = Some v ->
        PrimFloat.leb 0%float v = true /\ PrimFloat.leb v 1%float = true)
  /\ (forall i, (8 <= i < 16)%nat ->
        nth_error (Embedding.compute_embedding text) i = Some 0%float).
Proof.
  destruct (compute_embedding_unfold text)
    as (b0 & b1 & b2 & b3 & b4 & b5 & b6 & b7 & b8 & b9 & b10 & b11 & b12
        & b13 & b14 & b15 & Hd & He).
  rewrite He, Hd. split; [reflexivity|]. split; [reflexivity|]. split.
  - intros i v Hi Hv.
    assert (Hunit : Embedding.in_unit_interval v = true).
    { do 8 (destruct i as [|i];
            [injection Hv as <-; apply pair_value_in_unit_interval|]).
      lia. }
    apply andb_true_iff in Hunit. tauto.
  - intros i [Hlo Hhi].
    do 8 (destruct i as [|i]; [lia|]).
    do 8 (destruct i as [|i]; [reflexivity|]).
    lia.
Qed.

Example plain_json_round_trip :
  PlainLibs.loads (PlainLibs.dumps (Embedding.compute_embedding "abc"))
  = Some (Embedding.compute_embedding "abc").
Proof. vm_compute. reflexivity. Qed.

Example plain_json_reads_decimals :
  PlainLibs.loads "[0.5625238422217136, 1.0, 0.1, 3]"
  = Some [0x1.2003200320032p-1; 1; 0x1.999999999999ap-4; 3]%float.
Proof. vm_compute. reflexivity. Qed.
(** ** Round-robin selection *)

Section RoundRobin.

Import LLMLoadBalancer.

Variables (time_time : Z -> float) (db : Database.t) (model_name : string).

Lemma mod_index_lt (i : Z) (n : nat) :
  n <> 0%nat -> (Z.to_nat (i mod Z.of_nat n) < n)%nat.
Proof.
  intros Hn. pose proof (Z.mod_pos_bound i (Z.of_nat n)). lia.
Qed.

Lemma round_robin_step (servers : list ServerNode.t) (self : t) :
  servers <> [] ->
  exists server,
    servers !! Z.to_nat ((last_server_index self + 1) mod Z.of_nat (length servers))
    = Some server
    /\ _round_robin_strategy servers self
       = Py.ret (server,
                 set_last_server_index
                   ((last_server_index self + 1) mod Z.of_nat (length servers)) self).
Proof.
  intros Hne.
  destruct (lookup_lt_is_Some_2 servers
              (Z.to_nat ((last_server_index self + 1) mod Z.of_nat (length servers))))
    as [server Hserver].
  { apply mod_index_lt. destruct servers; [congruence | discriminate]. }
  exists server. split; [exact Hserver|].
  unfold _round_robin_strategy. destruct servers as [|s0 rest]; [congruence|].
  rewrite Hserver. reflexivity.
Qed.

(** With the round-robin policy and a healthy server, [get_server] is
    [_round_robin_strategy] on the healthy servers. *)
Lemma get_server_round_robin (self : t) :
  load_balancing_strategy self = "round_robin"%string ->
  List.filter healthy (servers self) <> [] ->
  get_server time_time db model_name self
  = Py.ret
      (List.filter healthy (servers self)
         !! Z.to_nat ((last_server_index self + 1)
                      mod Z.of_nat (length (List.filter healthy (servers self)))),
       set_last_server_index
         ((last_server_index self + 1)
          mod Z.of_nat (length (List.filter healthy (servers self)))) self).
Proof.
  intros Hpolicy Hne.
  destruct (round_robin_step (List.filter healthy (servers self)) self Hne)
    as (server & Hserver & Hcall).
  unfold get_server.
  destruct (servers self) as [|s0 rest] eqn:Hservers; [simpl in Hne; congruence|].
  rewrite <- Hservers in *.
  destruct (List.filter healthy (servers self)) as [|h0 hs] eqn:Hhealthy;
    [congruence|].
  rewrite Hpolicy. simpl String.eqb. cbv iota.
  rewrite Hcall, Hserver. reflexivity.
Qed.

(** The servers returned by [k] consecutive selections. *)
Lemma get_server_times_round_robin (k : nat) (self : t) :
  load_balancing_strategy self = "round_robin"%string ->
  List.filter healthy (servers self) <> [] ->
  get_server_times k time_time db model_name self
  = Py.ret
      (map (fun j : nat =>
              List.filter healthy (servers self)
                !! Z.to_nat ((last_server_index self + 1 + Z.of_nat j)
                             mod Z.of_nat (length (List.filter healthy (servers self)))))
           (seq 0 k),
       match k with
       | O => self
       | S _ =>
           set_last_server_index
             ((last_server_index self + Z.of_nat k)
              mod Z.of_nat (length (List.filter healthy (servers self)))) self
       end).
Proof.
  revert self. induction k as [|k IH]; intros self Hpolicy Hne; [reflexivity|].
  cbn [get_server_times].
  rewrite (get_server_round_robin self Hpolicy Hne). cbn [Py.bind Py.ret].
  set (H := List.filter healthy (servers self)) in *.
  set (n := Z.of_nat (length H)).
  assert (Hn : 0 < n).
  { subst n. destruct H; [congruence | simpl; lia]. }
  rewrite IH by (simpl; assumption).
  cbn [Py.bind Py.ret servers set_last_server_index last_server_index].
  fold H. fold n. f_equal. f_equal.
  - cbn [seq map]. f_equal.
    + rewrite Z.add_0_r. reflexivity.
    + rewrite <- seq_shift, map_map. apply map_ext. intros j.
      do 2 f_equal.
      replace ((last_server_index self + 1) mod n + 1 + Z.of_nat j)
        with ((last_server_index self + 1) mod n + (1 + Z.of_nat j)) by lia.
      rewrite Zplus_mod_idemp_l. f_equal. lia.
  - destruct k as [|k]; unfold set_last_server_index; simpl.
    + reflexivity.
    + f_equal.
      rewrite Zplus_mod_idemp_l. f_equal. lia.
Qed.

(** Reading a list cyclically from position [r] gives its rotation. *)
Lemma cyclic_read_rotation {A} (l : list A) (r : nat) :
  (r < length l)%nat ->
  map (fun j : nat => l !! Z.to_nat ((Z.of_nat r + Z.of_nat j) mod Z.of_nat (length l)))
      (seq 0 (length l))
  = map Some (drop r l ++ take r l).
Proof.
  intros Hr. apply list_eq. intros i.
  rewrite !list_lookup_fmap.
  destruct (Nat.lt_ge_cases i (length l)) as [Hi|Hi].
  - rewrite lookup_seq_lt by exact Hi. simpl.
    destruct (Nat.lt_ge_cases (r + i) (length l)) as [Hlt|Hge].
    + rewrite Z.mod_small by lia.
      rewrite lookup_app_l by (rewrite length_drop; lia).
      rewrite lookup_drop.
      replace (Z.to_nat (Z.of_nat r + Z.of_nat i)) with (r + i)%nat by lia.
      destruct (lookup_lt_is_Some_2 l (r + i) Hlt) as [x ->]. reflexivity.
    + rewrite lookup_app_r by (rewrite length_drop; lia).
      rewrite length_drop.
      rewrite lookup_take_lt by lia.
      replace ((Z.of_nat r + Z.of_nat i) mod Z.of_nat (length l))
        with (Z.of_nat r + Z.of_nat i - Z.of_nat (length l)).
      2:{ apply Z.mod_unique with 1; lia. }
      replace (Z.to_nat (Z.of_nat r + Z.of_nat i - Z.of_nat (length l)))
        with (i - (length l - r))%nat by lia.
      destruct (lookup_lt_is_Some_2 l (i - (length l - r))) as [x ->]; [lia|].
      reflexivity.
  - rewrite lookup_seq_ge by exact Hi. simpl.
    rewrite lookup_ge_None_2; [reflexivity|].
    rewrite length_app, length_drop, length_take. lia.
Qed.

End RoundRobin.

(** C9, as the code has it. With the round-robin policy and a fixed list
    of [N >= 1] healthy nodes, each selection returns the node at the stored index plus one
    modulo [N] and stores that index; [N] consecutive selections return
    the healthy nodes in cyclic registration order starting there, which
    is every node exactly once; starting from the index of a new balancer
    that is the registration order itself; and the selections repeat with
    period [N]. *)
Theorem round_robin_visits_each_once
    (time_time : Z -> float) (db : Database.t) (model_name : string)
    (self : LLMLoadBalancer.t) :
  LLMLoadBalancer.load_balancing_strategy self = "round_robin"%string ->
  LLMLoadBalancer.healthy_servers self <> [] ->
  (forall k,
      LLMLoadBalancer.get_server_times k time_time db model_name self
      = Py.ret
          (map (fun j : nat =>
                  LLMLoadBalancer.healthy_servers self
                    !! Z.to_nat
                         ((LLMLoadBalancer.last_server_index self + 1 + Z.of_nat j)
                          mod Z.of_nat (length (LLMLoadBalancer.healthy_servers self))))
               (seq 0 k),
           match k with
           | O => self
           | S _ =>
               LLMLoadBalancer.set_last_server_index
                 ((LLMLoadBalancer.last_server_index self + Z.of_nat k)
                  mod Z.of_nat (length (LLMLoadBalancer.healthy_servers self))) self
           end))
  /\ LLMLoadBalancer.get_server_times
       (length (LLMLoadBalancer.healthy_servers self)) time_time db model_name self
     = Py.ret
         (map Some
            (LLMLoadBalancer.rotate_from
               (Z.to_nat (LLMLoadBalancer.next_index
                            (length (LLMLoadBalancer.healthy_servers self)) self))
               (LLMLoadBalancer.healthy_servers self)),
          LLMLoadBalancer.set_last_server_index
            ((LLMLoadBalancer.last_server_index self
              + Z.of_nat (length (LLMLoadBalancer.healthy_servers self)))
             mod Z.of_nat (length (LLMLoadBalancer.healthy_servers self))) self)
  /\ LLMLoadBalancer.rotate_from
       (Z.to_nat (LLMLoadBalancer.next_index
                    (length (LLMLoadBalancer.healthy_servers self)) self))
       (LLMLoadBalancer.healthy_servers self)
     ≡ₚ LLMLoadBalancer.healthy_servers self
  /\ (LLMLoadBalancer.last_server_index self
      = LLMLoadBalancer.last_server_index (LLMLoadBalancer.__init__ default_settings) ->
      LLMLoadBalancer.rotate_from
        (Z.to_nat (LLMLoadBalancer.next_index
                     (length (LLMLoadBalancer.healthy_servers self)) self))
        (LLMLoadBalancer.healthy_servers self)
      = LLMLoadBalancer.healthy_servers self).
Proof.
  intros Hpolicy Hne.
  unfold LLMLoadBalancer.healthy_servers, LLMLoadBalancer.next_index,
    LLMLoadBalancer.rotate_from in *.
  set (H := List.filter LLMLoadBalancer.healthy (LLMLoadBalancer.servers self)) in *.
  assert (Hlen : length H <> 0%nat) by (destruct H; [congruence | discriminate]).
  pose proof (mod_index_lt (LLMLoadBalancer.last_server_index self + 1) (length H) Hlen)
    as Hr.
  pose proof (Z.mod_pos_bound (LLMLoadBalancer.last_server_index self + 1)
                (Z.of_nat (length H)) ltac:(lia)) as Hbound.
  split; [|split; [|split]].
  - intros k. apply get_server_times_round_robin; assumption.
  - rewrite (get_server_times_round_robin time_time db model_name (length H) self
               Hpolicy Hne).
    fold H. destruct (length H) as [|n] eqn:Hn; [congruence|]. rewrite <- Hn in *.
    f_equal. f_equal.
    rewrite <- (cyclic_read_rotation H _ Hr).
    apply map_ext. intros j. do 2 f_equal.
    rewrite Z2Nat.id by lia.
    rewrite Zplus_mod_idemp_l. reflexivity.
  - rewrite Permutation_app_comm, take_drop. reflexivity.
  - intros Hfresh. rewrite Hfresh. simpl.
    rewrite Z.mod_0_l by lia. simpl. rewrite drop_0. apply app_nil_r.
Qed.

Lemma round_robin_visits_each_once_witness :
  LLMLoadBalancer.get_server_times 3 Sample.clock0 Database.empty "m" Sample.balancer
  = Py.ret
      ([Some (Sample.node 4 "d" "healthy"); Some (Sample.node 1 "a" "healthy");
        Some (Sample.node 3 "c" "healthy")],
       LLMLoadBalancer.set_last_server_index 1 Sample.balancer).
Proof.
  exact (proj1 (proj2 (round_robin_visits_each_once
                         Sample.clock0 Database.empty "m" Sample.balancer
                         eq_refl ltac:(discriminate)))).
Defined.

(** C9, as stated, fails. A new balancer over the healthy nodes a, c and
    d returns a and then c; the three consecutive selections that follow
    return d, a and c: every node once, but not in registration order. *)
Lemma round_robin_order_depends_on_index :
  LLMLoadBalancer.healthy_servers Sample.balancer
  = [Sample.node 1 "a" "healthy"; Sample.node 3 "c" "healthy";
     Sample.node 4 "d" "healthy"]
  /\ LLMLoadBalancer.get_server_times 2 Sample.clock0 Database.empty "m"
       (LLMLoadBalancer.set_last_server_index
          (LLMLoadBalancer.last_server_index
             (LLMLoadBalancer.__init__ default_settings))
          Sample.balancer)
     = Py.ret ([Some (Sample.node 1 "a" "healthy");
                Some (Sample.node 3 "c" "healthy")], Sample.balancer)
  /\ exists selected self',
       LLMLoadBalancer.get_server_times 3 Sample.clock0 Database.empty "m"
         Sample.balancer
       = Py.ret (selected, self')
       /\ selected
          = [Some (Sample.node 4 "d" "healthy"); Some (Sample.node 1 "a" "healthy");
             Some (Sample.node 3 "c" "healthy")]
       /\ selected <> map Some (LLMLoadBalancer.healthy_servers Sample.balancer).
Proof.
  split; [vm_compute; reflexivity|].
  split; [vm_compute; reflexivity|].
  eexists _, _. split; [vm_compute; reflexivity|].
  split; [reflexivity|]. vm_compute. discriminate.
Qed.

(** ** Metrics collection *)

Section Metrics.

Import LLMLoadBalancer.

Variables (http_get : ServerNode.t -> Http.reply (gmap string Num.num))
          (time_time : Z -> float).

Lemma failed_fetch_metrics (server : ServerNode.t) :
  Utils.fetched (http_get server) = false ->
  Utils.get_server_load_metrics server (http_get server)
  = Utils.default_load_metrics server.
Proof.
  unfold Utils.fetched, Utils.get_server_load_metrics.
  destruct (http_get server) as [e|status_code text [e|metrics]]; try reflexivity.
  - destruct (status_code =? 200); reflexivity.
  - intros ->. reflexivity.
Qed.

Lemma collect_rows (l : list ServerNode.t)
    (m : gmap Z (gmap string Num.num)) (rows : list ServerLoadMetrics.t) :
  snd (fold_left (collect_one http_get time_time) l (m, rows))
  = rows ++ map (fun server =>
                   load_row server
                     (Utils.get_server_load_metrics server (http_get server)))
                (List.filter healthy l).
Proof.
  revert m rows. induction l as [|x l IH]; intros m rows; simpl.
  - symmetry. apply app_nil_r.
  - unfold collect_one at 2. destruct (healthy x); simpl.
    + rewrite IH, <- app_assoc. reflexivity.
    + apply IH.
Qed.

Lemma collect_metrics_other (l : list ServerNode.t)
    (m : gmap Z (gmap string Num.num)) (rows : list ServerLoadMetrics.t) (id : Z) :
  (forall server, In server l -> healthy server = true -> ServerNode.id server <> id) ->
  fst (fold_left (collect_one http_get time_time) l (m, rows)) !! id = m !! id.
Proof.
  revert m rows. induction l as [|x l IH]; intros m rows Hother; simpl; [reflexivity|].
  unfold collect_one at 2. destruct (healthy x) eqn:Hx; simpl.
  - rewrite IH by (intros s Hs; apply Hother; right; exact Hs).
    apply lookup_insert_ne. apply Hother; [left; reflexivity | exact Hx].
  - apply IH. intros s Hs. apply Hother. right. exact Hs.
Qed.

Lemma collect_metrics_healthy (l : list ServerNode.t)
    (m : gmap Z (gmap string Num.num)) (rows : list ServerLoadMetrics.t)
    (server : ServerNode.t) :
  NoDup (map ServerNode.id l) -> In server l -> healthy server = true ->
  fst (fold_left (collect_one http_get time_time) l (m, rows)) !! ServerNode.id server
  = Some (<["last_updated" := Num.Float (time_time (ServerNode.id server))]>
            (Utils.get_server_load_metrics server (http_get server))).
Proof.
  revert m rows. induction l as [|x l IH]; intros m rows Hnodup Hin Hh; [destruct Hin|].
  simpl in Hnodup. apply NoDup_cons in Hnodup as [Hx Hnodup].
  simpl. destruct Hin as [->|Hin].
  - unfold collect_one at 2. rewrite Hh. simpl.
    rewrite collect_metrics_other.
    + apply lookup_insert_eq.
    + intros s Hs _ Heq. apply Hx. rewrite <- Heq.
      apply list_elem_of_In, in_map, Hs.
  - destruct (collect_one http_get time_time (m, rows) x) as [m' rows'].
    apply IH; assumption.
Qed.

End Metrics.

(** C5, as the code has it. In one run of [_collect_all_server_metrics]
    over servers with distinct ids, a healthy server whose fetch fails gets
    its cached snapshot replaced by the default figures (all zero, total
    GPU memory the declared capacity of the server) with a new
    [last_updated], and a row with these figures is stored for it; the
    cached snapshot of a server that is not healthy is left unchanged. *)
Theorem failed_fetch_stores_defaults
    (http_get : ServerNode.t -> Http.reply (gmap string Num.num))
    (time_time : Z -> float) (db : Database.t) (self : LLMLoadBalancer.t)
    (server : ServerNode.t) :
  NoDup (map ServerNode.id (LLMLoadBalancer.servers self)) ->
  In server (LLMLoadBalancer.servers self) ->
  (LLMLoadBalancer.healthy server = true ->
   Utils.fetched (http_get server) = false ->
   LLMLoadBalancer.server_metrics
     (fst (LLMLoadBalancer._collect_all_server_metrics http_get time_time db self))
     !! ServerNode.id server
   = Some (<["last_updated" := Num.Float (time_time (ServerNode.id server))]>
             (Utils.default_load_metrics server))
   /\ In (LLMLoadBalancer.load_row server (Utils.default_load_metrics server))
         (Database.server_load_metrics
            (snd (LLMLoadBalancer._collect_all_server_metrics
                    http_get time_time db self))))
  /\ (LLMLoadBalancer.healthy server = false ->
      LLMLoadBalancer.server_metrics
        (fst (LLMLoadBalancer._collect_all_server_metrics http_get time_time db self))
        !! ServerNode.id server
      = LLMLoadBalancer.server_metrics self !! ServerNode.id server).
Proof.
  intros Hnodup Hin.
  unfold LLMLoadBalancer._collect_all_server_metrics.
  destruct (fold_left (LLMLoadBalancer.collect_one http_get time_time)
              (LLMLoadBalancer.servers self)
              (LLMLoadBalancer.server_metrics self, Database.server_load_metrics db))
    as [metrics rows] eqn:Hfold.
  simpl. split.
  - intros Hh Hfail. split.
    + change metrics with (fst (metrics, rows)). rewrite <- Hfold.
      rewrite (collect_metrics_healthy http_get time_time _ _ _ server Hnodup Hin Hh).
      rewrite failed_fetch_metrics by exact Hfail. reflexivity.
    + change rows with (snd (metrics, rows)). rewrite <- Hfold.
      rewrite collect_rows. apply in_or_app. right.
      rewrite <- (failed_fetch_metrics http_get server Hfail).
      apply (in_map (fun s => LLMLoadBalancer.load_row s
                       (Utils.get_server_load_metrics s (http_get s)))).
      apply filter_In. split; assumption.
  - intros Hh.
    change metrics with (fst (metrics, rows)). rewrite <- Hfold.
    apply collect_metrics_other.
    intros s Hs Hsh Heq.
    assert (s = server) as ->; [|congruence].
    clear -Hnodup Hin Hs Heq.
    induction (LLMLoadBalancer.servers self) as [|x l IH]; [destruct Hin|].
    simpl in Hnodup. apply NoDup_cons in Hnodup as [Hx Hnodup].
    destruct Hs as [->|Hs], Hin as [->|Hin]; try reflexivity.
    + exfalso. apply Hx. rewrite Heq. apply list_elem_of_In, in_map, Hin.
    + exfalso. apply Hx. rewrite <- Heq. apply list_elem_of_In, in_map, Hs.
    + apply IH; assumption.
Qed.

Lemma failed_fetch_stores_defaults_witness :
  LLMLoadBalancer.server_metrics (fst Sample.after_failed_collection) !! 1
  = Some (<["last_updated" := Num.Float 2000%float]>
            (Utils.default_load_metrics (Sample.node 1 "a" "healthy"))).
Proof.
  destruct (failed_fetch_stores_defaults Sample.unreachable Sample.clock2000
              Database.empty Sample.monitored (Sample.node 1 "a" "healthy"))
    as [Hfailed _].
  - simpl. apply NoDup_cons. split; [|apply NoDup_singleton].
    intros Hin. apply list_elem_of_singleton in Hin. discriminate.
  - left. reflexivity.
  - exact (proj1 (Hfailed eq_refl eq_refl)).
Defined.

(** C5, as stated, fails: server 1 is healthy, its cached snapshot shows
    five active requests, and the fetch times out; after the collection
    the cached snapshot shows none, and a row was stored for the server. *)
Lemma failed_fetch_overwrites_snapshot :
  LLMLoadBalancer.healthy (Sample.node 1 "a" "healthy") = true
  /\ Utils.fetched (Sample.unreachable (Sample.node 1 "a" "healthy")) = false
  /\ Sample.cached_figure Sample.monitored 1 "active_requests" = Some (Num.Int 5)
  /\ Sample.cached_figure (fst Sample.after_failed_collection) 1 "active_requests"
     = Some (Num.Int 0)
  /\ LLMLoadBalancer.server_metrics (fst Sample.after_failed_collection) !! 1
     <> LLMLoadBalancer.server_metrics Sample.monitored !! 1
  /\ length (Database.server_load_metrics (snd Sample.after_failed_collection)) = 1%nat.
Proof.
  assert (Hbefore : Sample.cached_figure Sample.monitored 1 "active_requests"
                    = Some (Num.Int 5)) by (vm_compute; reflexivity).
  assert (Hafter : Sample.cached_figure (fst Sample.after_failed_collection) 1
                     "active_requests" = Some (Num.Int 0)) by (vm_compute; reflexivity).
  repeat split; try assumption; try reflexivity.
  intros Heq. unfold Sample.cached_figure in Hafter. rewrite Heq in Hafter.
  unfold Sample.cached_figure in Hbefore. rewrite Hbefore in Hafter. discriminate.
Qed.

(** ** The orchestrator *)

Example cache_key_vector :
  Utils.compute_cache_key "Explain X" "m1" = "e3185a9b4a9bedc481a530c871a8b027"%string.
Proof. vm_compute. reflexivity. Qed.

(** C3, as the code has it. When the model name resolves to no model and
    the configured default model is absent as well, [generate] returns the
    error result ["Model not found"] and leaves the store as it was: the
    call returns before [log_query], so no request record is created or
    marked failed. *)
Theorem unknown_model_leaves_no_record
    (settings : Settings) (env : LLMInferenceManager.Env)
    (req : LLMInferenceManager.Request) (self : LLMInferenceManager.t)
    (db : Database.t) :
  LLMInferenceManager.find_model
    (Py.str_or (LLMInferenceManager.model_name req) (LLM_DEFAULT_MODEL settings)) db
  = None ->
  LLMInferenceManager.find_model (LLM_DEFAULT_MODEL settings) db = None ->
  LLMInferenceManager.generate settings env req self db
  = (Py.ret (LLMInferenceManager.Error "Model not found"), (self, db)).
Proof.
  intros Hnamed Hdefault.
  unfold LLMInferenceManager.generate, LLMInferenceManager._generate_with_db,
    LLMInferenceManager.resolve_model.
  rewrite Hnamed, Hdefault. reflexivity.
Qed.

Lemma unknown_model_leaves_no_record_witness :
  LLMInferenceManager.generate default_settings Sample.env Sample.request
    Sample.manager Database.empty
  = (Py.ret (LLMInferenceManager.Error "Model not found"),
     (Sample.manager, Database.empty)).
Proof.
  apply (unknown_model_leaves_no_record default_settings Sample.env Sample.request
           Sample.manager Database.empty); reflexivity.
Defined.

(** C3, as stated, fails: on a store without models [generate] returns the
    error result, and afterwards the request log is empty, so no request
    record is marked failed. *)
Lemma unknown_model_has_no_failed_record :
  fst (LLMInferenceManager.generate default_settings Sample.env Sample.request
         Sample.manager Database.empty)
  = Py.ret (LLMInferenceManager.Error "Model not found")
  /\ Database.queries
       (snd (snd (LLMInferenceManager.generate default_settings Sample.env
                    Sample.request Sample.manager Database.empty)))
     = [].
Proof. split; reflexivity. Qed.

(** C2, as the code has it. An error raised by the cache look-up is not
    handled: [generate] raises it, after the request was logged. An error
    raised by the cache write after a successful backend call is caught by
    the handler of the dispatch block: [generate] returns an error result
    with the text of the error, and the request, already marked completed,
    is marked failed. *)
Theorem cache_errors_surface
    (settings : Settings) (env : LLMInferenceManager.Env)
    (req : LLMInferenceManager.Request) (self : LLMInferenceManager.t)
    (db : Database.t) (model : LLMModel.t)
    (cache : LLMInferenceManager.CacheObject) :
  LLMInferenceManager.resolve_model settings req db = Some model ->
  LLMInferenceManager.cache_in_use settings self = Some cache ->
  (forall e db2,
      LLMInferenceManager.cache_get cache (LLMInferenceManager.prompt req)
        (LLMModel.id model)
        (Some (Utils.compute_cache_key (LLMInferenceManager.prompt req)
                 (LLMModel.name model)))
        (snd (Utils.log_query db (LLMInferenceManager.user_id req)
                (LLMModel.id model) (LLMInferenceManager.prompt req)))
      = (Py.raise e, db2) ->
      LLMInferenceManager.generate settings env req self db
      = (Py.raise e, (self, db2)))
  /\ (forall db2 server lb text result e db4,
        LLMInferenceManager.cache_get cache (LLMInferenceManager.prompt req)
          (LLMModel.id model)
          (Some (Utils.compute_cache_key (LLMInferenceManager.prompt req)
                   (LLMModel.name model)))
          (snd (Utils.log_query db (LLMInferenceManager.user_id req)
                  (LLMModel.id model) (LLMInferenceManager.prompt req)))
        = (Py.ret None, db2) ->
        LLMLoadBalancer.get_server (LLMInferenceManager.time_time env) db2
          (LLMModel.name model) (LLMInferenceManager.load_balancer self)
        = Py.ret (Some server, lb) ->
        LLMInferenceManager.post env server (LLMInferenceManager.payload_of req model)
        = Http.Response 200 text (Py.ret result) ->
        LLMInferenceManager.r_error result = None ->
        LLMInferenceManager.cache_add cache (LLMInferenceManager.prompt req)
          (default "" (LLMInferenceManager.r_response result)) (LLMModel.id model)
          (default 0 (LLMInferenceManager.r_prompt_tokens result))
          (default 0 (LLMInferenceManager.r_completion_tokens result))
          (Some (Utils.compute_cache_key (LLMInferenceManager.prompt req)
                   (LLMModel.name model)))
          (LLMInferenceManager.mark_completed env
             (fst (Utils.log_query db (LLMInferenceManager.user_id req)
                     (LLMModel.id model) (LLMInferenceManager.prompt req)))
             result
             (Some (Utils.compute_cache_key (LLMInferenceManager.prompt req)
                      (LLMModel.name model)))
             (Utils.set_query_status db2
                (fst (Utils.log_query db (LLMInferenceManager.user_id req)
                        (LLMModel.id model) (LLMInferenceManager.prompt req)))
                QueryStatus.PROCESSING))
        = (Py.raise e, db4) ->
        LLMInferenceManager.generate settings env req self db
        = (Py.ret (LLMInferenceManager.Error ("Error: " +:+ Py.str_of_exn e)),
           (LLMInferenceManager.mk lb (LLMInferenceManager.semantic_cache self),
            LLMInferenceManager.mark_failed env LLMInferenceManager.AtHandler
              (fst (Utils.log_query db (LLMInferenceManager.user_id req)
                      (LLMModel.id model) (LLMInferenceManager.prompt req)))
              (LLMInferenceManager.elapsed_ms env LLMInferenceManager.AtHandler)
              ("Error: " +:+ Py.str_of_exn e) db4))).
Proof.
  intros Hmodel Hcache.
  unfold LLMInferenceManager.generate, LLMInferenceManager._generate_with_db.
  rewrite Hmodel.
  destruct (Utils.log_query db (LLMInferenceManager.user_id req)
              (LLMModel.id model) (LLMInferenceManager.prompt req))
    as [query_id db1] eqn:Hlog.
  rewrite Hcache. cbn [fst snd]. split.
  - intros e db2 Hget. rewrite Hget. reflexivity.
  - intros db2 server lb text result e db4 Hget Hserver Hpost Hok Hadd.
    rewrite Hget, Hserver. cbn [Py.ret].
    unfold LLMInferenceManager.dispatch.
    rewrite Hpost. change (200 =? 200) with true. unfold Py.ret, Py.raise in *.
    cbn [negb]. cbv beta iota zeta. rewrite Hok.
    assert (LLMInferenceManager.cache_in_use settings
              (LLMInferenceManager.mk lb (LLMInferenceManager.semantic_cache self))
            = Some cache) as ->.
    { revert Hcache. unfold LLMInferenceManager.cache_in_use. simpl. auto. }
    rewrite Hadd. reflexivity.
Qed.

Lemma cache_errors_surface_witness :
  LLMInferenceManager.generate default_settings Sample.env Sample.request
    (Sample.manager_with Sample.read_fails) Sample.serving_store
  = (Py.raise (Py.Exn "OperationalError" "connection lost"),
     (Sample.manager_with Sample.read_fails,
      snd (Utils.log_query Sample.serving_store None 1 "Explain X")))
  /\ fst (LLMInferenceManager.generate default_settings Sample.env Sample.request
            (Sample.manager_with Sample.write_fails) Sample.serving_store)
     = Py.ret (LLMInferenceManager.Error "Error: database is locked").
Proof.
  split.
  - apply (proj1 (cache_errors_surface default_settings Sample.env Sample.request
                    (Sample.manager_with Sample.read_fails) Sample.serving_store
                    Sample.m1 Sample.read_fails eq_refl eq_refl)).
    reflexivity.
  - etransitivity.
    + apply (f_equal fst).
      eapply (proj2 (cache_errors_surface default_settings Sample.env Sample.request
                       (Sample.manager_with Sample.write_fails) Sample.serving_store
                       Sample.m1 Sample.write_fails eq_refl eq_refl));
        [reflexivity | vm_compute; reflexivity | reflexivity | reflexivity
        | reflexivity].
    + reflexivity.
Defined.

(** C2, as stated, fails. With the manager as the application builds it
    the cache look-up raises (its session does not open) and so does
    [generate], leaving the request pending; the same happens with a
    cache whose storage fails on a read; a cache that misses lets the same
    call succeed. With a cache whose write fails after the backend has
    answered, [generate] returns an error result and the request ends up
    marked failed. *)
Lemma cache_errors_reach_the_caller :
  (fst (LLMInferenceManager.generate default_settings Sample.env Sample.request
          Sample.manager Sample.serving_store)
   = Py.raise (Py.Exn "TypeError"
       "'generator' object does not support the asynchronous context manager protocol")
   /\ Sample.statuses
        (snd (snd (LLMInferenceManager.generate default_settings Sample.env
                     Sample.request Sample.manager Sample.serving_store)))
      = [QueryStatus.PENDING])
  /\ (fst (LLMInferenceManager.generate default_settings Sample.env Sample.request
             (Sample.manager_with Sample.read_fails) Sample.serving_store)
      = Py.raise (Py.Exn "OperationalError" "connection lost")
      /\ Sample.statuses
           (snd (snd (LLMInferenceManager.generate default_settings Sample.env
                        Sample.request (Sample.manager_with Sample.read_fails)
                        Sample.serving_store)))
         = [QueryStatus.PENDING])
  /\ (fst (LLMInferenceManager.generate default_settings Sample.env Sample.request
             (Sample.manager_with Sample.always_misses) Sample.serving_store)
      = Py.ret (LLMInferenceManager.Success "X is a letter" "m1" 3 5 8 12%float 1 false)
      /\ Sample.statuses
           (snd (snd (LLMInferenceManager.generate default_settings Sample.env
                        Sample.request (Sample.manager_with Sample.always_misses)
                        Sample.serving_store)))
         = [QueryStatus.COMPLETED])
  /\ (fst (LLMInferenceManager.generate default_settings Sample.env Sample.request
             (Sample.manager_with Sample.write_fails) Sample.serving_store)
      = Py.ret (LLMInferenceManager.Error "Error: database is locked")
      /\ Sample.statuses
           (snd (snd (LLMInferenceManager.generate default_settings Sample.env
                        Sample.request (Sample.manager_with Sample.write_fails)
                        Sample.serving_store)))
         = [QueryStatus.FAILED]
      /\ Sample.error_messages
           (snd (snd (LLMInferenceManager.generate default_settings Sample.env
                        Sample.request (Sample.manager_with Sample.write_fails)
                        Sample.serving_store)))
         = [Some "Error: database is locked"%string]).
Proof. repeat split; vm_compute; reflexivity. Qed.

(** ** The fine-tuning scheduler *)

Section Scheduler.

Import FineTuningManager.

Lemma with_db_raises {A} (block : World -> Py.Exc A * World) (w : World) :
  with_db block w = (Py.raise Session.not_a_context_manager, w).
Proof. reflexivity. Qed.

Lemma resume_jobs_raises (w : World) :
  _resume_jobs w = (Py.raise Session.not_a_context_manager, w).
Proof. reflexivity. Qed.

Lemma initialize_raises (w : World) :
  initialize w
  = (if initialized (self w) then Py.ret tt
     else Py.raise Session.not_a_context_manager, w).
Proof. unfold initialize. destruct (initialized (self w)); reflexivity. Qed.

Lemma restart_is_start (w : World) : restart w = start (db w).
Proof. reflexivity. Qed.

Lemma process_next_job_outcome (now : Py.datetime) (w : World) :
  _process_next_job now w
  = (if (1 <=? size (active_jobs (self w)))%nat then Py.ret tt
     else Py.raise Session.not_a_context_manager, w).
Proof.
  unfold _process_next_job.
  destruct (1 <=? size (active_jobs (self w)))%nat; reflexivity.
Qed.

Lemma poll_changes_nothing (now : Py.datetime) (w : World) :
  job_processing_loop now w = w.
Proof.
  unfold job_processing_loop. rewrite process_next_job_outcome. reflexivity.
Qed.

Lemma In_remove_task (p : task -> bool) (x : task) (ts : list task) :
  In x (remove_task p ts) -> In x ts.
Proof.
  induction ts as [|y ts IH]; simpl; [auto|].
  destruct (p y); simpl; intuition.
Qed.

(** As long as no run is inside its [try] block, a step leaves the store
    as it was and brings no run there. *)
Lemma step_frame (w w' : World) :
  step w w' -> no_training w -> db w' = db w /\ no_training w'.
Proof.
  intros Hstep Hidle. destruct Hstep as
    [w name base_model_id user_id output_model_name now
    | w now Hin
    | w job_id now Hin
    | w job_id base_model i Hin Hi
    | w job_id base_model outcome now Hin
    | w job_id now
    | w].
  - split; [reflexivity | exact Hidle].
  - rewrite poll_changes_nothing. split; [reflexivity | exact Hidle].
  - split; [reflexivity|].
    intros j m Hj. apply (Hidle j m).
    eapply In_remove_task. exact Hj.
  - destruct (Hidle _ _ Hin).
  - destruct (Hidle _ _ Hin).
  - split; [reflexivity | exact Hidle].
  - split; [reflexivity|]. intros j m [].
Qed.

Lemma reachable_frame (w0 w : World) :
  reachable w0 w -> no_training w0 -> db w = db w0 /\ no_training w.
Proof.
  intros Hreach Hidle. induction Hreach as [|w w' _ IH Hstep]; [auto|].
  destruct IH as [Hdb Hw].
  destruct (step_frame w w' Hstep Hw) as [Hdb' Hw'].
  split; [congruence | exact Hw'].
Qed.

Lemma start_no_training (db0 : Database.t) : no_training (start db0).
Proof. intros j m []. Qed.

(** A trace from a process start: a submission, a cancellation, a restart. *)
Lemma sample_trace_reachable :
  reachable (start Sample.busy)
    (restart
       (snd (cancel_job 1 40
               (snd (create_job "c" 1 1 None 30 (start Sample.busy)))))).
Proof.
  eapply reachable_step; [|apply step_restart].
  eapply reachable_step; [|apply step_cancel].
  eapply reachable_step; [|apply step_submit].
  apply reachable_start.
Qed.

End Scheduler.

(** C1. From a state in which no run is inside its training block (any
    process start is one) and at most one job is preparing or running,
    every state the scheduler reaches by submissions, turns of the polling
    loop, run steps, cancellations and restarts has at most one job
    preparing or running: the table of jobs is the one it started from.
    A turn of the polling loop changes nothing in any state, so it moves
    no job out of queued while another job is active. *)
Theorem at_most_one_active_job (w0 w : FineTuningManager.World) :
  FineTuningManager.no_training w0 ->
  (FineTuningManager.active_count w0 <= 1)%nat ->
  FineTuningManager.reachable w0 w ->
  (FineTuningManager.active_count w <= 1)%nat
  /\ FineTuningManager.jobs w = FineTuningManager.jobs w0
  /\ forall now, FineTuningManager.job_processing_loop now w = w.
Proof.
  intros Hidle Hcount Hreach.
  destruct (reachable_frame w0 w Hreach Hidle) as [Hdb _].
  assert (Hjobs : FineTuningManager.jobs w = FineTuningManager.jobs w0).
  { unfold FineTuningManager.jobs. rewrite Hdb. reflexivity. }
  split; [|split].
  - unfold FineTuningManager.active_count. rewrite Hjobs. exact Hcount.
  - exact Hjobs.
  - intros now. apply poll_changes_nothing.
Qed.

Lemma at_most_one_active_job_witness :
  (FineTuningManager.active_count
     (FineTuningManager.restart
        (snd (FineTuningManager.cancel_job 1 40
                (snd (FineTuningManager.create_job "c" 1 1 None 30
                        (FineTuningManager.start Sample.busy))))))%Z <= 1)%nat.
Proof.
  exact (proj1 (at_most_one_active_job
                  (FineTuningManager.start Sample.busy) _
                  (start_no_training Sample.busy)
                  ltac:(vm_compute; lia)
                  sample_trace_reachable)).
Defined.

(** A turn of the polling loop over a queued job, with no job active, and
    the start of a scheduled run: both raise and the job stays queued. *)
Example queued_job_is_not_promoted :
  FineTuningManager._process_next_job 50 Sample.polling
  = (Py.raise Session.not_a_context_manager, Sample.polling)
  /\ fst (FineTuningManager._run_fine_tuning_job 1 60 Sample.polling)
     = Py.raise Session.not_a_context_manager
  /\ Sample.job_statuses
       (snd (FineTuningManager._run_fine_tuning_job 1 60 Sample.polling))
     = [FineTuningJobStatus.QUEUED]
  /\ FineTuningManager.tasks
       (snd (FineTuningManager._run_fine_tuning_job 1 60 Sample.polling))
     = [FineTuningManager.Polling].
Proof. repeat split. Qed.

(** C4, on the store [Sample.seeded] with a preparing, a running and a
    queued job. The restart recovery raises [TypeError] where it opens
    its session and resets no job: the preparing job stays preparing and
    the running job stays running. [initialize] passes the error on, so
    the manager stays uninitialised and the polling loop is not started.
    The same holds over every store. *)
Theorem resume_resets_nothing :
  (forall w,
      FineTuningManager._resume_jobs w
      = (Py.raise Session.not_a_context_manager, w)
      /\ FineTuningManager.restart w
         = FineTuningManager.start (FineTuningManager.db w))
  /\ Py.class_of_exn Session.not_a_context_manager = "TypeError"%string
  /\ Sample.job_statuses
       (snd (FineTuningManager._resume_jobs
               (FineTuningManager.start Sample.seeded)))
     = [FineTuningJobStatus.PREPARING; FineTuningJobStatus.RUNNING;
        FineTuningJobStatus.QUEUED]
  /\ FineTuningManager.initialize (FineTuningManager.start Sample.seeded)
     = (Py.raise Session.not_a_context_manager,
        FineTuningManager.start Sample.seeded)
  /\ FineTuningManager.tasks
       (FineTuningManager.restart (FineTuningManager.start Sample.seeded))
     = [].
Proof.
  split; [|repeat split].
  intros w. split; [apply resume_jobs_raises | apply restart_is_start].
Qed.

(** X8. From a state in which no run is inside its training block, no step
    of the scheduler writes the store: the tables of jobs and of models
    stay as they were, so no job is stored, promoted, finished, cancelled
    or reset and no model is added; and no run ever gets inside its
    training block. *)
Theorem scheduler_never_writes (w0 w : FineTuningManager.World) :
  FineTuningManager.no_training w0 ->
  FineTuningManager.reachable w0 w ->
  FineTuningManager.db w = FineTuningManager.db w0
  /\ FineTuningManager.no_training w.
Proof. intros Hidle Hreach. apply reachable_frame; assumption. Qed.

Lemma scheduler_never_writes_witness :
  FineTuningManager.db
    (FineTuningManager.restart
       (snd (FineTuningManager.cancel_job 1 40
               (snd (FineTuningManager.create_job "c" 1 1 None 30
                       (FineTuningManager.start Sample.busy))))))
  = Sample.busy.
Proof.
  exact (proj1 (scheduler_never_writes
                  (FineTuningManager.start Sample.busy) _
                  (start_no_training Sample.busy)
                  sample_trace_reachable)).
Defined.

(** X26. Every call of [create_job], [get_job] and [cancel_job] raises
    [TypeError] where it opens its session, whatever its arguments and the
    state, and leaves the state as it was; [create_job] does so before it
    looks for the base model or the user. *)
Theorem manager_calls_raise (w : FineTuningManager.World)
    (name : string) (base_model_id user_id job_id : Z)
    (output_model_name : option string) (now : Py.datetime) :
  FineTuningManager.create_job name base_model_id user_id output_model_name now w
  = (Py.raise Session.not_a_context_manager, w)
  /\ FineTuningManager.get_job job_id w
     = (Py.raise Session.not_a_context_manager, w)
  /\ FineTuningManager.cancel_job job_id now w
     = (Py.raise Session.not_a_context_manager, w).
Proof. repeat split. Qed.

(** ** The fine-tuning endpoints *)

(** X20. The cancel endpoint answers 403 to a caller without the
    fine-tuning permission; to every other caller it answers 500 with the
    text of the [TypeError] that [get_job] raises, whatever the job id and
    whether the job exists. It never changes the state. *)
Theorem cancel_endpoint_outcome (job_id : Z) (current_user : User.t)
    (now : Py.datetime) (w : FineTuningManager.World) :
  FineTuningApi.cancel_fine_tuning_job job_id current_user now w
  = (if PermissionManager.has_permission current_user
          PermissionManager.PERMISSION_FINE_TUNING
     then FineTuningApi.HTTPException 500
            "Error cancelling fine-tuning job: 'generator' object does not support the asynchronous context manager protocol"
     else FineTuningApi.HTTPException 403
            "You don't have permission to access fine-tuning features",
     w).
Proof.
  unfold FineTuningApi.cancel_fine_tuning_job.
  destruct (PermissionManager.has_permission current_user
              PermissionManager.PERMISSION_FINE_TUNING); reflexivity.
Qed.

(** X21. The endpoint that shows a job answers 403 to a caller without the
    fine-tuning permission; to every other caller it answers 500 with the
    text of the [TypeError] that [get_job] raises. It never changes the
    state. *)
Theorem view_endpoint_outcome (job_id : Z) (current_user : User.t)
    (w : FineTuningManager.World) :
  FineTuningApi.get_fine_tuning_job job_id current_user w
  = (if PermissionManager.has_permission current_user
          PermissionManager.PERMISSION_FINE_TUNING
     then FineTuningApi.HTTPException 500
            "Error getting fine-tuning job: 'generator' object does not support the asynchronous context manager protocol"
     else FineTuningApi.HTTPException 403
            "You don't have permission to access fine-tuning features",
     w).
Proof.
  unfold FineTuningApi.get_fine_tuning_job.
  destruct (PermissionManager.has_permission current_user
              PermissionManager.PERMISSION_FINE_TUNING); reflexivity.
Qed.

Example manager_gets_500 :
  fst (FineTuningApi.get_fine_tuning_job 1 Sample.alice
         (FineTuningManager.start Sample.busy))
  = FineTuningApi.HTTPException 500
      "Error getting fine-tuning job: 'generator' object does not support the asynchronous context manager protocol".
Proof. reflexivity. Qed.

(** ** The response cache *)

Section CacheFacts.

Import SemanticCache.

Context {libs : PyLibs}.

(** With the cache switched on, a look-up raises where it opens its first
    session: in the block under [if cache_key:] for a key that is not
    empty, before the similarity scan otherwise. *)
Lemma get_enabled (settings : Settings) (self : t)
    (now_key now_scan : Py.datetime) (prompt : string) (model_id : Z)
    (cache_key : option string) (rows : list SemanticCacheEntry.t) :
  ENABLE_SEMANTIC_CACHE settings = true ->
  get settings self now_key now_scan prompt model_id cache_key rows
  = Py.raise Session.not_a_context_manager.
Proof.
  intros Hon. unfold get. rewrite Hon.
  destruct cache_key as [[|c s]|]; reflexivity.
Qed.

Lemma get_disabled (settings : Settings) (self : t)
    (now_key now_scan : Py.datetime) (prompt : string) (model_id : Z)
    (cache_key : option string) (rows : list SemanticCacheEntry.t) :
  ENABLE_SEMANTIC_CACHE settings = false ->
  get settings self now_key now_scan prompt model_id cache_key rows
  = Py.ret (None, rows).
Proof. intros Hoff. unfold get. rewrite Hoff. reflexivity. Qed.

(** With the cache switched on, [add] raises where it builds the entry:
    [cache_key] is not an attribute of the mapped class. *)
Lemma add_enabled (settings : Settings) (self : t)
    (now_created now_expires : Py.datetime) (prompt response : string)
    (model_id : Z) (cache_key : option string)
    (rows : list SemanticCacheEntry.t) :
  ENABLE_SEMANTIC_CACHE settings = true ->
  add settings self now_created now_expires prompt response model_id cache_key rows
  = Py.raise (Py.Exn "TypeError"
      "'cache_key' is an invalid keyword argument for SemanticCacheEntry").
Proof. intros Hon. unfold add. rewrite Hon. reflexivity. Qed.

End CacheFacts.

(** C6. Whatever the table, the prompt, the model id, the cache key and
    the clock, a look-up returns no entry whose expiry is at or before the
    current time, for it returns no entry at all: with the cache switched
    off it answers [None], and with the cache switched on it raises
    [TypeError] where it opens its session; the table is left as it was.
    Both queries it would run, the one by key and the one of the
    similarity scan, select no entry whose expiry is at or before the
    clock reading of the query. *)
Theorem lookup_skips_expired {libs : PyLibs} (settings : Settings)
    (self : SemanticCache.t) (now_key now_scan : Py.datetime) (prompt : string)
    (model_id : Z) (cache_key : option string)
    (rows : list SemanticCacheEntry.t) :
  match SemanticCache.get settings self now_key now_scan prompt model_id
          cache_key rows with
  | inr (Some _, _) => False
  | inr (None, rows') => ENABLE_SEMANTIC_CACHE settings = false /\ rows' = rows
  | inl e =>
      ENABLE_SEMANTIC_CACHE settings = true
      /\ e = Session.not_a_context_manager
      /\ Py.class_of_exn e = "TypeError"%string
  end
  /\ (forall key entry,
         SemanticCache.key_filter key model_id now_key entry
         && (SemanticCacheEntry.expires_at entry <=? now_key) = false)
  /\ (forall entry,
         SemanticCache.model_filter model_id now_scan entry
         && (SemanticCacheEntry.expires_at entry <=? now_scan) = false).
Proof.
  split; [|split].
  - destruct (ENABLE_SEMANTIC_CACHE settings) eqn:Hon.
    + rewrite get_enabled by exact Hon. repeat split.
    + rewrite get_disabled by exact Hon. split; reflexivity.
  - intros key entry. unfold SemanticCache.key_filter, SemanticCache.unexpired.
    destruct (SemanticCacheEntry.expires_at entry <=? now_key) eqn:Hle;
      [|apply andb_false_r].
    apply Z.leb_le in Hle.
    assert ((now_key <? SemanticCacheEntry.expires_at entry) = false) as ->
      by (apply Z.ltb_ge; exact Hle).
    rewrite andb_false_r. reflexivity.
  - intros entry. unfold SemanticCache.model_filter, SemanticCache.unexpired.
    destruct (SemanticCacheEntry.expires_at entry <=? now_scan) eqn:Hle;
      [|apply andb_false_r].
    apply Z.leb_le in Hle.
    assert ((now_scan <? SemanticCacheEntry.expires_at entry) = false) as ->
      by (apply Z.ltb_ge; exact Hle).
    rewrite andb_false_r. reflexivity.
Qed.

(** A look-up at time 1000 over a table whose first entry expired at 500,
    without and with a cache key. *)
Example lookup_over_expired_entry :
  SemanticCache.get (libs := PlainLibs.libs) default_settings Sample.cache
    1000 1000 "abc" 1 None Sample.stale_rows
  = Py.raise Session.not_a_context_manager
  /\ SemanticCache.get (libs := PlainLibs.libs) default_settings Sample.cache
       1000 1000 "abc" 1 (Some (Utils.compute_cache_key "abc" "m1"))
       Sample.stale_rows
     = Py.raise Session.not_a_context_manager.
Proof. split; apply get_enabled; reflexivity. Qed.

(** The similarities of the two sample entries to the prompt ["abc"]: both
    reach the default threshold, and the second is the larger. *)
Example sample_similarities :
  match SemanticCacheEntry.query_embedding Sample.close_entry,
        SemanticCacheEntry.query_embedding Sample.closer_entry with
  | Some text1, Some text2 =>
      match PlainLibs.loads text1, PlainLibs.loads text2 with
      | Some v1, Some v2 =>
          match SemanticCache.cosine_similarity (libs := PlainLibs.libs)
                  (Embedding.compute_embedding "abc") v1,
                SemanticCache.cosine_similarity (libs := PlainLibs.libs)
                  (Embedding.compute_embedding "abc") v2 with
          | inr s1, inr s2 =>
              PrimFloat.leb (SemanticCache.similarity_threshold Sample.cache) s1
              && PrimFloat.ltb s1 s2
          | _, _ => false
          end
      | _, _ => false
      end
  | _, _ => false
  end = true.
Proof. vm_compute. reflexivity. Qed.

(** C7, on the table [Sample.similar_rows]: two unexpired entries of
    model 1 whose similarity to the prompt ["abc"] reaches the threshold.
    The look-up without an exact-key hit does not return the first of
    them: it raises [TypeError] where it opens the session of the
    similarity scan (without a cache key) or of the look-up by key (with
    one), and the hit counters stay as they were. *)
Theorem similar_entry_is_not_returned :
  SemanticCache.get (libs := PlainLibs.libs) default_settings Sample.cache
    1000 2000 "abc" 1 None Sample.similar_rows
  = Py.raise Session.not_a_context_manager
  /\ SemanticCache.get (libs := PlainLibs.libs) default_settings Sample.cache
       1000 2000 "abc" 1 (Some (Utils.compute_cache_key "abc" "m1"))
       Sample.similar_rows
     = Py.raise Session.not_a_context_manager
  /\ Py.class_of_exn Session.not_a_context_manager = "TypeError"%string
  /\ SemanticCache.model_filter 1 2000 Sample.close_entry = true
  /\ match SemanticCacheEntry.query_embedding Sample.close_entry with
     | Some text =>
         match PlainLibs.loads text with
         | Some v =>
             match SemanticCache.cosine_similarity (libs := PlainLibs.libs)
                     (Embedding.compute_embedding "abc") v with
             | inr s =>
                 PrimFloat.leb (SemanticCache.similarity_threshold Sample.cache) s
             | inl _ => false
             end
         | None => false
         end
     | None => false
     end = true.
Proof.
  split; [apply get_enabled; reflexivity|].
  split; [apply get_enabled; reflexivity|].
  repeat split; vm_compute; reflexivity.
Qed.

(** C8, on an empty table. [store] with a cache key raises [TypeError]
    where it builds the entry, for the mapped class has no [cache_key],
    and stores nothing; the look-up with the same key and model id that
    follows raises [TypeError] where it opens its session and returns no
    response. *)
Theorem store_then_lookup_raises :
  SemanticCache.add (libs := PlainLibs.libs) default_settings Sample.cache
    1000 1000 "abc" "an answer" 1 (Some (Utils.compute_cache_key "abc" "m1")) []
  = Py.raise (Py.Exn "TypeError"
      "'cache_key' is an invalid keyword argument for SemanticCacheEntry")
  /\ SemanticCache.get (libs := PlainLibs.libs) default_settings Sample.cache
       1000 1000 "abc" 1 (Some (Utils.compute_cache_key "abc" "m1")) []
     = Py.raise Session.not_a_context_manager
  /\ Py.class_of_exn Session.not_a_context_manager = "TypeError"%string
  /\ existsb (String.eqb "cache_key") SemanticCacheEntry.columns = false.
Proof.
  split; [apply add_enabled; reflexivity|].
  split; [apply get_enabled; reflexivity|].
  split; reflexivity.
Qed.

(** X24. With the cache switched on, every call of the cache raises
    [TypeError] and neither returns nor stores anything: the look-up, the
    eviction of expired entries and the statistics where they open their
    session, and [add] where it builds the entry. With the cache switched
    off the look-up answers [None] and [add] stores nothing. *)
Theorem cache_calls_raise {libs : PyLibs} (settings : Settings)
    (self : SemanticCache.t) (t1 t2 : Py.datetime) (prompt response : string)
    (model_id : Z) (cache_key : option string)
    (rows : list SemanticCacheEntry.t) :
  SemanticCache.get settings self t1 t2 prompt model_id cache_key rows
  = (if ENABLE_SEMANTIC_CACHE settings
     then Py.raise Session.not_a_context_manager
     else Py.ret (None, rows))
  /\ SemanticCache.add settings self t1 t2 prompt response model_id cache_key rows
     = (if ENABLE_SEMANTIC_CACHE settings
        then Py.raise (Py.Exn "TypeError"
               "'cache_key' is an invalid keyword argument for SemanticCacheEntry")
        else Py.ret rows)
  /\ SemanticCache._clean_expired_entries t1 rows
     = Py.raise Session.not_a_context_manager
  /\ CacheStats.get_stats self t1 rows = Py.raise Session.not_a_context_manager.
Proof.
  destruct (ENABLE_SEMANTIC_CACHE settings) eqn:Hon.
  - rewrite get_enabled, add_enabled by exact Hon. repeat split.
  - rewrite get_disabled by exact Hon. unfold SemanticCache.add. rewrite Hon.
    repeat split.
Qed.

Section Generate.

Context {libs : PyLibs}.

(** X25. With the cache switched on, a call of [generate] on the manager
    the application builds, for a request that resolves to a model, raises
    the [TypeError] of the cache look-up: the request is logged and stays
    as [log_query] entered it, no server is selected and no backend is
    called. *)
Theorem generate_raises_with_cache (settings : Settings)
    (env : LLMInferenceManager.Env) (req : LLMInferenceManager.Request)
    (clock : LLMInferenceManager.CacheClock) (db : Database.t)
    (model : LLMModel.t) :
  ENABLE_SEMANTIC_CACHE settings = true ->
  LLMInferenceManager.resolve_model settings req db = Some model ->
  LLMInferenceManager.generate settings env req
    (LLMInferenceManager.__init__ settings clock) db
  = (Py.raise Session.not_a_context_manager,
     (LLMInferenceManager.__init__ settings clock,
      snd (Utils.log_query db (LLMInferenceManager.user_id req)
             (LLMModel.id model) (LLMInferenceManager.prompt req)))).
Proof.
  intros Hon Hmodel.
  unfold LLMInferenceManager.generate, LLMInferenceManager._generate_with_db.
  rewrite Hmodel.
  destruct (Utils.log_query db (LLMInferenceManager.user_id req)
              (LLMModel.id model) (LLMInferenceManager.prompt req))
    as [query_id db1] eqn:Hlog.
  unfold LLMInferenceManager.cache_in_use, LLMInferenceManager.__init__.
  rewrite Hon. cbn [LLMInferenceManager.semantic_cache].
  unfold LLMInferenceManager.semantic_cache_object.
  cbn [LLMInferenceManager.cache_get].
  rewrite get_enabled by exact Hon. reflexivity.
Qed.

End Generate.

Lemma generate_raises_with_cache_witness :
  LLMInferenceManager.generate default_settings Sample.env Sample.request
    Sample.manager Sample.serving_store
  = (Py.raise Session.not_a_context_manager,
     (Sample.manager,
      snd (Utils.log_query Sample.serving_store None 1 "Explain X"))).
Proof.
  exact (generate_raises_with_cache (libs := PlainLibs.libs) default_settings
           Sample.env Sample.request Sample.cache_clock Sample.serving_store
           Sample.m1 eq_refl eq_refl).
Defined.

(** With [ENABLE_SEMANTIC_CACHE=false] in the environment the same call
    reaches the backend and returns its answer. *)
Example generate_without_cache_succeeds :
  fst (LLMInferenceManager.generate Sample.settings_without_cache Sample.env
         Sample.request Sample.manager_without_cache Sample.serving_store)
  = Py.ret (LLMInferenceManager.Success "X is a letter" "m1" 3 5 8 12%float 1 false).
Proof. vm_compute. reflexivity. Qed.

(** ** Server selection *)

Section Figures.

(** What the operators on figures raise. *)
Lemma float_of_int_raises (z : Z) (e : Py.exn) :
  Num.float_of_int z = inl e -> Py.class_of_exn e = "OverflowError"%string.
Proof.
  unfold Num.float_of_int.
  destruct (binary_normalize prec emax z 0 false); intros [= <-]; reflexivity.
Qed.

Lemma to_float_raises (n : Z + float) (e : Py.exn) :
  Num.to_float n = inl e -> Py.class_of_exn e = "OverflowError"%string.
Proof.
  destruct n as [z|f]; simpl; [apply float_of_int_raises | discriminate].
Qed.

Lemma add_raises (a b : Num.num) (e : Py.exn) :
  Num.add a b = inl e ->
  Py.class_of_exn e = "TypeError"%string \/ Py.class_of_exn e = "OverflowError"%string.
Proof.
  unfold Num.add.
  destruct (Num.as_number a) as [[x|f]|] eqn:Ha, (Num.as_number b) as [[y|g]|] eqn:Hb;
    try discriminate;
    try (unfold Py.bind;
         repeat match goal with
                | |- context [Num.to_float ?n] =>
                    let H := fresh in
                    destruct (Num.to_float n) eqn:H;
                    [apply to_float_raises in H|]
                end;
         intros [= <-]; auto; fail).
  all: destruct a, b; try discriminate; intros [= <-]; left; reflexivity.
Qed.

Lemma sub_raises (a b : Num.num) (e : Py.exn) :
  Num.sub a b = inl e ->
  Py.class_of_exn e = "TypeError"%string \/ Py.class_of_exn e = "OverflowError"%string.
Proof.
  unfold Num.sub.
  destruct (Num.as_number a) as [[x|f]|] eqn:Ha, (Num.as_number b) as [[y|g]|] eqn:Hb;
    try discriminate;
    try (unfold Py.bind;
         repeat match goal with
                | |- context [Num.to_float ?n] =>
                    let H := fresh in
                    destruct (Num.to_float n) eqn:H;
                    [apply to_float_raises in H|]
                end;
         intros [= <-]; auto; fail).
  all: intros [= <-]; left; reflexivity.
Qed.

Lemma compare_with_raises (gt : bool) :
  forall (a b : Num.num) (e : Py.exn),
    Num.compare_with gt a b = inl e -> Py.class_of_exn e = "TypeError"%string.
Proof.
  fix IH 1. intros a b e.
  destruct a as [z|f|c| |s|items|members]; destruct b as [z'|f'|c'| |s'|items'|members'];
    simpl; try (clear IH; discriminate);
    try (clear IH; intros H; injection H as <-; destruct gt; reflexivity).
  revert items items'. fix IHl 1. intros [|x xs] [|y ys]; try discriminate.
  destruct (Num.eqb x y); [apply IHl | apply IH].
Qed.

End Figures.

Section ServerSelection.

Import LLMLoadBalancer.

(** A loop that keeps the selection or replaces it by the server at hand,
    and raises nothing but figure errors, ends with a figure error or with
    a selection that it started from or that is one of the servers it ran
    over. *)
Lemma fold_selects {A}
    (body : Py.Exc (A * option ServerNode.t) -> ServerNode.t
            -> Py.Exc (A * option ServerNode.t))
    (all servers : list ServerNode.t) (state : Py.Exc (A * option ServerNode.t)) :
  (forall s, In s servers -> In s all) ->
  (forall e s, body (inl e) s = inl e) ->
  (forall st s,
      match body (inr st) s with
      | inr st' => snd st' = snd st \/ snd st' = Some s
      | inl e => Num.figure_error e
      end) ->
  match state with
  | inr st => forall x, snd st = Some x -> In x all
  | inl e => Num.figure_error e
  end ->
  match fold_left body servers state with
  | inr st => forall x, snd st = Some x -> In x all
  | inl e => Num.figure_error e
  end.
Proof.
  intros Hsub Hraise Hbody. revert state.
  induction servers as [|s servers IH]; intros state Hstate; simpl; [exact Hstate|].
  apply IH; [intros x Hx; apply Hsub; right; exact Hx|].
  destruct state as [e|st].
  - rewrite Hraise. exact Hstate.
  - specialize (Hbody st s). destruct (body (inr st) s) as [e|st']; [exact Hbody|].
    intros x Hx. destruct Hbody as [Hkeep|Hnew].
    + apply Hstate. rewrite <- Hkeep. exact Hx.
    + rewrite Hnew in Hx. injection Hx as <-. apply Hsub. left. reflexivity.
Qed.

Lemma least_load_cases (servers : list ServerNode.t) (self : t) :
  servers <> [] ->
  match _least_load_strategy servers self with
  | inr server => In server servers
  | inl e => Num.figure_error e
  end.
Proof.
  intros Hne. unfold _least_load_strategy.
  match goal with
  | |- context [fold_left ?body servers ?state] =>
      pose proof (fold_selects body servers servers state (fun s H => H)) as Hfold;
      destruct (fold_left body servers state) as [e|[best selected]]
  end.
  - apply Hfold; [reflexivity| |discriminate].
    intros [min_load sel] s. cbn [Py.bind Py.ret].
    destruct (Num.add _ _) as [e1|load] eqn:Hadd;
      [cbn; exact (add_raises _ _ _ Hadd)|].
    cbn [Py.bind].
    destruct (Num.lt load min_load) as [e2|[|]] eqn:Hlt; cbn; auto.
    left. exact (compare_with_raises _ _ _ _ Hlt).
  - cbn [Py.bind]. destruct selected as [server|].
    + apply Hfold; [reflexivity| |discriminate|reflexivity].
      intros [min_load sel] s. cbn [Py.bind Py.ret].
      destruct (Num.add _ _) as [e1|load] eqn:Hadd;
        [cbn; exact (add_raises _ _ _ Hadd)|].
      cbn [Py.bind].
      destruct (Num.lt load min_load) as [e2|[|]] eqn:Hlt; cbn; auto.
      left. exact (compare_with_raises _ _ _ _ Hlt).
    + destruct servers as [|first rest]; [congruence | left; reflexivity].
Qed.

Lemma gpu_memory_cases (servers : list ServerNode.t) (self : t) :
  servers <> [] ->
  match _gpu_memory_strategy servers self with
  | inr server => In server servers
  | inl e => Num.figure_error e
  end.
Proof.
  intros Hne. unfold _gpu_memory_strategy.
  match goal with
  | |- context [fold_left ?body servers ?state] =>
      pose proof (fold_selects body servers servers state (fun s H => H)) as Hfold;
      destruct (fold_left body servers state) as [e|[best selected]]
  end.
  - apply Hfold; [reflexivity| |discriminate].
    intros [max_available sel] s. cbn [Py.bind Py.ret].
    destruct (Num.sub _ _) as [e1|available] eqn:Hsub;
      [cbn; exact (sub_raises _ _ _ Hsub)|].
    cbn [Py.bind].
    destruct (Num.gt available max_available) as [e2|[|]] eqn:Hgt; cbn; auto.
    left. exact (compare_with_raises _ _ _ _ Hgt).
  - cbn [Py.bind]. destruct selected as [server|].
    + apply Hfold; [reflexivity| |discriminate|reflexivity].
      intros [max_available sel] s. cbn [Py.bind Py.ret].
      destruct (Num.sub _ _) as [e1|available] eqn:Hsub;
        [cbn; exact (sub_raises _ _ _ Hsub)|].
      cbn [Py.bind].
      destruct (Num.gt available max_available) as [e2|[|]] eqn:Hgt; cbn; auto.
      left. exact (compare_with_raises _ _ _ _ Hgt).
    + destruct servers as [|first rest]; [congruence | left; reflexivity].
Qed.

Lemma round_robin_member (servers : list ServerNode.t) (self : t) :
  servers <> [] ->
  exists server,
    _round_robin_strategy servers self
    = Py.ret (server,
              set_last_server_index
                ((last_server_index self + 1) mod Z.of_nat (length servers)) self)
    /\ In server servers.
Proof.
  intros Hne. destruct (round_robin_step servers self Hne) as (server & Hat & Hcall).
  exists server. split; [exact Hcall|].
  apply list_elem_of_In. eapply list_elem_of_lookup_2. exact Hat.
Qed.

(** The outcomes of [get_server]. *)
Lemma get_server_cases (time_time : Z -> float) (db : Database.t)
    (model_name : string) (self : t) :
  let known :=
    match servers self with
    | [] => List.filter ServerNode.is_active (Database.server_nodes db)
    | _ => servers self
    end in
  match get_server time_time db model_name self with
  | inr (choice, self') =>
      servers self' = known
      /\ load_balancing_strategy self' = load_balancing_strategy self
      /\ match choice with
         | Some server => In server known /\ healthy server = true
         | None => Forall (fun server => healthy server = false) known
         end
  | inl e =>
      (load_balancing_strategy self = "least_load"%string
       \/ load_balancing_strategy self = "gpu_memory"%string)
      /\ (Py.class_of_exn e = "TypeError"%string
          \/ Py.class_of_exn e = "OverflowError"%string)
  end.
Proof.
  intros known. unfold get_server.
  set (self1 := match servers self with
                | [] => refresh_servers time_time db self
                | _ => self
                end).
  assert (Hknown : servers self1 = known).
  { unfold self1, known. destruct (servers self) eqn:Hs; [reflexivity | exact Hs]. }
  assert (Hpolicy : load_balancing_strategy self1 = load_balancing_strategy self).
  { unfold self1. destruct (servers self); reflexivity. }
  rewrite Hknown.
  destruct (List.filter healthy known) as [|h0 hs] eqn:Hhealthy.
  - repeat split; auto.
    apply Forall_forall. intros s Hin. apply list_elem_of_In in Hin.
    destruct (healthy s) eqn:Hh; [|reflexivity].
    assert (Hmem : In s (List.filter healthy known)) by (apply filter_In; auto).
    rewrite Hhealthy in Hmem. destruct Hmem.
  - assert (Hne : h0 :: hs <> []) by discriminate.
    assert (Hsub : forall s, In s (h0 :: hs) -> In s known /\ healthy s = true).
    { intros s Hin. rewrite <- Hhealthy in Hin. apply filter_In in Hin. exact Hin. }
    destruct (round_robin_member (h0 :: hs) self1 Hne) as (s1 & Hrr & Hin1).
    pose proof (least_load_cases (h0 :: hs) self1 Hne) as Hll.
    pose proof (gpu_memory_cases (h0 :: hs) self1 Hne) as Hgm.
    rewrite Hpolicy.
    destruct (String.eqb (load_balancing_strategy self) "round_robin") eqn:P1;
      [|destruct (String.eqb (load_balancing_strategy self) "least_load") eqn:P2;
        [|destruct (String.eqb (load_balancing_strategy self) "gpu_memory") eqn:P3]].
    + rewrite Hrr. cbn [Py.bind Py.ret].
      repeat split; auto; apply Hsub; exact Hin1.
    + apply String.eqb_eq in P2.
      destruct (_least_load_strategy (h0 :: hs) self1) as [e|s2]; cbn [Py.bind Py.ret].
      * split; [left; exact P2 | exact Hll].
      * repeat split; auto; apply Hsub; exact Hll.
    + apply String.eqb_eq in P3.
      destruct (_gpu_memory_strategy (h0 :: hs) self1) as [e|s3]; cbn [Py.bind Py.ret].
      * split; [right; exact P3 | exact Hgm].
      * repeat split; auto; apply Hsub; exact Hgm.
    + rewrite Hrr. cbn [Py.bind Py.ret].
      repeat split; auto; apply Hsub; exact Hin1.
Qed.

End ServerSelection.

(** X14. [get_server] chooses among the servers it knows (the active ones
    of the table when it knew none): when it returns a server, that server
    is one of them and is marked healthy, and it returns [None] only when
    none of them is. It raises only under the policies [least_load] and
    [gpu_memory], which add, subtract and compare the cached figures as
    the servers reported them, and then a [TypeError] (a figure that is
    not a number) or an [OverflowError] (an integer figure beyond the
    range of floats); under [round_robin] and under an unknown policy it
    raises nothing. *)
Theorem get_server_returns_healthy (time_time : Z -> float) (db : Database.t)
    (model_name : string) (self : LLMLoadBalancer.t) :
  let known :=
    match LLMLoadBalancer.servers self with
    | [] => List.filter ServerNode.is_active (Database.server_nodes db)
    | _ => LLMLoadBalancer.servers self
    end in
  match LLMLoadBalancer.get_server time_time db model_name self with
  | inr (choice, self') =>
      LLMLoadBalancer.servers self' = known
      /\ LLMLoadBalancer.load_balancing_strategy self'
         = LLMLoadBalancer.load_balancing_strategy self
      /\ match choice with
         | Some server => In server known /\ LLMLoadBalancer.healthy server = true
         | None =>
             Forall (fun server => LLMLoadBalancer.healthy server = false) known
         end
  | inl e =>
      (LLMLoadBalancer.load_balancing_strategy self = "least_load"%string
       \/ LLMLoadBalancer.load_balancing_strategy self = "gpu_memory"%string)
      /\ (Py.class_of_exn e = "TypeError"%string
          \/ Py.class_of_exn e = "OverflowError"%string)
  end.
Proof. exact (get_server_cases time_time db model_name self). Qed.

(** Under the policy [least_load]: numeric figures select the server, a
    queue depth that is a string or null raises [TypeError], and an integer
    beyond the range of floats added to a float raises [OverflowError]. *)
Example least_load_on_reported_figures :
  LLMLoadBalancer.get_server Sample.clock0 Sample.monitored_store "m"
    Sample.monitored
  = Py.ret (Some (Sample.node 1 "a" "healthy"), Sample.monitored)
  /\ LLMLoadBalancer.get_server Sample.clock0 Sample.monitored_store "m"
       (Sample.with_queue_depth (Num.Str "2"))
     = Py.raise (Py.Exn "TypeError"
         "unsupported operand type(s) for +: 'int' and 'str'")
  /\ LLMLoadBalancer.get_server Sample.clock0 Sample.monitored_store "m"
       (Sample.with_queue_depth Num.Null)
     = Py.raise (Py.Exn "TypeError"
         "unsupported operand type(s) for +: 'int' and 'NoneType'")
  /\ LLMLoadBalancer.get_server Sample.clock0 Sample.monitored_store "m"
       (Sample.with_figures (Num.Str "5") (Num.Str "2"))
     = Py.raise (Py.Exn "TypeError"
         "'<' not supported between instances of 'str' and 'float'")
  /\ LLMLoadBalancer.get_server Sample.clock0 Sample.monitored_store "m"
       (Sample.with_figures (Num.Float 0x1p-1%float) (Num.Int (2 ^ 1024)))
     = Py.raise (Py.Exn "OverflowError" "int too large to convert to float").
Proof. repeat split; vm_compute; reflexivity. Qed.

(** Numbers are compared by value: an integer beyond 2^63 is above every
    smaller float, and 2^53 + 1 is above the float 2^53 it rounds to. *)
Example figures_are_compared_by_value :
  Num.lt (Num.Float 0x1p+63%float) (Num.Int (2 ^ 63 + 1)) = Py.ret true
  /\ Num.lt (Num.Int (2 ^ 63 + 1)) (Num.Float 0x1p+63%float) = Py.ret false
  /\ Num.gt (Num.Int (2 ^ 53 + 1)) (Num.Float 0x1p+53%float) = Py.ret true
  /\ Num.float_of_int (2 ^ 53 + 1) = Py.ret 0x1p+53%float
  /\ Num.float_of_int (2 ^ 53 + 3) = Py.ret 0x1.0000000000002p+53%float
  /\ Num.add (Num.Bool true) (Num.Int 2) = Py.ret (Num.Int 3).
Proof. repeat split; vm_compute; reflexivity. Qed.

(** A new primary key is above every key in use. *)
Lemma next_id_fresh (ids : list Z) (x : Z) : In x ids -> x < Database.next_id ids.
Proof.
  unfold Database.next_id. induction ids as [|y ids IH]; simpl; [intros []|].
  intros [->|Hin]; [lia | specialize (IH Hin); lia].
Qed.

Section Refresh.

Import LLMLoadBalancer.

Variable time_time : Z -> float.

Lemma refresh_fold_lookup (l : list ServerNode.t)
    (m : gmap Z (gmap string Num.num)) (id : Z) :
  fold_left
    (fun (m : gmap Z (gmap string Num.num)) server =>
       match m !! ServerNode.id server with
       | Some _ => m
       | None => <[ServerNode.id server :=
                     initial_metrics server (time_time (ServerNode.id server))]> m
       end)
    l m !! id
  = match m !! id with
    | Some known => Some known
    | None =>
        match List.find (fun server => ServerNode.id server =? id) l with
        | Some server => Some (initial_metrics server (time_time id))
        | None => None
        end
    end.
Proof.
  revert m. induction l as [|x l IH]; intros m; simpl.
  - destruct (m !! id); reflexivity.
  - rewrite IH. destruct (Z.eqb_spec (ServerNode.id x) id) as [Heq|Hne].
    + rewrite Heq. destruct (m !! id) as [known|] eqn:Hm.
      * rewrite Hm. reflexivity.
      * rewrite lookup_insert_eq. reflexivity.
    + destruct (m !! ServerNode.id x); [reflexivity|].
      rewrite lookup_insert_ne by exact Hne. reflexivity.
Qed.

End Refresh.

(** X15. [refresh_servers] reloads the server list as the active rows of
    the table, in table order, and never resets a snapshot: for every id
    the figures already cached stay as they are, an id without figures
    gets the initial ones of the first active server with that id, and an
    id that is neither cached nor active gets none. *)
Theorem refresh_keeps_snapshots (time_time : Z -> float) (db : Database.t)
    (self : LLMLoadBalancer.t) (id : Z) :
  LLMLoadBalancer.servers (LLMLoadBalancer.refresh_servers time_time db self)
  = List.filter ServerNode.is_active (Database.server_nodes db)
  /\ LLMLoadBalancer.server_metrics
       (LLMLoadBalancer.refresh_servers time_time db self) !! id
     = match LLMLoadBalancer.server_metrics self !! id with
       | Some known => Some known
       | None =>
           match List.find (fun server => ServerNode.id server =? id)
                   (List.filter ServerNode.is_active (Database.server_nodes db))
           with
           | Some server =>
               Some (LLMLoadBalancer.initial_metrics server (time_time id))
           | None => None
           end
       end.
Proof.
  split; [reflexivity|].
  unfold LLMLoadBalancer.refresh_servers. cbn.
  apply refresh_fold_lookup.
Qed.

(** X16. One run of [_collect_all_server_metrics] appends to the stored
    load rows one row per healthy server, in the order of the server list
    and built from what the fetch gave for that server; the rows stored
    before and every other table are left as they were, and so are the
    server list, the round-robin index and the policy. *)
Theorem collection_appends_rows
    (http_get : ServerNode.t -> Http.reply (gmap string Num.num))
    (time_time : Z -> float) (db : Database.t) (self : LLMLoadBalancer.t) :
  let result :=
    LLMLoadBalancer._collect_all_server_metrics http_get time_time db self in
  snd result
  = Database.set_server_load_metrics
      (Database.server_load_metrics db
       ++ map (fun server =>
                 LLMLoadBalancer.load_row server
                   (Utils.get_server_load_metrics server (http_get server)))
              (List.filter LLMLoadBalancer.healthy (LLMLoadBalancer.servers self)))
      db
  /\ LLMLoadBalancer.servers (fst result) = LLMLoadBalancer.servers self
  /\ LLMLoadBalancer.last_server_index (fst result)
     = LLMLoadBalancer.last_server_index self
  /\ LLMLoadBalancer.load_balancing_strategy (fst result)
     = LLMLoadBalancer.load_balancing_strategy self.
Proof.
  cbn zeta. unfold LLMLoadBalancer._collect_all_server_metrics.
  pose proof (collect_rows http_get time_time (LLMLoadBalancer.servers self)
                (LLMLoadBalancer.server_metrics self)
                (Database.server_load_metrics db)) as Hrows.
  destruct (fold_left (LLMLoadBalancer.collect_one http_get time_time)
              (LLMLoadBalancer.servers self)
              (LLMLoadBalancer.server_metrics self, Database.server_load_metrics db))
    as [metrics rows].
  simpl in Hrows. subst rows. repeat split.
Qed.

Section RequestRecords.

Import LLMInferenceManager.

Variables (settings : Settings) (env : Env) (req : Request) (model : LLMModel.t).
Variables (earlier : list Query.t) (query_id : Z).

Hypothesis fresh : Forall (fun row => (Query.id row =? query_id) = false) earlier.

Lemma update_first_last {A} (p : A -> bool) (f : A -> A) (rows : list A) (x : A) :
  Forall (fun y => p y = false) rows -> p x = true ->
  Utils.update_first p f (rows ++ [x]) = rows ++ [f x].
Proof.
  intros Hrows Hx. induction Hrows as [|y rows Hy Hrows IH]; simpl.
  - rewrite Hx. reflexivity.
  - rewrite Hy, IH. reflexivity.
Qed.

Lemma update_last (db : Database.t) (record : Query.t) (response_text : string)
    (token_count_prompt token_count_response : Z) (processing_time_ms : float)
    (status : string) (cached : bool) (cache_key error_message : option string)
    (now : Py.datetime) :
  Database.queries db = earlier ++ [record] ->
  Query.id record = query_id ->
  Database.queries
    (Utils.update_query_response db query_id response_text token_count_prompt
       token_count_response processing_time_ms status cached cache_key
       error_message now)
  = earlier
    ++ [Query.mk (Query.id record) (Query.user_id record) (Query.model_id record)
          (Query.query_text record) (Some response_text)
          (Utils.query_status status) token_count_prompt token_count_response
          processing_time_ms (Some now) cached
          (if Py.truthy cache_key then cache_key else Query.cache_key record)
          (if Py.truthy error_message then error_message
           else Query.error_message record)].
Proof.
  intros Hrows Hid. unfold Utils.update_query_response. cbv zeta.
  destruct db. cbn [Database.queries Database.set_queries] in Hrows |- *.
  rewrite Hrows.
  rewrite update_first_last;
    [reflexivity | exact fresh | apply Z.eqb_eq; exact Hid].
Qed.

Lemma set_status_last (db : Database.t) (record : Query.t) (s : QueryStatus.t) :
  Database.queries db = earlier ++ [record] ->
  Query.id record = query_id ->
  Database.queries (Utils.set_query_status db query_id s)
  = earlier
    ++ [Query.mk (Query.id record) (Query.user_id record) (Query.model_id record)
          (Query.query_text record) (Query.response_text record) s
          (Query.token_count_prompt record) (Query.token_count_response record)
          (Query.processing_time_ms record) (Query.completed_at record)
          (Query.cached record) (Query.cache_key record)
          (Query.error_message record)].
Proof.
  intros Hrows Hid. unfold Utils.set_query_status. cbv zeta.
  destruct db. cbn [Database.queries Database.set_queries] in Hrows |- *.
  rewrite Hrows, map_app. cbn [map].
  apply Z.eqb_eq in Hid. rewrite Hid.
  rewrite (map_ext_in _ (fun query => query) earlier), map_id; [reflexivity|].
  intros row Hin. pose proof fresh as Hall.
  rewrite Forall_forall in Hall. apply list_elem_of_In in Hin.
  rewrite (Hall row Hin). reflexivity.
Qed.

(** Marking the request failed. *)
Lemma mark_failed_logs (site : site) (ms : float) (message : string)
    (db : Database.t) (record : Query.t) :
  Database.queries db = earlier ++ [record] ->
  RequestLog.entered req model query_id record ->
  Py.truthy (Some message) = true ->
  exists record',
    Database.queries (mark_failed env site query_id ms message db)
    = earlier ++ [record']
    /\ RequestLog.entered req model query_id record'
    /\ RequestLog.agrees (Error message) record'.
Proof.
  intros Hrows (Hid & Huser & Hmodel & Htext) Hmessage.
  eexists. split; [|split].
  - unfold mark_failed. apply update_last; [exact Hrows | exact Hid].
  - repeat split; assumption.
  - cbn [RequestLog.agrees Query.status Query.response_text Query.error_message
         Query.cached].
    rewrite Hmessage. repeat split; reflexivity.
Qed.

Lemma dispatch_logs (self : t) (server : ServerNode.t)
    (cache_key : option string) (db : Database.t) (record : Query.t) :
  (forall cache, cache_in_use settings self = Some cache ->
                 RequestLog.keeps_requests cache) ->
  Database.queries db = earlier ++ [record] ->
  RequestLog.entered req model query_id record ->
  Query.error_message record = None ->
  exists record',
    Database.queries
      (snd (dispatch settings env self req model server query_id cache_key db))
    = earlier ++ [record']
    /\ RequestLog.entered req model query_id record'
    /\ RequestLog.agrees
         (fst (dispatch settings env self req model server query_id cache_key db))
         record'.
Proof.
  intros Hcache Hrows Hentered Hnone. unfold dispatch.
  destruct (post env server (payload_of req model)) as [e|status_code text json].
  { cbv beta iota zeta. cbn [fst snd]. apply (mark_failed_logs _ _ _ _ record); auto. }
  destruct (status_code =? 200); cbn [negb].
  2:{ cbv beta iota zeta. cbn [fst snd]. apply (mark_failed_logs _ _ _ _ record); auto. }
  destruct json as [e|result].
  { cbv beta iota zeta. cbn [fst snd]. apply (mark_failed_logs _ _ _ _ record); auto. }
  destruct (r_error result) as [message|] eqn:Herror.
  { cbv beta iota zeta. cbn [fst snd]. apply (mark_failed_logs _ _ _ _ record); auto. }
  pose proof Hentered as (Hid & Huser & Hmodel & Htext).
  pose proof (update_last db record (default "" (r_response result))
                (default 0 (r_prompt_tokens result))
                (default 0 (r_completion_tokens result))
                (elapsed_ms env AtSuccess) "completed" false cache_key None
                (utcnow env AtSuccess) Hrows Hid) as Hdone.
  fold (mark_completed env query_id result cache_key db) in Hdone.
  cbn [Py.truthy] in Hdone. rewrite Hnone in Hdone.
  set (db1 := mark_completed env query_id result cache_key db) in *.
  destruct (cache_in_use settings self) as [cache|] eqn:Hin.
  - destruct (Hcache cache eq_refl) as [_ Hadd].
    specialize (Hadd (prompt req) (default "" (r_response result))
                  (LLMModel.id model) (default 0 (r_prompt_tokens result))
                  (default 0 (r_completion_tokens result)) cache_key db1).
    destruct (cache_add cache _ _ _ _ _ _ db1) as [[e|[]] db2];
      cbn [snd] in Hadd; rewrite Hdone in Hadd.
    + cbv beta iota zeta. cbn [fst snd]. eapply mark_failed_logs; [exact Hadd| |reflexivity].
      repeat split; assumption.
    + eexists. split; [exact Hadd|]. split; [repeat split; assumption|].
      cbn. repeat split; auto.
  - eexists. split; [exact Hdone|]. split; [repeat split; assumption|].
    cbn. repeat split; auto.
Qed.

End RequestRecords.

Section Logged.

Import LLMInferenceManager.

Lemma queries_fresh (rows : list Query.t) :
  Forall (fun row => (Query.id row =? Database.next_id (map Query.id rows)) = false)
         rows.
Proof.
  apply Forall_forall. intros row Hin. apply Z.eqb_neq.
  apply list_elem_of_In in Hin.
  pose proof (next_id_fresh (map Query.id rows) (Query.id row)
                (in_map Query.id rows row Hin)).
  lia.
Qed.

(** X17. The request log says what the caller was told. When the model
    resolves and the cache leaves the table of requests alone, every call
    of [generate] that returns adds exactly one record, under a new id and
    after the records already there, which it leaves unchanged; a success
    result finds that record completed with the returned text, token counts
    and cached flag, an error result finds it failed with the returned
    message. *)
Theorem returned_result_is_logged (settings : Settings) (env : Env) (req : Request) (self self' : t)
    (db db' : Database.t) (model : LLMModel.t) (r : GenerationResult) :
  resolve_model settings req db = Some model ->
  (forall cache, cache_in_use settings self = Some cache ->
                 RequestLog.keeps_requests cache) ->
  generate settings env req self db = (Py.ret r, (self', db')) ->
  exists record,
    Database.queries db' = Database.queries db ++ [record]
    /\ RequestLog.entered req model
         (Database.next_id (map Query.id (Database.queries db))) record
    /\ RequestLog.agrees r record.
Proof.
  intros Hmodel Hcache. unfold generate, _generate_with_db. rewrite Hmodel.
  unfold Utils.log_query.
  set (query_id := Database.next_id (map Query.id (Database.queries db))).
  set (record := Query.mk query_id (user_id req) (LLMModel.id model) (prompt req)
                   None QueryStatus.PENDING 0 0 0%float None false None None).
  set (db1 := Database.set_queries (Database.queries db ++ [record]) db).
  assert (Hrows1 : Database.queries db1 = Database.queries db ++ [record])
    by (destruct db; reflexivity).
  assert (Hentered : RequestLog.entered req model query_id record)
    by (repeat split).
  pose proof (queries_fresh (Database.queries db)) as Hfresh.
  fold query_id in Hfresh.
  assert (Hsame : cache_in_use settings (mk (load_balancer self) (semantic_cache self))
                  = cache_in_use settings self) by reflexivity.
  set (cache_key := match cache_in_use settings self with
                    | Some _ => Some (Utils.compute_cache_key (prompt req)
                                        (LLMModel.name model))
                    | None => None
                    end).
  assert (Hlookup :
            exists found db2,
              match cache_in_use settings self with
              | Some cache =>
                  cache_get cache (prompt req) (LLMModel.id model) cache_key db1
              | None => (Py.ret None, db1)
              end = (found, db2)
              /\ Database.queries db2 = Database.queries db ++ [record]).
  { destruct (cache_in_use settings self) as [cache|] eqn:Hin.
    - destruct (Hcache cache eq_refl) as [Hget _].
      specialize (Hget (prompt req) (LLMModel.id model) cache_key db1).
      destruct (cache_get cache _ _ _ db1) as [found db2].
      exists found, db2. split; [reflexivity|]. cbn [snd] in Hget.
      rewrite Hget. exact Hrows1.
    - exists (Py.ret None), db1. split; [reflexivity | exact Hrows1]. }
  destruct Hlookup as (found & db2 & -> & Hrows2).
  destruct found as [e|[hit|]]; [discriminate| |].
  - intros [= <- <- <-]. eexists. split; [|split].
    + apply (update_last (Database.queries db) query_id Hfresh);
        [exact Hrows2 | reflexivity].
    + repeat split.
    + cbn. repeat split.
  - destruct (LLMLoadBalancer.get_server (time_time env) db2 (LLMModel.name model)
                (load_balancer self)) as [e|[[server|] lb]]; [discriminate| |].
    + pose proof (set_status_last (Database.queries db) query_id Hfresh db2 record
                    QueryStatus.PROCESSING Hrows2 eq_refl) as Hrows3.
      destruct (dispatch_logs settings env req model (Database.queries db) query_id
                  Hfresh (mk lb (semantic_cache self)) server cache_key
                  (Utils.set_query_status db2 query_id QueryStatus.PROCESSING) _
                  Hcache Hrows3)
        as (record' & Hfinal & Hentered' & Hagrees); [repeat split | reflexivity |].
      destruct (dispatch settings env (mk lb (semantic_cache self)) req model server
                  query_id cache_key
                  (Utils.set_query_status db2 query_id QueryStatus.PROCESSING))
        as [r0 db3].
      intros [= <- <- <-]. exists record'. auto.
    + intros [= <- <- <-].
      apply (mark_failed_logs env req model (Database.queries db) query_id Hfresh
               AtNoServer 0%float _ db2 record); auto.
Qed.

End Logged.

(** The cache of [semantic_cache.py] writes to its own table only. *)
Lemma semantic_cache_keeps_requests {libs : PyLibs} (settings : Settings)
    (clock : LLMInferenceManager.CacheClock) :
  RequestLog.keeps_requests
    (LLMInferenceManager.semantic_cache_object settings clock).
Proof.
  split.
  - intros prompt model_id cache_key db. cbn.
    destruct (SemanticCache.get _ _ _ _ _ _ _ _) as [e|[r rows]];
      [reflexivity | destruct db; reflexivity].
  - intros prompt response model_id prompt_tokens completion_tokens cache_key db.
    cbn.
    destruct (SemanticCache.add _ _ _ _ _ _ _ _ _) as [e|rows];
      [reflexivity | destruct db; reflexivity].
Qed.

Lemma outcome_eta {A B C} (x : A * (B * C)) (a : A) :
  fst x = a -> x = (a, (fst (snd x), snd (snd x))).
Proof. destruct x as [a0 [b c]]. simpl. intros ->. reflexivity. Qed.

Lemma returned_result_is_logged_witness :
  exists record,
    Database.queries (snd (snd Sample.after_first_call))
    = Database.queries Sample.serving_store ++ [record]
    /\ RequestLog.entered Sample.request Sample.m1
         (Database.next_id (map Query.id (Database.queries Sample.serving_store)))
         record
    /\ RequestLog.agrees
         (LLMInferenceManager.Success "X is a letter" "m1" 3 5 8 12%float 1 false)
         record.
Proof.
  apply (returned_result_is_logged default_settings Sample.env Sample.request
           (Sample.manager_with Sample.always_misses)
           (fst (snd Sample.after_first_call))
           Sample.serving_store (snd (snd Sample.after_first_call)) Sample.m1).
  - reflexivity.
  - intros cache Hin. injection Hin as <-. split; intros; reflexivity.
  - apply (outcome_eta Sample.after_first_call). vm_compute. reflexivity.
Defined.

Section Sources.

Import LLMInferenceManager.

Lemma dispatch_success (settings : Settings) (env : Env) (self : t) (req : Request)
    (model : LLMModel.t) (server : ServerNode.t) (query_id : Z)
    (cache_key : option string) (db db' : Database.t)
    (response mname : string) (pt ct total : Z) (ms : float) (qid : Z)
    (cached : bool) :
  dispatch settings env self req model server query_id cache_key db
  = (Success response mname pt ct total ms qid cached, db') ->
  cached = false
  /\ mname = LLMModel.name model
  /\ total = pt + ct
  /\ exists text result,
       post env server (payload_of req model)
       = Http.Response 200 text (Py.ret result)
       /\ r_error result = None
       /\ response = default "" (r_response result)
       /\ pt = default 0 (r_prompt_tokens result)
       /\ ct = default 0 (r_completion_tokens result).
Proof.
  unfold dispatch.
  destruct (post env server (payload_of req model)) as [e|status_code text json];
    [discriminate|].
  destruct (Z.eqb_spec status_code 200) as [->|Hne]; cbn [negb]; [|discriminate].
  destruct json as [e|result]; [discriminate|].
  destruct (r_error result) as [message|] eqn:Herror; [discriminate|].
  destruct (match cache_in_use settings self with
            | Some cache => _
            | None => _
            end) as [[e|[]] db2]; [discriminate|].
  intros [= <- <- <- <- <- <- <- <- <-].
  repeat split. exists text, result. repeat split. exact Herror.
Qed.

(** X18. Every success has a source. A success result of [generate]
    carries the name of the resolved model and the sum of the two token
    counts, and its text is either the response of a cache hit (flag
    [cached] set, the load balancer untouched) or, with the flag clear, the
    [response] field of a status-200 answer without [error] field that a
    server of the balancer's list marked healthy gave to the payload of the
    request. *)
Theorem success_has_a_source (settings : Settings) (env : Env) (req : Request)
    (self self' : t) (db db' : Database.t)
    (response mname : string) (pt ct total : Z) (ms : float) (qid : Z)
    (cached : bool) :
  generate settings env req self db
  = (Py.ret (Success response mname pt ct total ms qid cached), (self', db')) ->
  exists model,
    resolve_model settings req db = Some model
    /\ mname = LLMModel.name model
    /\ total = pt + ct
    /\ if cached then
         exists cache db1 hit db2,
           cache_in_use settings self = Some cache
           /\ cache_get cache (prompt req) (LLMModel.id model)
                (Some (Utils.compute_cache_key (prompt req) (LLMModel.name model)))
                db1
              = (Py.ret (Some hit), db2)
           /\ response = SemanticCache.response hit
           /\ self' = self
       else
         exists server text result,
           In server (LLMLoadBalancer.servers (load_balancer self'))
           /\ LLMLoadBalancer.healthy server = true
           /\ post env server (payload_of req model)
              = Http.Response 200 text (Py.ret result)
           /\ r_error result = None
           /\ response = default "" (r_response result)
           /\ pt = default 0 (r_prompt_tokens result)
           /\ ct = default 0 (r_completion_tokens result).
Proof.
  unfold generate, _generate_with_db.
  destruct (resolve_model settings req db) as [model|]; [|discriminate].
  intros Hgen. exists model. split; [reflexivity|]. revert Hgen.
  unfold Utils.log_query.
  set (query_id := Database.next_id (map Query.id (Database.queries db))).
  set (db1 := Database.set_queries _ db).
  destruct (cache_in_use settings self) as [cache|] eqn:Hin.
  - destruct (cache_get cache (prompt req) (LLMModel.id model) _ db1)
      as [[e|[hit|]] db2] eqn:Hget; [discriminate| |].
    + intros [= <- <- <- <- <- <- <- <- <- <-].
      split; [reflexivity|]. split; [reflexivity|].
      exists cache, db1, hit, db2. auto.
    + pose proof (get_server_cases (time_time env) db2 (LLMModel.name model)
                    (load_balancer self)) as Hcases.
      destruct (LLMLoadBalancer.get_server (time_time env) db2 (LLMModel.name model)
                  (load_balancer self)) as [e|[choice lb]]; [discriminate|].
      destruct Hcases as (Hservers & _ & Hchoice).
      destruct choice as [server|]; [|discriminate].
      unfold Py.ret. cbv beta iota zeta.
      match goal with
      | |- context [dispatch ?a ?b ?c ?d ?e ?f ?g ?h ?i] =>
          destruct (dispatch a b c d e f g h i) as [r0 db3] eqn:Hdispatch
      end.
      intros [= -> <- <-]. 
      destruct (dispatch_success _ _ _ _ _ _ _ _ _ _ _ _ _ _ _ _ _ _ Hdispatch)
        as (-> & -> & -> & text & result & Hpost & Herror & -> & -> & ->).
      split; [reflexivity|]. split; [reflexivity|].
      exists server, text, result. cbn [load_balancer]. rewrite Hservers.
      destruct Hchoice. auto 10.
  - pose proof (get_server_cases (time_time env) db1 (LLMModel.name model)
                  (load_balancer self)) as Hcases.
    cbv beta iota zeta.
    destruct (LLMLoadBalancer.get_server (time_time env) db1 (LLMModel.name model)
                (load_balancer self)) as [e|[choice lb]]; [discriminate|].
    destruct Hcases as (Hservers & _ & Hchoice).
    destruct choice as [server|]; [|discriminate].
    unfold Py.ret. cbv beta iota zeta.
    match goal with
    | |- context [dispatch ?a ?b ?c ?d ?e ?f ?g ?h ?i] =>
        destruct (dispatch a b c d e f g h i) as [r0 db3] eqn:Hdispatch
    end.
    intros [= -> <- <-].
    destruct (dispatch_success _ _ _ _ _ _ _ _ _ _ _ _ _ _ _ _ _ _ Hdispatch)
      as (-> & -> & -> & text & result & Hpost & Herror & -> & -> & ->).
    split; [reflexivity|]. split; [reflexivity|].
    exists server, text, result. cbn [load_balancer]. rewrite Hservers.
    destruct Hchoice. auto 10.
Qed.

End Sources.

Lemma success_has_a_source_witness :
  exists model,
    LLMInferenceManager.resolve_model default_settings Sample.request
      Sample.serving_store = Some model
    /\ "m1"%string = LLMModel.name model
    /\ 8 = 3 + 5
    /\ exists server text result,
         In server
            (LLMLoadBalancer.servers
               (LLMInferenceManager.load_balancer
                  (fst (snd Sample.after_first_call))))
         /\ LLMLoadBalancer.healthy server = true
         /\ LLMInferenceManager.post Sample.env server
              (LLMInferenceManager.payload_of Sample.request model)
            = Http.Response 200 text (Py.ret result)
         /\ LLMInferenceManager.r_error result = None
         /\ "X is a letter"%string
            = default "" (LLMInferenceManager.r_response result)
         /\ 3 = default 0 (LLMInferenceManager.r_prompt_tokens result)
         /\ 5 = default 0 (LLMInferenceManager.r_completion_tokens result).
Proof.
  apply (success_has_a_source default_settings Sample.env Sample.request
           (Sample.manager_with Sample.always_misses)
           (fst (snd Sample.after_first_call))
           Sample.serving_store (snd (snd Sample.after_first_call))
           "X is a letter" "m1" 3 5 8 12%float 1 false).
  apply (outcome_eta Sample.after_first_call). vm_compute. reflexivity.
Defined.

Section KeyShape.

Import Hashlib.

Lemma hex_digit_ok (n : Z) :
  0 <= n < 16 -> CacheKey.is_hex_digit (hex_digit n) = true.
Proof.
  intros Hn. unfold hex_digit.
  assert (Hk : (Z.to_nat n < 16)%nat) by lia.
  revert Hk. generalize (Z.to_nat n). intros k Hk.
  do 16 (destruct k as [|k]; [reflexivity|]). lia.
Qed.

Lemma hex_of_byte_ok (b : byte) :
  forallb CacheKey.is_hex_digit (hex_of_byte b) = true.
Proof.
  pose proof (zbyte_range b) as Hb. unfold hex_of_byte. cbn [forallb].
  rewrite !hex_digit_ok; [reflexivity| |].
  - change 0xF with (Z.ones 4). rewrite Z.land_ones by lia.
    apply Z.mod_pos_bound. lia.
  - rewrite Z.shiftr_div_pow2 by lia. change (2 ^ 4) with 16.
    split; [apply Z.div_pos; lia | apply Z.div_lt_upper_bound; lia].
Qed.

Lemma hexdigest_shape (msg : list byte) :
  String.length (md5_hexdigest msg) = 32%nat
  /\ forallb CacheKey.is_hex_digit (list_ascii_of_string (md5_hexdigest msg)) = true.
Proof.
  unfold md5_hexdigest. rewrite list_ascii_of_string_of_list_ascii.
  split.
  - rewrite <- (list_ascii_of_string_of_list_ascii
                  (flat_map hex_of_byte (md5_digest msg))) at 1.
    assert (Hlen : forall s, String.length s = length (list_ascii_of_string s)).
    { induction s as [|c s IH]; simpl; congruence. }
    rewrite Hlen, list_ascii_of_string_of_list_ascii.
    pose proof (md5_digest_length msg) as H16.
    generalize dependent (md5_digest msg). intros digest H16.
    do 17 (destruct digest as [|? digest]; try discriminate H16). reflexivity.
  - induction (md5_digest msg) as [|b digest IH]; [reflexivity|].
    cbn [flat_map]. rewrite forallb_app, hex_of_byte_ok, IH. reflexivity.
Qed.

End KeyShape.

(** X19. A cache key is always 32 characters long, each of them one of
    [0-9a-f]; in particular it is never empty, so a look-up that is given a
    computed key always takes the look-up by key first. *)
Theorem compute_cache_key_shape (prompt model : string) :
  String.length (Utils.compute_cache_key prompt model) = 32%nat
  /\ forallb CacheKey.is_hex_digit
       (list_ascii_of_string (Utils.compute_cache_key prompt model)) = true
  /\ Py.truthy (Some (Utils.compute_cache_key prompt model)) = true.
Proof.
  unfold Utils.compute_cache_key. cbv zeta.
  destruct (hexdigest_shape (Hashlib.encode (prompt +:+ ":" +:+ model)))
    as [Hlen Hhex].
  split; [exact Hlen|]. split; [exact Hhex|].
  destruct (Hashlib.md5_hexdigest _); [discriminate Hlen | reflexivity].
Qed.

(** X22. An API key authenticates only a live key and a live user: when
    [verify_api_key] returns a user, that user is a stored active user, and
    the table of keys holds an active key with the given text that belongs
    to that user and whose expiry, if it has one, is not before the reading
    of the clock. So a revoked or expired key, a key without owner and the
    key of a deactivated user are all refused. *)
Theorem verify_api_key_sound (api_keys : list ApiKey.t) (users : list User.t)
    (now : Py.datetime) (api_key : string) (user : User.t) :
  Auth.verify_api_key api_keys users now api_key = Some user ->
  In user users
  /\ User.is_active user = true
  /\ exists row,
       In row api_keys
       /\ ApiKey.key row = api_key
       /\ ApiKey.is_active row = true
       /\ ApiKey.user_id row = Some (User.id user)
       /\ match ApiKey.expires_at row with
          | Some expires_at => now <= expires_at
          | None => True
          end.
Proof.
  unfold Auth.verify_api_key.
  destruct (List.find _ api_keys) as [row|] eqn:Hrow; [|discriminate].
  apply find_some in Hrow as [Hin Hrow].
  apply andb_true_iff in Hrow as [Hkey Hactive]. apply String.eqb_eq in Hkey.
  destruct (match ApiKey.expires_at row with
            | Some expires_at => expires_at <? now
            | None => false
            end) eqn:Hexpired; [discriminate|].
  intros Huser. apply find_some in Huser as [Huin Huser].
  apply andb_true_iff in Huser as [Hid Huactive].
  split; [exact Huin|]. split; [exact Huactive|].
  exists row. repeat split; auto.
  - destruct (ApiKey.user_id row) as [user_id|]; [|discriminate].
    apply Z.eqb_eq in Hid. congruence.
  - destruct (ApiKey.expires_at row) as [expires_at|]; [|exact I].
    apply Z.ltb_ge in Hexpired. exact Hexpired.
Qed.

Lemma verify_api_key_sound_witness :
  In Sample.alice [Sample.alice]
  /\ User.is_active Sample.alice = true
  /\ exists row,
       In row [Sample.revoked_key; Sample.alice_key]
       /\ ApiKey.key row = "s3"%string
       /\ ApiKey.is_active row = true
       /\ ApiKey.user_id row = Some (User.id Sample.alice)
       /\ match ApiKey.expires_at row with
          | Some expires_at => 100 <= expires_at
          | None => True
          end.
Proof.
  apply (verify_api_key_sound [Sample.revoked_key; Sample.alice_key]
           [Sample.alice] 100 "s3" Sample.alice).
  reflexivity.
Defined.

Section HealthChecks.

Import Health.

Context {A : Type}.

Variable http_get : ServerNode.t -> Http.reply A.

(** Only a status 200 gives the status text that [get_server] looks for. *)
Lemma check_healthy (reply : Http.reply A) :
  (snd (check_server_health reply) = "healthy"%string
   <-> exists text json, reply = Http.Response 200 text json)
  /\ (fst (check_server_health reply) = true
      <-> snd (check_server_health reply) = "healthy"%string).
Proof.
  unfold check_server_health.
  destruct reply as [e|status_code text json].
  - cbn. split; split; try discriminate. intros (t & j & H). discriminate H.
  - destruct (Z.eqb_spec status_code 200) as [->|Hne]; cbn.
    + split; split; auto. intros _. eauto.
    + split; split; try discriminate. intros (t & j & H). congruence.
Qed.

Lemma update_first_map {B} (p : B -> bool) (f : B -> B) (key : B -> Z)
    (rows : list B) :
  (forall x y, p x = true -> p y = true -> key x = key y) ->
  NoDup (map key rows) ->
  Utils.update_first p f rows = map (fun x => if p x then f x else x) rows.
Proof.
  intros Hkey. induction rows as [|x rows IH]; intros Hnodup; [reflexivity|].
  simpl in Hnodup. apply NoDup_cons in Hnodup as [Hx Hnodup]. simpl.
  destruct (p x) eqn:Hpx.
  - f_equal. symmetry. rewrite <- (map_id rows) at 2.
    apply map_ext_in. intros y Hy.
    destruct (p y) eqn:Hpy; [|reflexivity].
    exfalso. apply Hx. rewrite (Hkey x y Hpx Hpy).
    apply list_elem_of_In, in_map, Hy.
  - f_equal. apply IH. exact Hnodup.
Qed.

Lemma with_health_status_id (status : string) (server : ServerNode.t) :
  ServerNode.id (with_health_status status server) = ServerNode.id server.
Proof. reflexivity. Qed.

Lemma probe_fold (servers : list ServerNode.t) (db : Database.t) :
  NoDup (map ServerNode.id servers) ->
  NoDup (map ServerNode.id (Database.server_nodes db)) ->
  Database.server_nodes
    (fold_left
       (fun db server =>
          let '(_, status) := check_server_health (http_get server) in
          update_server_health db (ServerNode.id server) status)
       servers db)
  = map (fun row =>
           match probed http_get servers row with
           | Some status => with_health_status status row
           | None => row
           end)
        (Database.server_nodes db).
Proof.
  revert db. induction servers as [|s servers IH]; intros db Hservers Hrows.
  - cbn. symmetry. apply map_id.
  - simpl in Hservers. apply NoDup_cons in Hservers as [Hs Hservers].
    cbn [fold_left].
    destruct (check_server_health (http_get s)) as [ok status] eqn:Hcheck.
    assert (Hstep :
              Database.server_nodes (update_server_health db (ServerNode.id s) status)
              = map (fun row => if ServerNode.id row =? ServerNode.id s
                                then with_health_status status row else row)
                    (Database.server_nodes db)).
    { unfold update_server_health. destruct db. cbn.
      apply (update_first_map _ _ ServerNode.id); [|exact Hrows].
      intros x y Hx Hy. apply Z.eqb_eq in Hx, Hy. congruence. }
    rewrite IH; [|exact Hservers|].
    + rewrite Hstep, map_map. apply map_ext. intros row.
      unfold probed. cbn [List.find].
      destruct (Z.eqb_spec (ServerNode.id row) (ServerNode.id s)) as [Heq|Hne].
      * rewrite with_health_status_id.
        assert (Hnone : List.find
                          (fun server => ServerNode.id server =? ServerNode.id row)
                          servers = None).
        { destruct (List.find _ servers) as [s'|] eqn:Hfind; [|reflexivity].
          apply find_some in Hfind as [Hin Hid]. apply Z.eqb_eq in Hid.
          exfalso. apply Hs. rewrite <- Heq, <- Hid.
          apply list_elem_of_In, in_map, Hin. }
        rewrite Hnone. cbn [option_map].
        assert (Hs' : (ServerNode.id s =? ServerNode.id row) = true)
          by (apply Z.eqb_eq; congruence).
        rewrite Hs'. cbn [option_map]. rewrite Hcheck. reflexivity.
      * assert (Hs' : (ServerNode.id s =? ServerNode.id row) = false)
          by (apply Z.eqb_neq; congruence).
        rewrite Hs'. reflexivity.
    + rewrite Hstep, map_map.
      erewrite map_ext; [exact Hrows|].
      intros row. cbn beta. destruct (_ =? _); reflexivity.
Qed.

(** X23. What a round of health checks leaves. With distinct ids in the
    server table and in the balancer's list, [_check_all_servers_health]
    gives every row whose id is in the list the status text of the probe
    of that listed server and leaves the other rows as they were; the list
    is then reloaded as the active rows. A probed server is marked healthy
    afterwards exactly when its health endpoint answered with status
    200. *)
Theorem health_check_marks_servers (time_time : Z -> float) (db : Database.t)
    (self : LLMLoadBalancer.t) :
  NoDup (map ServerNode.id (LLMLoadBalancer.servers self)) ->
  NoDup (map ServerNode.id (Database.server_nodes db)) ->
  let result := _check_all_servers_health http_get time_time db self in
  Database.server_nodes (snd result)
  = map (fun row =>
           match probed http_get (LLMLoadBalancer.servers self) row with
           | Some status => with_health_status status row
           | None => row
           end)
        (Database.server_nodes db)
  /\ LLMLoadBalancer.servers (fst result)
     = List.filter ServerNode.is_active (Database.server_nodes (snd result))
  /\ forall server row,
       In server (LLMLoadBalancer.servers self) ->
       In row (LLMLoadBalancer.servers (fst result)) ->
       ServerNode.id row = ServerNode.id server ->
       (LLMLoadBalancer.healthy row = true
        <-> exists text json, http_get server = Http.Response 200 text json).
Proof.
  intros Hservers Hrows. cbn zeta.
  pose proof (probe_fold (LLMLoadBalancer.servers self) db Hservers Hrows) as Hfold.
  unfold _check_all_servers_health. cbn [fst snd].
  split; [exact Hfold|]. split; [reflexivity|].
  intros server row Hserver Hrow Hid.
  cbn [LLMLoadBalancer.refresh_servers LLMLoadBalancer.servers
       LLMLoadBalancer.set_server_metrics LLMLoadBalancer.set_servers] in Hrow.
  apply filter_In in Hrow as [Hrow _]. rewrite Hfold in Hrow.
  apply in_map_iff in Hrow as (row0 & <- & Hrow0).
  assert (Hid0 : ServerNode.id row0 = ServerNode.id server).
  { destruct (probed _ _ row0); exact Hid. }
  assert (Hprobed : probed http_get (LLMLoadBalancer.servers self) row0
                    = Some (snd (check_server_health (http_get server)))).
  { unfold probed.
    destruct (List.find _ (LLMLoadBalancer.servers self)) as [s'|] eqn:Hfind.
    - apply find_some in Hfind as [Hin Hs']. apply Z.eqb_eq in Hs'.
      cbn [option_map]. do 3 f_equal.
      clear -Hservers Hserver Hin Hs' Hid0.
      assert (Hsame : ServerNode.id s' = ServerNode.id server) by congruence.
      induction (LLMLoadBalancer.servers self) as [|x l IH]; [destruct Hin|].
      simpl in Hservers. apply NoDup_cons in Hservers as [Hx Hl].
      destruct Hin as [->|Hin], Hserver as [->|Hserver]; try reflexivity.
      + exfalso. apply Hx. rewrite Hsame. apply list_elem_of_In, in_map, Hserver.
      + exfalso. apply Hx. rewrite <- Hsame. apply list_elem_of_In, in_map, Hin.
      + apply IH; assumption.
    - exfalso.
      apply (find_none _ _ Hfind server) in Hserver.
      apply Z.eqb_neq in Hserver. congruence. }
  rewrite Hprobed. unfold LLMLoadBalancer.healthy. cbn [ServerNode.health_status
    with_health_status].
  rewrite String.eqb_eq. apply (proj1 (check_healthy (http_get server))).
Qed.

End HealthChecks.

Lemma health_check_marks_servers_witness :
  let result :=
    Health._check_all_servers_health Sample.unreachable Sample.clock2000
      Sample.monitored_store Sample.monitored in
  Database.server_nodes (snd result)
  = map (fun row =>
           match Health.probed Sample.unreachable
                   (LLMLoadBalancer.servers Sample.monitored) row with
           | Some status => Health.with_health_status status row
           | None => row
           end)
        (Database.server_nodes Sample.monitored_store)
  /\ LLMLoadBalancer.servers (fst result)
     = List.filter ServerNode.is_active (Database.server_nodes (snd result))
  /\ forall server row,
       In server (LLMLoadBalancer.servers Sample.monitored) ->
       In row (LLMLoadBalancer.servers (fst result)) ->
       ServerNode.id row = ServerNode.id server ->
       (LLMLoadBalancer.healthy row = true
        <-> exists text json,
              Sample.unreachable server = Http.Response 200 text json).
Proof.
  apply (health_check_marks_servers Sample.unreachable Sample.clock2000
           Sample.monitored_store Sample.monitored);
    apply (bool_decide_unpack _); exact I.
Defined.

(** After a round of checks in which no probe is answered, the balancer
    has no server left to return. *)
Example unreachable_servers_are_not_selected :
  match LLMLoadBalancer.get_server Sample.clock2000
          (snd (Health._check_all_servers_health Sample.unreachable
                  Sample.clock2000 Sample.monitored_store Sample.monitored))
          "m1"
          (fst (Health._check_all_servers_health Sample.unreachable
                  Sample.clock2000 Sample.monitored_store Sample.monitored))
  with
  | inr (None, _) => True
  | _ => False
  end.
Proof. vm_compute. exact I. Qed.
